(** * News summarizer: content extraction, summarization and sentiment

    A shallow embedding of [app.py]: the article extractor
    [fetch_full_article], the completion client [groq_chat], the two
    analyzers [summarize_text] and [analyze_sentiment], and the route
    [summarize] that chains them.

    Conventions.
    - A Python [str] is a list of Unicode code points ([list N]); [py "..."]
      writes an ASCII literal.
    - What the Python runtime and its libraries decide (case tables,
      [json.loads], [float] on a string) is a class [PyRuntime]; every
      general theorem holds for all of its instances, and [model_runtime]
      is the instance used to evaluate the program on concrete inputs.
    - Network calls are the two events of [prog]; an environment answers
      them.
    - A function that can raise gives an [outcome]; a function that
      catches what it raises gives [None] instead. *)

From Stdlib Require Import Ascii String.
From Stdlib Require Import List NArith ZArith QArith Bool Lia.
Import ListNotations.
Local Open Scope N_scope.

(** ** Strings *)

Definition char := N.
Definition str := list char.

Definition py (s : string) : str := map N_of_ascii (list_ascii_of_string s).

Definition len (s : str) : nat := length s.

Fixpoint str_eqb (a b : str) : bool :=
  match a, b with
  | [], [] => true
  | x :: a', y :: b' => (x =? y) && str_eqb a' b'
  | _, _ => false
  end.

(** [str.isspace] for one character, which is also the class [\s] of a
    [str] pattern. *)
Definition isspace (c : char) : bool :=
  ((9 <=? c) && (c <=? 13)) || ((28 <=? c) && (c <=? 32))
  || (c =? 133) || (c =? 160) || (c =? 5760)
  || ((8192 <=? c) && (c <=? 8202))
  || (c =? 8232) || (c =? 8233) || (c =? 8239) || (c =? 8287) || (c =? 12288).

(** The class [[.!?]] *)
Definition is_terminal (c : char) : bool := (c =? 46) || (c =? 33) || (c =? 63).

Fixpoint lstrip (s : str) : str :=
  match s with
  | c :: s' => if isspace c then lstrip s' else s
  | [] => []
  end.

Definition rstrip (s : str) : str := rev (lstrip (rev s)).

(** [s.strip()] *)
Definition strip (s : str) : str := rstrip (lstrip s).

(** Truth value of a string: [if s] *)
Definition truthy (s : str) : bool :=
  match s with [] => false | _ :: _ => true end.

Fixpoint startswith (p s : str) : bool :=
  match p, s with
  | [], _ => true
  | x :: p', y :: s' => (x =? y) && startswith p' s'
  | _ :: _, [] => false
  end.

(** [sub in s] for strings *)
Fixpoint contains (sub s : str) : bool :=
  startswith sub s ||
  match s with
  | [] => false
  | _ :: s' => contains sub s'
  end.

(** [sep.join(parts)] *)
Fixpoint join (sep : str) (parts : list str) : str :=
  match parts with
  | [] => []
  | [p] => p
  | p :: ps => p ++ sep ++ join sep ps
  end.

(** ** Values decoded from JSON *)

(** A Python [float]; a finite one is given by the rational it stands for. *)
Inductive pyfloat :=
| Finite (q : Q)
| PosInf
| NegInf
| NaN.

#[warnings="-register-all"]
Inductive pyval :=
| PyNone
| PyBool (b : bool)
| PyInt (z : Z)
| PyFloat (f : pyfloat)
| PyStr (s : str)
| PyList (l : list pyval)
| PyDict (d : list (str * pyval)).

(** Outcome of [json.loads]. *)
Inductive json_result :=
| Decoded (v : pyval)
| JSONDecodeError
| LoadsOtherError.

Fixpoint dict_lookup (d : list (str * pyval)) (key : str) : option pyval :=
  match d with
  | [] => None
  | (k, v) :: d' => if str_eqb k key then Some v else dict_lookup d' key
  end.

(** [d.get(key, default)] *)
Definition dict_get (d : list (str * pyval)) (key : str) (default : pyval) : pyval :=
  match dict_lookup d key with
  | Some v => v
  | None => default
  end.

(** ** The runtime *)

Class PyRuntime := {
  (** [s.lower()] *)
  str_lower : str -> str;
  (** whether a character of the text matches a lower-case letter of a
      pattern compiled with [re.IGNORECASE] *)
  re_ignorecase : char -> char -> bool;
  (** the class [\w] *)
  re_word : char -> bool;
  (** [json.loads(s)] *)
  json_loads : str -> json_result;
  (** [float(s)] on a string; [None] when it raises [ValueError] *)
  float_of_str : str -> option pyfloat;
  (** whether [print] raises [UnicodeEncodeError] on a line that holds the
      text [s] as it is: the standard output cannot encode one of its
      characters (under UTF-8, a lone surrogate).  The fixed parts of the
      messages, and what [repr] writes, can be encoded. *)
  print_raises : str -> bool
}.

(** ** Regular expressions

    The fragment of [re] the program uses, matched by backtracking in the
    order [re] tries the alternatives.  A continuation receives the
    character before the current position and the rest of the input. *)

Inductive regex :=
| RChar (p : char -> bool)
| RSeq (r1 r2 : regex)
| RAlt (r1 r2 : regex)
| RStar (greedy : bool) (p : char -> bool)
| RWordBoundary
| RLookBehind (p : char -> bool).

Section Regex.
Context {rt : PyRuntime}.

Definition kont := option char -> str -> option str.

Fixpoint star (greedy : bool) (p : char -> bool) (k : kont)
         (prev : option char) (s : str) {struct s} : option str :=
  match s with
  | c :: s' =>
      if p c then
        if greedy then
          match star greedy p k (Some c) s' with
          | Some rest => Some rest
          | None => k prev s
          end
        else
          match k prev s with
          | Some rest => Some rest
          | None => star greedy p k (Some c) s'
          end
      else k prev s
  | [] => k prev s
  end.

Definition is_word (c : option char) : bool :=
  match c with
  | Some c => re_word c
  | None => false
  end.

Fixpoint rmatch (r : regex) (k : kont) (prev : option char) (s : str) : option str :=
  match r with
  | RChar p =>
      match s with
      | c :: s' => if p c then k (Some c) s' else None
      | [] => None
      end
  | RSeq r1 r2 => rmatch r1 (rmatch r2 k) prev s
  | RAlt r1 r2 =>
      match rmatch r1 k prev s with
      | Some rest => Some rest
      | None => rmatch r2 k prev s
      end
  | RStar greedy p => star greedy p k prev s
  | RWordBoundary =>
      if xorb (is_word prev) (is_word (hd_error s)) then k prev s else None
  | RLookBehind p =>
      match prev with
      | Some c => if p c then k prev s else None
      | None => None
      end
  end.

(** Length of the match of [r] that starts at the current position. *)
Definition match_at (r : regex) (prev : option char) (s : str) : option nat :=
  match rmatch r (fun _ rest => Some rest) prev s with
  | Some rest => Some (length s - length rest)%nat
  | None => None
  end.

(** [re.sub(r, repl, s)]: [skip] counts the characters of the current
    match that are still to be dropped. *)
Fixpoint sub_scan (r : regex) (repl : str) (skip : nat)
         (prev : option char) (s : str) : str :=
  match s with
  | [] =>
      match skip, match_at r prev [] with
      | O, Some _ => repl
      | _, _ => []
      end
  | c :: s' =>
      match skip with
      | S n => sub_scan r repl n (Some c) s'
      | O =>
          match match_at r prev s with
          | Some (S n) => repl ++ sub_scan r repl n (Some c) s'
          | Some O => repl ++ c :: sub_scan r repl 0 (Some c) s'
          | None => c :: sub_scan r repl 0 (Some c) s'
          end
      end
  end.

Definition re_sub (r : regex) (repl s : str) : str := sub_scan r repl 0 None s.

(** [re.split(r, s)] for a pattern that matches no empty string: the
    piece in progress and the pieces after it. *)
Fixpoint split_scan (r : regex) (skip : nat) (prev : option char) (s : str)
  : str * list str :=
  match s with
  | [] => ([], [])
  | c :: s' =>
      match skip with
      | S n => split_scan r n (Some c) s'
      | O =>
          match match_at r prev s with
          | Some (S n) =>
              let '(piece, pieces) := split_scan r n (Some c) s' in
              ([], piece :: pieces)
          | _ =>
              let '(piece, pieces) := split_scan r 0 (Some c) s' in
              (c :: piece, pieces)
          end
      end
  end.

Definition re_split (r : regex) (s : str) : list str :=
  let '(piece, pieces) := split_scan r 0 None s in piece :: pieces.

(** [re.search(r, s)]: the text of the leftmost match. *)
Fixpoint search_scan (r : regex) (prev : option char) (s : str) : option str :=
  match match_at r prev s with
  | Some n => Some (firstn n s)
  | None =>
      match s with
      | [] => None
      | c :: s' => search_scan r (Some c) s'
      end
  end.

Definition re_search (r : regex) (s : str) : option str := search_scan r None s.

Definition lit (c : string) : regex :=
  RChar (fun x => str_eqb [x] (py c)).

(** A literal word of a pattern compiled with [re.IGNORECASE]. *)
Fixpoint word_ci (w : str) : regex :=
  match w with
  | [] => RStar true (fun _ => false)
  | [c] => RChar (fun x => re_ignorecase x c)
  | c :: w' => RSeq (RChar (fun x => re_ignorecase x c)) (word_ci w')
  end.

Definition any_char (c : char) : bool := true.
(** [.] without [re.DOTALL] *)
Definition dot (c : char) : bool := negb (c =? 10).

(** [\s+] *)
Definition re_spaces : regex := RSeq (RChar isspace) (RStar true isspace).

(** [ADVERTISEMENT.*?\.\s*] with [re.IGNORECASE] *)
Definition re_advertisement : regex :=
  RSeq (word_ci (py "advertisement"))
    (RSeq (RStar false dot) (RSeq (lit ".") (RStar true isspace))).

(** [\b(?:please|subscribe|share|comment|like)\b.*?\.] with [re.IGNORECASE] *)
Definition re_promo : regex :=
  RSeq RWordBoundary
    (RSeq (RAlt (word_ci (py "please"))
             (RAlt (word_ci (py "subscribe"))
                (RAlt (word_ci (py "share"))
                   (RAlt (word_ci (py "comment")) (word_ci (py "like"))))))
       (RSeq RWordBoundary (RSeq (RStar false dot) (lit ".")))).

(** [(?<=[.!?])\s+] *)
Definition re_sentence_end : regex := RSeq (RLookBehind is_terminal) re_spaces.

(** [\{.*\}] with [re.DOTALL] *)
Definition re_braces : regex :=
  RSeq (lit "{") (RSeq (RStar true any_char) (lit "}")).

End Regex.

(** ** The document tree

    What [BeautifulSoup(body, 'html.parser')] builds: text nodes and tags
    with their attributes.  Tag and attribute names are the lower-case
    names the parser produces; the root is the tag ["[document]"]. *)

#[warnings="-register-all"]
Inductive node :=
| Text (s : str)
| Tag (name : str) (attrs : list (str * str)) (children : list node).

Inductive selector :=
| SelTag (name : str)                  (* name *)
| SelClass (cls : str)                 (* .cls *)
| SelAttrEq (attr value : str)         (* [attr="value"] *)
| SelClassContains (sub : str)         (* [class*="sub"] *)
| SelId (id : str).                    (* #id *)

Fixpoint attr_lookup (attrs : list (str * str)) (key : str) : option str :=
  match attrs with
  | [] => None
  | (k, v) :: attrs' => if str_eqb k key then Some v else attr_lookup attrs' key
  end.

(** The whitespace-separated tokens of an attribute value, the way the
    parser stores [class]. *)
Fixpoint tokens_scan (cur : str) (s : str) : list str :=
  match s with
  | [] => match cur with [] => [] | _ => [rev cur] end
  | c :: s' =>
      if isspace c
      then match cur with [] => tokens_scan [] s' | _ => rev cur :: tokens_scan [] s' end
      else tokens_scan (c :: cur) s'
  end.

Definition tokens (s : str) : list str := tokens_scan [] s.

Definition class_list (attrs : list (str * str)) : option (list str) :=
  match attr_lookup attrs (py "class") with
  | Some v => Some (tokens v)
  | None => None
  end.

Definition matches (sel : selector) (n : node) : bool :=
  match n with
  | Text _ => false
  | Tag name attrs _ =>
      match sel with
      | SelTag t => str_eqb name t
      | SelClass c =>
          match class_list attrs with
          | Some cl => existsb (str_eqb c) cl
          | None => false
          end
      | SelAttrEq a v =>
          match attr_lookup attrs a with
          | Some x => str_eqb x v
          | None => false
          end
      | SelClassContains sub =>
          match class_list attrs with
          | Some cl => contains sub (join (py " ") cl)
          | None => false
          end
      | SelId i =>
          match attr_lookup attrs (py "id") with
          | Some x => str_eqb x i
          | None => false
          end
      end
  end.

(** The descendants of a node in document order. *)
Fixpoint descendants (n : node) : list node :=
  match n with
  | Text _ => []
  | Tag _ _ cs => flat_map (fun c => c :: descendants c) cs
  end.

(** [soup.select(sel)] *)
Definition select (sel : selector) (soup : node) : list node :=
  filter (matches sel) (descendants soup).

(** [element.decompose()] for every element of [soup.select(sel)] *)
Fixpoint decompose_all (sel : selector) (n : node) : node :=
  match n with
  | Text s => Text s
  | Tag name attrs cs =>
      Tag name attrs
        ((fix kept (l : list node) : list node :=
            match l with
            | [] => []
            | c :: l' =>
                if matches sel c then kept l' else decompose_all sel c :: kept l'
            end) cs)
  end.

Definition has_name (names : list str) (n : node) : bool :=
  match n with
  | Text _ => false
  | Tag name _ _ => existsb (str_eqb name) names
  end.

(** [n.find_all(names)] *)
Definition find_all (names : list str) (n : node) : list node :=
  filter (has_name names) (descendants n).

(** [n.get_text()] *)
Fixpoint get_text (n : node) : str :=
  match n with
  | Text s => s
  | Tag _ _ cs => flat_map get_text cs
  end.

(** Every descendant with its parent ([find_parent]), in document order. *)
Fixpoint with_parents (n : node) : list (node * node) :=
  match n with
  | Text _ => []
  | Tag _ _ cs => flat_map (fun c => (n, c) :: with_parents c) cs
  end.

Definition attrs_incl (a b : list (str * str)) : bool :=
  forallb (fun kv => match attr_lookup b (fst kv) with
                     | Some v => str_eqb v (snd kv)
                     | None => false
                     end) a.

(** Equality of tags, which compare by name, attributes and contents; it
    is the equality of the keys of [parent_paragraphs]. *)
Fixpoint node_eqb (a b : node) : bool :=
  match a, b with
  | Text s, Text t => str_eqb s t
  | Tag n1 a1 cs1, Tag n2 a2 cs2 =>
      str_eqb n1 n2 && attrs_incl a1 a2 && attrs_incl a2 a1 &&
      (fix all2 (l1 l2 : list node) : bool :=
         match l1, l2 with
         | [], [] => true
         | x :: l1', y :: l2' => node_eqb x y && all2 l1' l2'
         | _, _ => false
         end) cs1 cs2
  | _, _ => false
  end.

(** ** Extraction of the article text: [fetch_full_article] *)

Definition noise_selectors : list selector :=
  [ SelTag (py "script"); SelTag (py "style"); SelTag (py "nav");
    SelTag (py "footer"); SelTag (py "aside"); SelTag (py "header");
    SelClass (py "advertisement"); SelClass (py "ad"); SelClass (py "popup");
    SelClass (py "modal"); SelClass (py "newsletter");
    SelClass (py "social-share"); SelClass (py "comments");
    SelClass (py "related-articles") ].

Definition content_selectors : list selector :=
  [ SelTag (py "article"); SelTag (py "main"); SelAttrEq (py "role") (py "main");
    SelClass (py "article-content"); SelClass (py "story-content");
    SelClass (py "post-content"); SelClass (py "entry-content");
    SelClass (py "content__article-body"); SelClass (py "article__body");
    SelClass (py "article-text"); SelClass (py "post-body");
    SelClass (py "story-body");
    SelClassContains (py "content"); SelClassContains (py "article");
    SelClassContains (py "story");
    SelId (py "article"); SelId (py "content"); SelId (py "main-content") ].

Definition boilerplate_markers : list str :=
  [ py "advertisement"; py "related:"; py "read more:"; py "share this:";
    py "subscribe"; py "newsletter"; py "comment"; py "sponsored" ].

Definition text_tags : list str :=
  [ py "p"; py "h1"; py "h2"; py "h3"; py "li" ].

(** The answer to [requests.get]: the status, the raw body and the tree
    the parser builds from it. *)
Record get_response := {
  get_status : Z;
  content : list N;
  parsed : node
}.

Inductive get_outcome :=
| GetRaised
| GetResponse (r : get_response).

Section Extraction.
Context {rt : PyRuntime}.

(** Lines 108-112: the unwanted elements are removed selector by
    selector. *)
Definition remove_unwanted (soup : node) : node :=
  fold_left (fun t sel => decompose_all sel t) noise_selectors soup.

(** Lines 124-130: the first element of the first selector that selects
    anything. *)
Fixpoint first_selected (sels : list selector) (soup : node) : option node :=
  match sels with
  | [] => None
  | sel :: sels' =>
      match select sel soup with
      | element :: _ => Some element
      | [] => first_selected sels' soup
      end
  end.

(** Lines 138-144: [parent_paragraphs], in insertion order. *)
Fixpoint add_paragraph (parent p : node) (groups : list (node * list node))
  : list (node * list node) :=
  match groups with
  | [] => [(parent, [p])]
  | (q, ps) :: groups' =>
      if node_eqb q parent then (q, ps ++ [p]) :: groups'
      else (q, ps) :: add_paragraph parent p groups'
  end.

Definition is_paragraph (pc : node * node) : bool := has_name [py "p"] (snd pc).

Definition parent_paragraphs (soup : node) : list (node * list node) :=
  fold_left (fun groups pc => add_paragraph (fst pc) (snd pc) groups)
    (filter is_paragraph (with_parents soup)) [].

(** [max(items, key=lambda x: len(x[1]))]: the first item of greatest
    length. *)
Fixpoint max_by_len (best : node * list node) (items : list (node * list node))
  : node * list node :=
  match items with
  | [] => best
  | item :: items' =>
      if (length (snd best) <? length (snd item))%nat
      then max_by_len item items'
      else max_by_len best items'
  end.

(** Lines 133-150: the paragraph-grouping fallback. *)
Definition largest_text_block (soup : node) : option node :=
  let paragraphs := find_all [py "p"] soup in
  if (3 <? length paragraphs)%nat then
    match parent_paragraphs soup with
    | [] => None
    | item :: items => Some (fst (max_by_len item items))
    end
  else None.

Definition find_content (soup : node) : option node :=
  match first_selected content_selectors soup with
  | Some element => Some element
  | None => largest_text_block soup
  end.

(** Lines 158-161: the test a fragment passes to be kept. *)
Definition keep_fragment (text : str) : bool :=
  (30 <? len text)%nat &&
  negb (existsb (fun prefix => contains prefix (str_lower text))
          boilerplate_markers).

(** Lines 155-162: [texts] *)
Definition kept_fragments (content : node) : list str :=
  filter keep_fragment
    (map (fun element => strip (get_text element)) (find_all text_tags content)).

(** Lines 155-168 *)
Definition collect_text (content : node) : str :=
  match kept_fragments content with
  | [] => get_text content
  | texts => join [10] texts
  end.

(** Lines 171-174 *)
Definition clean_text (text : str) : str :=
  let text := re_sub re_spaces (py " ") text in
  let text := re_sub re_advertisement [] text in
  let text := re_sub re_promo [] text in
  strip text.

(** Lines 105-185, from the parsed tree on. *)
Definition extract_article (soup : node) : option str :=
  let soup := remove_unwanted soup in
  match find_content soup with
  | Some content =>
      let text := clean_text (collect_text content) in
      if (200 <? len text)%nat then Some text else None
  | None => None
  end.

(** [response.raise_for_status()] raises on a 4xx or 5xx status. *)
Definition raises_for_status (status : Z) : bool :=
  ((400 <=? status) && (status <? 600))%Z.

(** Lines 98-189, from the answer of [requests.get] on; any exception
    ends in [None]. *)
Definition article_of_response (o : get_outcome) : option str :=
  match o with
  | GetRaised => None
  | GetResponse response =>
      if raises_for_status (get_status response) then None
      else if (length (content response) <? 1000)%nat then None
      else extract_article (parsed response)
  end.

End Extraction.

(** ** Programs that call the network *)

(** The request [groq_chat] posts: the bearer token and the JSON body. *)
Record post_request := {
  post_url : str;
  bearer : str;
  model : str;
  messages : list (str * str);
  temperature : Q;
  max_tokens : Z
}.

Inductive request_exception :=
| Timeout
| ConnectionError
| RequestException
| OtherException.

(** The answer to [requests.post]; [response_json] is [response.json()],
    [None] when it raises. *)
Record post_response := {
  post_status : Z;
  response_json : option pyval
}.

Inductive post_outcome :=
| PostRaised (e : request_exception)
| PostResponse (r : post_response).

Inductive prog (A : Type) : Type :=
| Ret (a : A)
| Get (url : str) (k : get_outcome -> prog A)
| Post (req : post_request) (k : post_outcome -> prog A).

Arguments Ret {A} a.
Arguments Get {A} url k.
Arguments Post {A} req k.

Fixpoint prog_bind {A B : Type} (p : prog A) (f : A -> prog B) : prog B :=
  match p with
  | Ret a => f a
  | Get url k => Get url (fun o => prog_bind (k o) f)
  | Post req k => Post req (fun o => prog_bind (k o) f)
  end.

Notation "x <~ p ;; q" := (prog_bind p (fun x => q))
  (at level 61, p at next level, right associativity).

(** The world outside: what the two calls answer.  One run of the route
    makes at most one page request and two completion requests with
    different prompts, so a function of the request can give each of them
    any answer. *)
Record world := {
  http_get : str -> get_outcome;
  http_post : post_request -> post_outcome
}.

Fixpoint run {A : Type} (w : world) (p : prog A) : A :=
  match p with
  | Ret a => a
  | Get url k => run w (k (http_get w url))
  | Post req k => run w (k (http_post w req))
  end.

(** The number of network calls of a run. *)
Fixpoint calls {A : Type} (w : world) (p : prog A) : nat :=
  match p with
  | Ret _ => 0
  | Get url k => S (calls w (k (http_get w url)))
  | Post req k => S (calls w (k (http_post w req)))
  end.

(** ** Operations on decoded values, [None] when Python raises *)

Definition raising_bind {A B : Type} (o : option A) (f : A -> option B) : option B :=
  match o with
  | Some a => f a
  | None => None
  end.

Notation "x <- o ;; q" := (raising_bind o (fun x => q))
  (at level 61, o at next level, right associativity).

Definition pyval_is_str (key : str) (v : pyval) : bool :=
  match v with
  | PyStr s => str_eqb s key
  | _ => false
  end.

(** [key in v] *)
Definition py_in (key : str) (v : pyval) : option bool :=
  match v with
  | PyDict d => Some (match dict_lookup d key with Some _ => true | None => false end)
  | PyList l => Some (existsb (pyval_is_str key) l)
  | PyStr s => Some (contains key s)
  | _ => None
  end.

(** [v[key]] for a string key *)
Definition py_getitem (v : pyval) (key : str) : option pyval :=
  match v with
  | PyDict d => dict_lookup d key
  | _ => None
  end.

(** [v[0]] *)
Definition py_first (v : pyval) : option pyval :=
  match v with
  | PyList (x :: _) => Some x
  | PyStr (c :: _) => Some (PyStr [c])
  | _ => None
  end.

Definition float_truth (f : pyfloat) : bool :=
  match f with
  | Finite q => negb (Qeq_bool q 0)
  | _ => true
  end.

(** [bool(v)] *)
Definition py_truth (v : pyval) : bool :=
  match v with
  | PyNone => false
  | PyBool b => b
  | PyInt z => negb (z =? 0)%Z
  | PyFloat f => float_truth f
  | PyStr s => truthy s
  | PyList l => match l with [] => false | _ => true end
  | PyDict d => match d with [] => false | _ => true end
  end.

(** [v.strip()] *)
Definition py_strip (v : pyval) : option str :=
  match v with
  | PyStr s => Some (strip s)
  | _ => None
  end.

(** [v.get] exists on a [dict] only. *)
Definition as_dict (v : pyval) : option (list (str * pyval)) :=
  match v with
  | PyDict d => Some d
  | _ => None
  end.

(** [len(v)], [None] when it raises [TypeError] *)
Definition py_len (v : pyval) : option nat :=
  match v with
  | PyStr s => Some (length s)
  | PyList l => Some (length l)
  | PyDict d => Some (length d)
  | _ => None
  end.

(** The largest [int] that [float] converts is below [2^1024 - 2^970]. *)
Definition float_max_int : Z := (2 ^ 1024 - 2 ^ 970)%Z.

(** The [float] nearest to an integer: 53 significant bits are kept, and
    a tie goes to the even one. *)
Definition float_of_int (z : Z) : Z :=
  let a := Z.abs z in
  let e := (Z.log2 a - 52)%Z in
  if (e <=? 0)%Z then z
  else
    let q := Z.shiftr a e in
    let r := Z.land a (Z.ones e) in
    let tie := Z.shiftl 1 (e - 1) in
    let q := if (tie <? r)%Z || ((r =? tie)%Z && Z.odd q) then (q + 1)%Z else q in
    (Z.sgn z * Z.shiftl q e)%Z.

(** ** Exceptions that leave a function *)

Inductive exception :=
| BadRequest
| AttributeError
| TypeError
| UnicodeEncodeError.

Inductive outcome (A : Type) : Type :=
| Returned (a : A)
| Raised (e : exception).

Arguments Returned {A} a.
Arguments Raised {A} e.

Section Analysis.
Context {rt : PyRuntime}.
Variable GROQ_API_KEY : option str.

Definition key_configured : bool :=
  match GROQ_API_KEY with
  | Some key => truthy key
  | None => false
  end.

(** [v.lower()] *)
Definition py_lower (v : pyval) : option str :=
  match v with
  | PyStr s => Some (str_lower s)
  | _ => None
  end.

(** [float(v)] *)
Definition py_float (v : pyval) : option pyfloat :=
  match v with
  | PyFloat f => Some f
  | PyInt z =>
      if (Z.abs z <? float_max_int)%Z
      then Some (Finite (inject_Z (float_of_int z)))
      else None
  | PyBool b => Some (Finite (if b then 1 else 0))
  | PyStr s => float_of_str s
  | _ => None
  end.

(** *** [groq_chat] *)

(** Lines 66-74, [None] when an exception is raised. *)
Definition completion_content (result : pyval) : option (option str) :=
  has_choices <- py_in (py "choices") result ;;
  if has_choices then
    choices <- py_getitem result (py "choices") ;;
    if py_truth choices then
      choice <- py_first choices ;;
      has_message <- py_in (py "message") choice ;;
      if has_message then
        message <- py_getitem choice (py "message") ;;
        has_content <- py_in (py "content") message ;;
        if has_content then
          raw <- py_getitem message (py "content") ;;
          content <- py_strip raw ;;
          Some (Some content)
        else Some None
      else Some None
    else Some None
  else Some None.

Definition groq_chat_response (o : post_outcome) : option str :=
  match o with
  | PostRaised _ => None
  | PostResponse response =>
      if (post_status response =? 401)%Z then None
      else if (post_status response =? 429)%Z then None
      else if (400 <=? post_status response)%Z then None
      else
        match response_json response with
        | None => None
        | Some result =>
            match completion_content result with
            | Some (Some content) => Some content
            | _ => None
            end
        end
  end.

Definition groq_request (messages : list (str * str)) (model : str)
           (temperature : Q) (max_tokens : Z) : post_request :=
  {| post_url := py "https://api.groq.com/openai/v1/chat/completions";
     bearer := match GROQ_API_KEY with Some key => key | None => [] end;
     model := model;
     messages := messages;
     temperature := temperature;
     max_tokens := max_tokens |}.

Definition groq_chat (messages : list (str * str)) (model : str)
           (temperature : Q) (max_tokens : Z) : prog (option str) :=
  if negb key_configured then Ret None
  else
    Post (groq_request messages model temperature max_tokens)
      (fun o => Ret (groq_chat_response o)).

(** *** [analyze_sentiment] *)

Definition neutral : str := py "neutral".
Definition half : pyfloat := Finite (1 # 2).

Definition sentiment_labels : list str :=
  [ py "positive"; py "negative"; py "neutral" ].

Definition positive_words : list str :=
  [ py "positive"; py "optimistic"; py "favorable"; py "good"; py "great";
    py "excellent"; py "bullish" ].

Definition negative_words : list str :=
  [ py "negative"; py "pessimistic"; py "unfavorable"; py "bad"; py "poor";
    py "terrible"; py "bearish" ].

Definition sentiment_system_prompt : str :=
  py "You are a sentiment analysis expert. Analyze the sentiment of the provided news text and respond with ONLY a JSON object containing two keys: 'sentiment' (which should be 'positive', 'negative', or 'neutral') and 'confidence' (a float between 0 and 1 representing your confidence in the sentiment analysis). Be precise and factual in your analysis.".

Definition sentiment_messages (text : str) : list (str * str) :=
  let truncated_text := firstn (N.to_nat 4000) text in
  [ (py "system", sentiment_system_prompt);
    (py "user",
     py "Analyze the sentiment of this news text. Consider the overall tone, context, and implications:"
       ++ [10; 10] ++ truncated_text) ].

Definition llama : str := py "llama-3.1-70b-versatile".

(** Lines 212-214: the text handed to [json.loads]. *)
Definition json_candidate (result : str) : str :=
  match re_search re_braces result with
  | Some json_match => json_match
  | None => result
  end.

(** Lines 217-218, [None] when an exception is raised. *)
Definition sentiment_fields (sentiment_data : pyval) : option (str * pyfloat) :=
  d <- as_dict sentiment_data ;;
  sentiment <- py_lower (dict_get d (py "sentiment") (PyStr neutral)) ;;
  confidence <- py_float (dict_get d (py "confidence") (PyFloat half)) ;;
  Some (sentiment, confidence).

(** Lines 228-234 *)
Definition keyword_sentiment (text_lower : str) : str * pyfloat :=
  if existsb (fun word => contains word text_lower) positive_words
  then (py "positive", Finite (7 # 10))
  else if existsb (fun word => contains word text_lower) negative_words
  then (py "negative", Finite (7 # 10))
  else (neutral, half).

(** Lines 210-237.  The handler of [json.JSONDecodeError] prints the
    text it could not decode before it looks for the keywords (line 226);
    when that raises, the exception leaves the function. *)
Definition parse_sentiment (result : str) : outcome (str * pyfloat) :=
  let result := json_candidate result in
  match json_loads result with
  | Decoded sentiment_data =>
      match sentiment_fields sentiment_data with
      | Some (sentiment, confidence) =>
          if existsb (str_eqb sentiment) sentiment_labels
          then Returned (sentiment, confidence)
          else Returned (neutral, confidence)
      | None => Returned (neutral, half)
      end
  | JSONDecodeError =>
      if print_raises result then Raised UnicodeEncodeError
      else Returned (keyword_sentiment (str_lower result))
  | LoadsOtherError => Returned (neutral, half)
  end.

Definition analyze_sentiment (text : str) : prog (outcome (str * pyfloat)) :=
  if negb (truthy (strip text)) then Ret (Returned (neutral, half))
  else
    result <~ groq_chat (sentiment_messages text) llama (1 # 10) 2048 ;;
    match result with
    | None => Ret (Returned (neutral, half))
    | Some result =>
        if negb (truthy result) then Ret (Returned (neutral, half))
        else Ret (parse_sentiment result)
    end.

(** *** [summarize_text] *)

Definition warning_sign : str := [9888; 65039].

Definition summary_system_prompt : str :=
  py "You are a professional news analyst. Provide comprehensive, detailed summaries that capture:
1. The main story and key events
2. Important context and background information
3. Key facts, figures, and data points
4. Significant quotes from important figures
5. Implications and potential consequences
6. Future outlook or next steps

Aim for 5-7 detailed sentences that provide substantial information. Be factual, objective, and thorough.".

Definition summary_messages (text title : str) : list (str * str) :=
  let truncated_text := firstn (N.to_nat 8000) text in
  [ (py "system", summary_system_prompt);
    (py "user",
     py "Please provide a detailed, comprehensive summary of the following news article"
       ++ (if truthy title then py " titled: " ++ title else [])
       ++ py ":" ++ [10; 10] ++ truncated_text) ].

Definition no_text_message : str := py "No text to summarize".

Definition ai_unavailable : str := warning_sign ++ py " AI summary unavailable".

Definition could_not_summarize : str :=
  warning_sign ++
  py " Could not generate summary. The article content may be inaccessible or formatted unusually.".

(** Lines 270-271 *)
Definition summary_sentences (text : str) : list str :=
  map strip
    (filter
       (fun s =>
          (20 <? len (strip s))%nat &&
          negb (existsb (fun word => contains word (str_lower s))
                  [ py "subscribe"; py "share"; py "comment" ]))
       (re_split re_sentence_end text)).

(** Lines 270-277 *)
Definition fallback_summary (text : str) : str :=
  match summary_sentences text with
  | [] => could_not_summarize
  | meaningful_sentences =>
      ai_unavailable ++ py ". Key information from the article: "
        ++ join (py " ") (firstn 5 meaningful_sentences)
  end.

Definition summarize_text (text title : str) : prog str :=
  if negb (truthy (strip text)) then Ret no_text_message
  else
    summary <~ groq_chat (summary_messages text title) llama (2 # 10) 1024 ;;
    match summary with
    | None => Ret (fallback_summary text)
    | Some summary =>
        if negb (truthy summary) then Ret (fallback_summary text)
        else Ret summary
    end.

(** *** The route [summarize] *)

(** Line 97 prints the URL inside the [try]: when that raises, no request
    is made. *)
Definition fetch_full_article (url : str) : prog (option str) :=
  if print_raises url then Ret None
  else Get url (fun o => Ret (article_of_response o)).

(** [fetch_full_article(article_url)] for a value of the posted object:
    [requests.get] raises on what is no string before it sends anything. *)
Definition fetch_full_article_any (article_url : pyval) : prog (option str) :=
  match article_url with
  | PyStr url => fetch_full_article url
  | _ => Ret None
  end.

(** [request.get_json()]: the decoded body, or the exception raised for a
    body that is no JSON. *)
Inductive request_json :=
| JsonRaises
| Json (data : pyval).

(** The JSON body of the answer: [{"error": error}], the same with the
    message ["Internal server error: " + str(e)], or the four keys of an
    analysis. *)
Inductive response_body :=
| ErrorBody (error : str)
| InternalError (e : exception)
| AnalysisBody (summary sentiment : str) (confidence : pyfloat)
               (used_full_article : bool).

(** [data.get(key, "")] on the posted object *)
Definition field (data : list (str * pyval)) (key : string) : pyval :=
  dict_get data (py key) (PyStr []).

(** [print(f"... {v}")] raises: a string is written as it is, any other
    value as [repr] writes it. *)
Definition print_value_raises (v : pyval) : bool :=
  match v with
  | PyStr s => print_raises s
  | _ => false
  end.

(** The title as line 258 adds it to the prompt: [None] when
    [' titled: ' + title] raises [TypeError]. *)
Definition title_text (title : pyval) : option str :=
  if py_truth title then
    match title with
    | PyStr s => Some s
    | _ => None
    end
  else Some [].

Definition preview_note : str :=
  warning_sign ++
  py " Note: Full article content was unavailable. This summary is based on the preview text only."
  ++ [10; 10].

Definition comprehensive_unavailable : str :=
  py "Comprehensive summary unavailable. The article content may be inaccessible or formatted unusually. Please try another article.".

(** Lines 421-423 *)
Definition key_sentences (text : str) : list str :=
  map strip
    (filter
       (fun s =>
          (30 <? len (strip s))%nat &&
          negb (existsb (fun word => contains word (str_lower s))
                  [ py "subscribe"; py "share"; py "comment"; py "read more" ]))
       (re_split re_sentence_end text)).

(** Lines 421-429 *)
Definition enhanced_fallback (text_to_summarize : str) : str :=
  let meaningful_sentences := key_sentences text_to_summarize in
  if (3 <=? length meaningful_sentences)%nat
  then py "Key points from the article: "
         ++ join (py " ") (firstn 5 meaningful_sentences)
  else comprehensive_unavailable.

(** Lines 418-429 *)
Definition final_summary (summary text_to_summarize : str) : str :=
  if negb (truthy summary) || contains ai_unavailable summary
  then enhanced_fallback text_to_summarize
  else summary.

(** [bool(full_article_text)] *)
Definition has_text (full_article_text : option str) : bool :=
  match full_article_text with
  | Some t => truthy t
  | None => false
  end.

(** Line 405: [full_article_text if full_article_text else preview_text] *)
Definition choose_text (full_article_text : option str) (preview_text : pyval)
  : pyval :=
  match full_article_text with
  | Some t => if truthy t then PyStr t else preview_text
  | None => preview_text
  end.

(** The handler of lines 443-446 *)
Definition server_error (e : exception) : response_body * Z :=
  (InternalError e, 500%Z).

Definition no_text_content : response_body * Z :=
  (ErrorBody (py "No text content available to summarize"), 400%Z).

(** Lines 416-441, for a text and a title that are strings *)
Definition summarize_served (text_to_summarize title : str)
           (used_full_article : bool) : prog (response_body * Z) :=
  let summary_prefix := if used_full_article then [] else preview_note in
  summary <~ summarize_text text_to_summarize title ;;
  let summary := final_summary summary text_to_summarize in
  analysis <~ analyze_sentiment text_to_summarize ;;
  match analysis with
  | Raised e => Ret (server_error e)
  | Returned (sentiment, score) =>
      Ret (AnalysisBody (summary_prefix ++ summary) sentiment score
             used_full_article, 200%Z)
  end.

(** The route, lines 382-446.  Every exception raised inside its [try]
    ends in the handler of lines 443-446: [get_json] on a body that is no
    JSON (line 383), [data.get] on a value that is no object (387), the
    prints of the URL and of the title (391, 393), [len] of the preview
    text (392), [strip] on a text that is no string (407), the title added
    to the prompt (258, called from 416) and the analysis (431). *)
Definition summarize (request : request_json) : prog (response_body * Z) :=
  match request with
  | JsonRaises => Ret (server_error BadRequest)
  | Json data =>
      if negb (py_truth data)
      then Ret (ErrorBody (py "No JSON data provided"), 400%Z)
      else
        match as_dict data with
        | None => Ret (server_error AttributeError)
        | Some data =>
            let article_url := field data "url" in
            let preview_text := field data "text" in
            let title := field data "title" in
            if print_value_raises article_url
            then Ret (server_error UnicodeEncodeError)
            else
              match py_len preview_text with
              | None => Ret (server_error TypeError)
              | Some _ =>
                  if print_value_raises title
                  then Ret (server_error UnicodeEncodeError)
                  else if negb (py_truth article_url)
                  then Ret (ErrorBody (py "No article URL provided"), 400%Z)
                  else if negb key_configured
                  then Ret (ErrorBody (py "Groq API key is not configured. Please check your environment variables."), 500%Z)
                  else
                    full_article_text <~ fetch_full_article_any article_url ;;
                    let used_full_article := has_text full_article_text in
                    let text_to_summarize :=
                      choose_text full_article_text preview_text in
                    if negb (py_truth text_to_summarize)
                    then Ret no_text_content
                    else
                      match text_to_summarize with
                      | PyStr text_to_summarize =>
                          if negb (truthy (strip text_to_summarize))
                          then Ret no_text_content
                          else
                            match title_text title with
                            | None => Ret (server_error TypeError)
                            | Some title =>
                                summarize_served text_to_summarize title
                                  used_full_article
                            end
                      | _ => Ret (server_error AttributeError)
                      end
              end
        end
  end.

End Analysis.

(** ** The news list: [get_news] *)

(** What [response.json()] gives: a value, or the exception it raises. *)
Inductive news_body :=
| BodyJson (v : pyval)
| BodyRaises (e : request_exception).

(** The answer of the news API to one [requests.get]. *)
Inductive news_answer :=
| NewsRaised (e : request_exception)
| NewsAnswer (status : Z) (body : news_body).

Inductive news_response :=
| NewsError (error : str)
| NewsList (articles : list pyval).

(** [a or b] *)
Definition py_or (a b : pyval) : pyval := if py_truth a then a else b.

(** The elements a [for] loop takes from a value that has a length; [None]
    when [len] raises. *)
Definition py_items (v : pyval) : option (list pyval) :=
  match v with
  | PyList l => Some l
  | PyStr s => Some (map (fun c => PyStr [c]) s)
  | PyDict d => Some (map (fun kv => PyStr (fst kv)) d)
  | _ => None
  end.

(** [v[:10]] and then the elements a [for] loop takes; [None] when the
    slice raises. *)
Definition py_first_ten (v : pyval) : option (list pyval) :=
  match v with
  | PyList l => Some (firstn 10 l)
  | PyStr s => Some (map (fun c => PyStr [c]) (firstn 10 s))
  | _ => None
  end.

(** Lines 333-341 and 355-363: the record built from the article [a]. *)
Definition news_article (a : list (str * pyval)) (category : str) : pyval :=
  PyDict
    [ (py "title", dict_get a (py "title") (PyStr (py "No Title")));
      (py "description",
       py_or (dict_get a (py "description") PyNone)
         (py_or (dict_get a (py "content") PyNone)
            (PyStr (py "No description available"))));
      (py "url", dict_get a (py "link") PyNone);
      (py "image", dict_get a (py "image_url") PyNone);
      (py "source", dict_get a (py "source_id") (PyStr (py "Unknown")));
      (py "category", PyStr category);
      (py "full_content", PyNone) ].

(** [art.get(key)] on a record of [all_articles] *)
Definition article_field (art : pyval) (key : string) : pyval :=
  match art with
  | PyDict d => dict_get d (py key) PyNone
  | _ => PyNone
  end.

Definition failed_to_fetch : str := py "Failed to fetch news".
Definition internal_error : str := py "Internal server error".

(** The message of the handler that catches the exception (lines 372-377). *)
Definition news_error_message (e : request_exception) : str :=
  match e with
  | OtherException => internal_error
  | _ => failed_to_fetch
  end.

Section News.
(** [==] on decoded values *)
Variable py_eq : pyval -> pyval -> bool.
Variable NEWSDATA_API_KEY : option str.
Variable news_api : str -> news_answer.

Definition news_key_configured : bool :=
  match NEWSDATA_API_KEY with
  | Some key => truthy key
  | None => false
  end.

Definition news_key : str :=
  match NEWSDATA_API_KEY with
  | Some key => key
  | None => []
  end.

Definition category_url (category : str) : str :=
  py "https://newsdata.io/api/1/news?apikey=" ++ news_key
    ++ py "&country=in&language=en&category=" ++ category.

Definition fallback_url : str :=
  py "https://newsdata.io/api/1/news?apikey=" ++ news_key
    ++ py "&q=india&language=en".

(** [requests.get], [raise_for_status] and [response.json()]: the value or
    the message of the handler that catches what is raised. *)
Definition news_json (url : str) : str + pyval :=
  match news_api url with
  | NewsRaised e => inl (news_error_message e)
  | NewsAnswer status body =>
      if raises_for_status status then inl failed_to_fetch
      else
        match body with
        | BodyJson v => inr v
        | BodyRaises e => inl (news_error_message e)
        end
  end.

(** [data.get("results", [])] *)
Definition news_results (data : pyval) : option pyval :=
  match data with
  | PyDict d => Some (dict_get d (py "results") (PyList []))
  | _ => None
  end.

(** Lines 330-341: the loop over the articles of one category; [None]
    when an element is no object. *)
Fixpoint add_articles (category : str) (articles : list pyval)
         (all_articles : list pyval) : option (list pyval) :=
  match articles with
  | [] => Some all_articles
  | a :: articles' =>
      match a with
      | PyDict d =>
          if existsb (fun art => py_eq (article_field art "url")
                                   (dict_get d (py "link") PyNone))
               all_articles
          then add_articles category articles' all_articles
          else add_articles category articles'
                 (all_articles ++ [news_article d category])
      | _ => None
      end
  end.

(** Lines 322-341: one turn of the loop over the categories. *)
Definition category_articles (category : str) (all_articles : list pyval)
  : str + list pyval :=
  match news_json (category_url category) with
  | inl error => inl error
  | inr data =>
      match news_results data with
      | None => inl internal_error
      | Some results =>
          match py_items results with
          | None => inl internal_error
          | Some articles =>
              match add_articles category articles all_articles with
              | None => inl internal_error
              | Some all_articles => inr all_articles
              end
          end
      end
  end.

(** Lines 318-343: the first two categories. *)
Definition queried_articles : str + list pyval :=
  match category_articles (py "technology") [] with
  | inl error => inl error
  | inr all_articles => category_articles (py "business") all_articles
  end.

(** Lines 354-363: the loop of the general query; [None] when an element
    is no object. *)
Fixpoint general_articles (articles : list pyval) : option (list pyval) :=
  match articles with
  | [] => Some []
  | a :: articles' =>
      match a, general_articles articles' with
      | PyDict d, Some rest => Some (news_article d (py "general") :: rest)
      | _, _ => None
      end
  end.

(** Lines 346-365 *)
Definition fallback_articles : str + list pyval :=
  match news_json fallback_url with
  | inl error => inl error
  | inr data =>
      match news_results data with
      | None => inl internal_error
      | Some results =>
          match py_first_ten results with
          | None => inl internal_error
          | Some articles =>
              match general_articles articles with
              | None => inl internal_error
              | Some all_articles => inr all_articles
              end
          end
      end
  end.

Definition get_news : news_response * Z :=
  if negb news_key_configured
  then (NewsError (py "NewsData API key not configured"), 500%Z)
  else
    match queried_articles with
    | inl error => (NewsError error, 500%Z)
    | inr [] =>
        match fallback_articles with
        | inl error => (NewsError error, 500%Z)
        | inr all_articles => (NewsList (firstn 12 all_articles), 200%Z)
        end
    | inr all_articles => (NewsList (firstn 12 all_articles), 200%Z)
    end.

End News.

(** ** The test route: [test_groq] *)

Inductive test_report :=
| TestSuccess (response : str)
| TestError.

Definition test_messages : list (str * str) :=
  [ (py "system", py "You are a helpful assistant.");
    (py "user",
     py "Hello, can you respond with 'API is working'? Please respond with only those words.") ].

(** Lines 282-303; the status is 200 in both cases. *)
Definition test_groq (GROQ_API_KEY : option str) : prog test_report :=
  result <~ groq_chat GROQ_API_KEY test_messages llama (3 # 10) 2048 ;;
  match result with
  | Some result => if truthy result then Ret (TestSuccess result) else Ret TestError
  | None => Ret TestError
  end.

(** ** A concrete runtime

    Case tables and [\w] are those of Python on the code points below 256
    (other code points are taken as caseless symbols); [json_loads_model]
    is a JSON decoder with the conventions of [json.loads];
    [float_of_str_model] reads plain decimal literals. *)

Definition lower_char (c : char) : char :=
  if ((65 <=? c) && (c <=? 90))
     || ((192 <=? c) && (c <=? 222) && negb (c =? 215))
  then c + 32 else c.

Definition word_char (c : char) : bool :=
  ((48 <=? c) && (c <=? 57)) || ((65 <=? c) && (c <=? 90)) || (c =? 95)
  || ((97 <=? c) && (c <=? 122))
  || (c =? 170) || (c =? 178) || (c =? 179) || (c =? 181) || (c =? 185)
  || (c =? 186) || ((188 <=? c) && (c <=? 190))
  || ((192 <=? c) && (c <=? 214)) || ((216 <=? c) && (c <=? 246))
  || ((248 <=? c) && (c <=? 255)).

Definition is_digit (c : char) : bool := (48 <=? c) && (c <=? 57).

Fixpoint digits_scan (acc : Z) (count : nat) (s : str) : Z * nat * str :=
  match s with
  | c :: s' =>
      if is_digit c
      then digits_scan (10 * acc + Z.of_N (c - 48))%Z (S count) s'
      else (acc, count, s)
  | [] => (acc, count, s)
  end.

(** A run of decimal digits: its value, its length and what follows. *)
Definition digits (s : str) : Z * nat * str := digits_scan 0%Z 0%nat s.

Definition pow10 (n : nat) : positive := Pos.pow 10 (Pos.of_nat n).

(** [m * 10^e] *)
Definition scale10 (m : Q) (e : Z) : Q :=
  match e with
  | Z0 => m
  | Zpos p => m * inject_Z (Z.pow 10 (Zpos p))
  | Zneg p => m / inject_Z (Z.pow 10 (Zpos p))
  end.

(** [[+-]digits[.digits]], all of the string. *)
Definition float_of_str_model (s : str) : option pyfloat :=
  let '(negative, s1) :=
    match s with
    | 45 :: s' => (true, s')
    | 43 :: s' => (false, s')
    | _ => (false, s)
    end in
  let '(int_part, n_int, s2) := digits s1 in
  let '(frac_part, n_frac, s3) :=
    match s2 with
    | 46 :: s' => digits s'
    | _ => (0%Z, 0%nat, s2)
    end in
  match n_int, s3 with
  | S _, [] =>
      let q := (inject_Z int_part
                + (if (0 <? n_frac)%nat then Qmake frac_part (pow10 n_frac) else 0))%Q in
      Some (Finite (if negative then (- q)%Q else q))
  | _, _ => None
  end.

Fixpoint json_ws (s : str) : str :=
  match s with
  | c :: s' =>
      if (c =? 32) || (c =? 9) || (c =? 10) || (c =? 13) then json_ws s' else s
  | [] => []
  end.

Definition hex_digit (c : char) : option N :=
  if (48 <=? c) && (c <=? 57) then Some (c - 48)
  else if (65 <=? c) && (c <=? 70) then Some (c - 55)
  else if (97 <=? c) && (c <=? 102) then Some (c - 87)
  else None.

Definition hex4 (s : str) : option (N * str) :=
  match s with
  | a :: b :: c :: d :: s' =>
      match hex_digit a, hex_digit b, hex_digit c, hex_digit d with
      | Some a, Some b, Some c, Some d => Some (4096 * a + 256 * b + 16 * c + d, s')
      | _, _, _, _ => None
      end
  | _ => None
  end.

(** The characters of a JSON string after its opening quote. *)
Fixpoint json_string (acc : str) (s : str) (fuel : nat) : option (str * str) :=
  match fuel with
  | O => None
  | S fuel' =>
      match s with
      | [] => None
      | 34 :: s' => Some (rev acc, s')
      | 92 :: e :: s' =>
          if e =? 117 then
            match hex4 s' with
            | Some (hi, s'') =>
                if (55296 <=? hi) && (hi <=? 56319) then
                  match s'' with
                  | 92 :: 117 :: s3 =>
                      match hex4 s3 with
                      | Some (lo, s4) =>
                          if (56320 <=? lo) && (lo <=? 57343)
                          then json_string
                                 (65536 + 1024 * (hi - 55296) + (lo - 56320) :: acc)
                                 s4 fuel'
                          else json_string (hi :: acc) s'' fuel'
                      | None => json_string (hi :: acc) s'' fuel'
                      end
                  | _ => json_string (hi :: acc) s'' fuel'
                  end
                else json_string (hi :: acc) s'' fuel'
            | None => None
            end
          else
            match (if e =? 34 then Some 34 else if e =? 92 then Some 92
                   else if e =? 47 then Some 47 else if e =? 98 then Some 8
                   else if e =? 102 then Some 12 else if e =? 110 then Some 10
                   else if e =? 114 then Some 13 else if e =? 116 then Some 9
                   else None) with
            | Some c => json_string (c :: acc) s' fuel'
            | None => None
            end
      | c :: s' => if c <? 32 then None else json_string (c :: acc) s' fuel'
      end
  end.

(** A JSON number that starts at a digit, [negative] when a minus sign
    came before it. *)
Definition json_number (negative : bool) (s : str) : option (pyval * str) :=
  let '(int_part, n_int, s1) :=
    match s with
    | 48 :: s' => (0%Z, 1%nat, s')
    | _ => digits s
    end in
  match n_int with
  | O => None
  | S _ =>
      let frac :=
        match s1 with
        | 46 :: s' =>
            let '(f, n, s2) := digits s' in
            match n with O => None | S _ => Some (f, n, s2) end
        | _ => None
        end in
      let s2 := match frac with Some (_, _, s2) => s2 | None => s1 end in
      let expo :=
        match s2 with
        | c :: s' =>
            if (c =? 101) || (c =? 69) then
              let '(neg_e, s3) :=
                match s' with
                | 45 :: s3 => (true, s3)
                | 43 :: s3 => (false, s3)
                | _ => (false, s')
                end in
              let '(e, n, s4) := digits s3 in
              match n with
              | O => None
              | S _ => Some (if neg_e then (- e)%Z else e, s4)
              end
            else None
        | [] => None
        end in
      let s3 := match expo with Some (_, s3) => s3 | None => s2 end in
      let sign (q : Q) : Q := if negative then (- q)%Q else q in
      match frac, expo with
      | None, None => Some (PyInt (if negative then (- int_part)%Z else int_part), s3)
      | _, _ =>
          let mantissa :=
            (inject_Z int_part
             + match frac with
               | Some (f, n, _) => Qmake f (pow10 n)
               | None => 0
               end)%Q in
          let e := match expo with Some (e, _) => e | None => 0%Z end in
          Some (PyFloat (Finite (sign (scale10 mantissa e))), s3)
      end
  end.

(** [d[key] = v] *)
Fixpoint dict_set (d : list (str * pyval)) (key : str) (v : pyval)
  : list (str * pyval) :=
  match d with
  | [] => [(key, v)]
  | (k, x) :: d' =>
      if str_eqb k key then (k, v) :: d' else (k, x) :: dict_set d' key v
  end.

Fixpoint json_value (fuel : nat) (s : str) : option (pyval * str) :=
  match fuel with
  | O => None
  | S fuel' =>
      match s with
      | 123 :: s1 =>
          match json_ws s1 with
          | 125 :: s2 => Some (PyDict [], s2)
          | s2 => json_members fuel' [] s2
          end
      | 91 :: s1 =>
          match json_ws s1 with
          | 93 :: s2 => Some (PyList [], s2)
          | s2 => json_elements fuel' [] s2
          end
      | 34 :: s1 =>
          match json_string [] s1 (S (length s1)) with
          | Some (x, s2) => Some (PyStr x, s2)
          | None => None
          end
      | 45 :: s1 =>
          if startswith (py "Infinity") s1
          then Some (PyFloat NegInf, skipn 8 s1)
          else json_number true s1
      | _ =>
          if startswith (py "null") s then Some (PyNone, skipn 4 s)
          else if startswith (py "true") s then Some (PyBool true, skipn 4 s)
          else if startswith (py "false") s then Some (PyBool false, skipn 5 s)
          else if startswith (py "NaN") s then Some (PyFloat NaN, skipn 3 s)
          else if startswith (py "Infinity") s then Some (PyFloat PosInf, skipn 8 s)
          else json_number false s
      end
  end
with json_members (fuel : nat) (acc : list (str * pyval)) (s : str)
  : option (pyval * str) :=
  match fuel with
  | O => None
  | S fuel' =>
      match s with
      | 34 :: s1 =>
          match json_string [] s1 (S (length s1)) with
          | Some (key, s2) =>
              match json_ws s2 with
              | 58 :: s3 =>
                  match json_value fuel' (json_ws s3) with
                  | Some (v, s4) =>
                      let acc := dict_set acc key v in
                      match json_ws s4 with
                      | 125 :: s5 => Some (PyDict acc, s5)
                      | 44 :: s5 => json_members fuel' acc (json_ws s5)
                      | _ => None
                      end
                  | None => None
                  end
              | _ => None
              end
          | None => None
          end
      | _ => None
      end
  end
with json_elements (fuel : nat) (acc : list pyval) (s : str)
  : option (pyval * str) :=
  match fuel with
  | O => None
  | S fuel' =>
      match json_value fuel' s with
      | Some (v, s1) =>
          match json_ws s1 with
          | 93 :: s2 => Some (PyList (rev (v :: acc)), s2)
          | 44 :: s2 => json_elements fuel' (v :: acc) (json_ws s2)
          | _ => None
          end
      | None => None
      end
  end.

(** A code point that UTF-8 does not encode. *)
Definition is_surrogate (c : char) : bool := (55296 <=? c) && (c <=? 57343).

(** [json.loads]: one value between optional whitespace. *)
Definition json_loads_model (s : str) : json_result :=
  match json_value (2 * length s + 2) (json_ws s) with
  | Some (v, rest) =>
      match json_ws rest with
      | [] => Decoded v
      | _ => JSONDecodeError
      end
  | None => JSONDecodeError
  end.

Definition model_runtime : PyRuntime := {|
  str_lower := map lower_char;
  re_ignorecase := fun c p => lower_char c =? p;
  re_word := word_char;
  json_loads := json_loads_model;
  float_of_str := float_of_str_model;
  print_raises := existsb is_surrogate
|}.

(** ** Properties the specification speaks of *)

(** [sub] occurs in [s]. *)
Definition occurs (sub s : str) : Prop :=
  exists before after, s = before ++ sub ++ after.

(** A confidence in the closed interval from 0 to 1. *)
Definition in_unit_interval (f : pyfloat) : Prop :=
  match f with
  | Finite q => (0 <= q /\ q <= 1)%Q
  | _ => False
  end.

(** The only whitespace a cleaned text holds is the plain space. *)
Definition plain_space (c : char) : Prop := isspace c = true -> c = 32.

(** A pattern whose matches end where the next character is no
    whitespace. *)
Definition ends_trimmed {rt : PyRuntime} (r : regex) : Prop :=
  forall prev s rest,
    rmatch r (fun _ rest => Some rest) prev s = Some rest ->
    exists before, s = before ++ rest /\
                   forall c, hd_error rest = Some c -> isspace c = false.

(** What is still to be dropped of a match ends before a character that
    is no whitespace. *)
Definition pending (skip : nat) (s : str) : Prop :=
  match skip with
  | O => True
  | S _ => forall c, hd_error (skipn skip s) = Some c -> isspace c = false
  end.

(** No element of [t] is selected by a selector of [sels]. *)
Definition free_of (sels : list selector) (t : node) : Prop :=
  forall sel e, In sel sels -> In e (descendants t) -> matches sel e = false.

(** The groups after the paragraphs [pairs], each with its parent, were
    added to [groups]. *)
Definition grouped (pairs : list (node * node)) (groups : list (node * list node))
  : list (node * list node) :=
  fold_left (fun groups pc => add_paragraph (fst pc) (snd pc) groups) pairs groups.

(** The number of paragraphs in all groups. *)
Definition paragraphs_of (groups : list (node * list node)) : nat :=
  length (concat (map snd groups)).

(** A piece that ends with a full stop, an exclamation mark or a question
    mark. *)
Definition ends_terminal (piece : str) : Prop :=
  exists before c, piece = before ++ [c] /\ is_terminal c = true.

(** The characters of a text that are no whitespace. *)
Definition without_spaces (s : str) : str := filter (fun c => negb (isspace c)) s.

(** Two whitespace characters in a row. *)
Fixpoint has_space_run (s : str) : bool :=
  match s with
  | a :: s' =>
      match s' with
      | b :: _ => (isspace a && isspace b) || has_space_run s'
      | [] => false
      end
  | [] => false
  end.

(** The fragment test in the words of the specification: longer than 30
    characters and not starting with a marker. *)
Definition spec_keep_fragment {rt : PyRuntime} (text : str) : bool :=
  (30 <? len text)%nat &&
  negb (existsb (fun marker => startswith marker (str_lower text))
          boilerplate_markers).

(** The sentences of a text: it is cut at every run of whitespace that
    follows a full stop, an exclamation mark or a question mark, and the
    run is dropped.  [gap] says that such a run is being dropped,
    [terminal] that the character before is one of the three marks. *)
Fixpoint sentences_scan (gap terminal : bool) (s : str) : str * list str :=
  match s with
  | [] => ([], [])
  | c :: s' =>
      if isspace c then
        if gap then sentences_scan true false s'
        else if terminal then
          let '(piece, pieces) := sentences_scan true false s' in
          ([], piece :: pieces)
        else
          let '(piece, pieces) := sentences_scan false false s' in
          (c :: piece, pieces)
      else
        let '(piece, pieces) := sentences_scan false (is_terminal c) s' in
        (c :: piece, pieces)
  end.

Definition sentences (s : str) : list str :=
  let '(piece, pieces) := sentences_scan false false s in piece :: pieces.

(** The length of the whitespace run a text starts with. *)
Fixpoint space_run (s : str) : nat :=
  match s with
  | c :: s' => if isspace c then S (space_run s') else 0
  | [] => 0
  end.

Definition after_terminal (prev : option char) : bool :=
  match prev with
  | Some c => is_terminal c
  | None => false
  end.

(** The part of a response from its first opening brace to its last
    closing brace. *)
Fixpoint up_to_last_brace (s : str) : option str :=
  match s with
  | [] => None
  | c :: s' =>
      match up_to_last_brace s' with
      | Some m => Some (c :: m)
      | None => if c =? 125 then Some [c] else None
      end
  end.

Fixpoint between_braces (s : str) : option str :=
  match s with
  | [] => None
  | c :: s' =>
      if c =? 123 then
        match up_to_last_brace s' with
        | Some m => Some (c :: m)
        | None => None
        end
      else between_braces s'
  end.

(** ** Sample inputs *)

(** A JSON text written with ['] for the double quote. *)
Definition json_text (s : string) : str :=
  map (fun c => if c =? 39 then 34 else c) (py s).

(** The body of a completion whose message is [content]. *)
Definition completion (content : str) : post_outcome :=
  PostResponse
    {| post_status := 200;
       response_json :=
         Some (PyDict
                 [ (py "choices",
                    PyList
                      [ PyDict
                          [ (py "message",
                             PyDict [ (py "role", PyStr (py "assistant"));
                                      (py "content", PyStr content) ]) ] ]) ]) |}.

(** No page can be fetched and the completion API answers [content]. *)
Definition answering (content : str) : world :=
  {| http_get := fun _ => GetRaised;
     http_post := fun _ => completion content |}.

(** Nothing can be reached. *)
Definition offline : world :=
  {| http_get := fun _ => GetRaised;
     http_post := fun _ => PostRaised ConnectionError |}.

Definition sample_key : option str := Some (py "gsk_test").

Definition page (body : str) (tree : node) : get_outcome :=
  GetResponse {| get_status := 200; content := body; parsed := tree |}.

Definition document (children : list node) : node :=
  Tag (py "[document]") [] children.

Definition element (name : string) (children : list node) : node :=
  Tag (py name) [] children.

Definition paragraph (text : string) : node := element "p" [Text (py text)].

Definition filler : string :=
  "The council met on Monday and approved the budget for the coming year after a long debate.".

(** Every page request is answered with [o]; the completion API cannot be
    reached. *)
Definition serving (o : get_outcome) : world :=
  {| http_get := fun _ => o;
     http_post := fun _ => PostRaised ConnectionError |}.

Definition small_page : get_outcome :=
  page (py "<html><body>Access denied</body></html>")
    (document [element "html" [element "body" [Text (py "Access denied")]]]).

Definition long_text : string := (filler ++ " " ++ filler ++ " " ++ filler)%string.

(** Three long paragraphs in a plain [div]. *)
Definition three_paragraphs : node :=
  document
    [element "html"
       [element "body"
          [element "div"
             [paragraph long_text; paragraph long_text; paragraph long_text]]]].

(** A fragment with the marker [comment] in its interior. *)
Definition interior_marker : string :=
  "The minister declined to comment on the budget proposal today.".

(** A well-formed completion whose confidence is out of range. *)
Definition overconfident : str :=
  json_text "{'sentiment': 'positive', 'confidence': 5}".

Definition market_news : str := py "Shares rose sharply after the announcement.".

(** Prose around braces that hold no JSON. *)
Definition bearish_with_braces : str :=
  py "The outlook is bearish {confidence: low}".

Definition bearish_prose : str := py "The outlook is bearish.".

(** The same prose followed by one half of a surrogate pair, as
    [json.loads] gives it for an escape that stands alone. *)
Definition bearish_unprintable : str := py "The outlook is bearish " ++ [55357].

(** The text the route analyses for the posted object [data]: the
    extracted article, or else the preview text. *)
Definition text_to_summarize {rt : PyRuntime} (w : world)
           (data : list (str * pyval)) : pyval :=
  choose_text (run w (fetch_full_article_any (field data "url")))
    (field data "text").

(** Whether the route could extract the article. *)
Definition used_full_article {rt : PyRuntime} (w : world)
           (data : list (str * pyval)) : bool :=
  has_text (run w (fetch_full_article_any (field data "url"))).

(** The three values of the posted object can be printed as lines 391-393
    print them. *)
Definition printable_fields {rt : PyRuntime} (data : list (str * pyval)) : Prop :=
  print_value_raises (field data "url") = false /\
  py_len (field data "text") <> None /\
  print_value_raises (field data "title") = false.

(** A request that names an article and carries no preview text. *)
Definition url_only : list (str * pyval) :=
  [ (py "url", PyStr (py "https://news.example/story")) ].

(** A request whose preview text is [null]. *)
Definition null_preview : list (str * pyval) :=
  [ (py "url", PyStr (py "https://news.example/story")); (py "text", PyNone) ].

(** A preview text that quotes the disclaimer of the summarizer. *)
Definition quoting_preview : str :=
  py "The banner read " ++ ai_unavailable ++
  py " on every page of the site. The editors said the outage lasted for most of the morning. Service returned in the afternoon after a restart.".

Definition quoting_request : list (str * pyval) :=
  [ (py "url", PyStr (py "https://news.example/story"));
    (py "text", PyStr quoting_preview) ].

(** Six sentences of more than 20 characters without boilerplate words. *)
Definition six_sentences : str :=
  py "The council approved the budget on Monday.  Taxes will rise by two percent next year! Will the opposition challenge the vote?
The mayor welcomed the decision in a statement. Local businesses asked for more detail. A public hearing is planned for March.".

Definition first_five : str :=
  py "The council approved the budget on Monday. Taxes will rise by two percent next year! Will the opposition challenge the vote? The mayor welcomed the decision in a statement. Local businesses asked for more detail.".

(** A request whose preview text holds six sentences. *)
Definition six_request : list (str * pyval) :=
  [ (py "url", PyStr (py "https://news.example/story"));
    (py "text", PyStr six_sentences) ].

(** An article with one promotional sentence between two sentences. *)
Definition ten_fillers : string :=
  String.concat " " (repeat filler 10).

Definition promo_text : string :=
  (filler ++ " Please read the full report. " ++ ten_fillers)%string.

Definition promo_html : string :=
  ("<html><body><article><p>" ++ promo_text ++ "</p></article></body></html>")%string.

Definition promo_page : get_outcome :=
  page (py promo_html)
    (document [element "html" [element "body" [element "article" [paragraph promo_text]]]]).

(** What is left of [promo_text]: the two spaces around the removed
    sentence stand side by side. *)
Definition promo_cleaned : string := (filler ++ "  " ++ ten_fillers)%string.

(** A completion that wraps its JSON object in prose. *)
Definition wrapped_json : str :=
  json_text "Here is the analysis: {'sentiment': 'POSITIVE', 'confidence': '0.92'} Hope this helps.".

(** A page with a navigation bar, an advertisement and a script around its
    article. *)
Definition noisy_page : node :=
  document
    [element "html"
       [element "body"
          [element "nav" [paragraph "Home News Sport Weather"];
           Tag (py "div") [(py "class", py "ad banner")] [paragraph "Buy now"];
           element "article"
             [paragraph long_text; element "script" [Text (py "track()")]]]]].

Definition noisy_page_cleaned : node :=
  document [element "html" [element "body" [element "article" [paragraph long_text]]]].

(** A page without any container the selectors know: four paragraphs in
    one [div], one paragraph in another. *)
Definition plain_page : node :=
  document
    [element "html"
       [element "body"
          [element "div" [paragraph "A side note."];
           element "div"
             [paragraph long_text; paragraph long_text; paragraph long_text;
              paragraph "The end."]]]].

Definition plain_page_block : node :=
  element "div"
    [paragraph long_text; paragraph long_text; paragraph long_text;
     paragraph "The end."].

(** A page whose [main] element comes before its [article] element. *)
Definition main_before_article : node :=
  document
    [element "html"
       [element "body"
          [element "main" [paragraph "Front page"];
           element "article" [paragraph long_text]]]].

(** The completion API answers every request with the message [content]. *)
Definition completing (content : str) (w : world) : Prop :=
  forall req, http_post w req = completion content.

(** A completion with a label and a confidence that is no number. *)
Definition confident_in_words : str :=
  json_text "{'sentiment': 'positive', 'confidence': 'high'}".

(** A completion with a label outside the three. *)
Definition mixed_label : str :=
  json_text "{'sentiment': 'Mixed', 'confidence': 0.8}".

(** A text of 4000 characters and two texts that continue it. *)
Definition four_thousand : str := concat (repeat (py "All well. ") 400).
Definition long_text_a : str := four_thousand ++ py "The market crashed.".
Definition long_text_b : str := four_thousand ++ py "The market soared.".

(** Two requests for the same article with different preview texts. *)
Definition request_a : list (str * pyval) :=
  [ (py "url", PyStr (py "https://news.example/story"));
    (py "text", PyStr (py "First preview.")) ].

Definition request_b : list (str * pyval) :=
  [ (py "url", PyStr (py "https://news.example/story"));
    (py "text", PyList [PyStr (py "Another"); PyStr (py "preview.")]) ].

(** A text of 8000 characters and two texts that continue it. *)
Definition eight_thousand : str := concat (repeat (py "All well. ") 800).
Definition longer_text_a : str := eight_thousand ++ py "The market crashed.".
Definition longer_text_b : str := eight_thousand ++ py "The market soared.".

Definition messages_eqb (a b : list (str * str)) : bool :=
  (length a =? length b)%nat &&
  forallb (fun p => str_eqb (fst (fst p)) (fst (snd p)) &&
                    str_eqb (snd (fst p)) (snd (snd p)))
    (combine a b).

(** The completion API answers the messages [prompt] with [content] and
    cannot be reached with any other messages. *)
Definition answering_prompt (prompt : list (str * str)) (content : str) : world :=
  {| http_get := fun _ => GetRaised;
     http_post := fun req =>
       if messages_eqb (messages req) prompt then completion content
       else PostRaised ConnectionError |}.

(** No article of the list has the URL of an article before it, for the
    equality [py_eq]. *)
Definition urls_distinct (py_eq : pyval -> pyval -> bool) (l : list pyval) : Prop :=
  forall i j earlier later,
    (i < j)%nat ->
    nth_error l i = Some earlier -> nth_error l j = Some later ->
    py_eq (article_field earlier "url") (article_field later "url") = false.

(** A record of the list for one of the categories [categories]. *)
Definition article_in (categories : list str) (art : pyval) : Prop :=
  exists a category, art = news_article a category /\ In category categories.

(** The number a value stands for in a comparison. *)
Definition py_number (v : pyval) : option pyfloat :=
  match v with
  | PyBool b => Some (Finite (if b then 1 else 0))
  | PyInt z => Some (Finite (inject_Z z))
  | PyFloat f => Some f
  | _ => None
  end.

Definition float_eqb (f g : pyfloat) : bool :=
  match f, g with
  | Finite q, Finite r => Qeq_bool q r
  | PosInf, PosInf => true
  | NegInf, NegInf => true
  | _, _ => false
  end.

(** [a == b] on decoded values: numbers by value, strings and lists by
    content, objects by their bindings. *)
Fixpoint py_eq_model (a b : pyval) : bool :=
  match a, b with
  | PyNone, PyNone => true
  | PyStr s, PyStr t => str_eqb s t
  | PyList l, PyList m =>
      (fix all2 (l m : list pyval) : bool :=
         match l, m with
         | [], [] => true
         | x :: l', y :: m' => py_eq_model x y && all2 l' m'
         | _, _ => false
         end) l m
  | PyDict d, PyDict e =>
      (length d =? length e)%nat &&
      (fix included (d : list (str * pyval)) : bool :=
         match d with
         | [] => true
         | (k, v) :: d' =>
             match dict_lookup e k with
             | Some v' => py_eq_model v v'
             | None => false
             end && included d'
         end) d
  | _, _ =>
      match py_number a, py_number b with
      | Some f, Some g => float_eqb f g
      | _, _ => false
      end
  end.

Definition news_item (title link : string) : pyval :=
  PyDict [ (py "title", PyStr (py title)); (py "link", PyStr (py link)) ].

Definition news_results_of (items : list pyval) : news_answer :=
  NewsAnswer 200 (BodyJson (PyDict [ (py "status", PyStr (py "success"));
                                    (py "results", PyList items) ])).

Definition news_key_sample : option str := Some (py "pub_test").

(** The technology query gives two articles, the business query gives the
    second of them again and a third one. *)
Definition sample_news_api (url : str) : news_answer :=
  if str_eqb url (category_url news_key_sample (py "technology"))
  then news_results_of [ news_item "Chip plant opens" "https://news.example/chips";
                         news_item "Rates held" "https://news.example/rates" ]
  else if str_eqb url (category_url news_key_sample (py "business"))
  then news_results_of [ news_item "Rates held steady" "https://news.example/rates";
                         news_item "Port strike ends" "https://news.example/port" ]
  else NewsRaised Timeout.

(** The category queries give nothing; the general query gives the same
    article twice. *)
Definition general_news_api (url : str) : news_answer :=
  if str_eqb url (fallback_url news_key_sample)
  then news_results_of [ news_item "Monsoon arrives" "https://news.example/monsoon";
                         news_item "Monsoon arrives" "https://news.example/monsoon" ]
  else news_results_of [].

(** ** Strings: basic facts *)

Lemma str_eqb_eq (a b : str) : str_eqb a b = true <-> a = b.
Proof.
  revert b; induction a as [|x a IH]; intros [|y b]; simpl; split;
    try congruence; try reflexivity.
  - intros H. apply andb_prop in H as [Hx Hab].
    apply N.eqb_eq in Hx. apply IH in Hab. congruence.
  - intros H. injection H as -> ->. rewrite N.eqb_refl. simpl. now apply IH.
Qed.

Lemma lstrip_all_space (s : str) : forallb isspace s = true -> lstrip s = [].
Proof.
  induction s as [|c s IH]; simpl; [reflexivity|].
  intros H. apply andb_prop in H as [Hc Hs]. rewrite Hc. now apply IH.
Qed.

Lemma strip_all_space (s : str) : forallb isspace s = true -> strip s = [].
Proof.
  intros H. unfold strip. rewrite (lstrip_all_space s H). reflexivity.
Qed.

Lemma startswith_app (p s : str) : startswith p (p ++ s) = true.
Proof.
  induction p as [|x p IH]; simpl; [reflexivity|].
  now rewrite N.eqb_refl, IH.
Qed.

Lemma startswith_spec (p s : str) :
  startswith p s = true <-> exists after, s = p ++ after.
Proof.
  revert s; induction p as [|x p IH]; intros s; simpl.
  - split; [intros _; now exists s | reflexivity].
  - destruct s as [|y s].
    + split; [discriminate | intros [a Ha]; discriminate].
    + rewrite andb_true_iff, N.eqb_eq, IH. split.
      * intros [-> [a ->]]. now exists a.
      * intros [a Ha]. injection Ha as -> ->. split; [reflexivity | now exists a].
Qed.

Lemma contains_spec (sub s : str) : contains sub s = true <-> occurs sub s.
Proof.
  unfold occurs. induction s as [|c s IH]; simpl.
  - rewrite orb_false_r, startswith_spec. split.
    + intros [a Ha]. now exists [], a.
    + intros [b [a Ha]]. destruct b; [now exists a | discriminate].
  - rewrite orb_true_iff, startswith_spec, IH. split.
    + intros [[a Ha] | [b [a Ha]]].
      * now exists [], a.
      * exists (c :: b), a. simpl. now rewrite Ha.
    + intros [b [a Ha]]. destruct b as [|x b].
      * left. now exists a.
      * right. injection Ha as _ Ha. now exists b, a.
Qed.

(** ** Programs: running a sequence *)

Lemma run_bind {A B : Type} (w : world) (p : prog A) (f : A -> prog B) :
  run w (p <~ p ;; f p) = run w (f (run w p)).
Proof.
  induction p as [a | url k IH | req k IH]; simpl; auto.
Qed.

Lemma calls_bind {A B : Type} (w : world) (p : prog A) (f : A -> prog B) :
  calls w (p <~ p ;; f p) = (calls w p + calls w (f (run w p)))%nat.
Proof.
  induction p as [a | url k IH | req k IH]; simpl; auto.
Qed.

(** ** The sentiment analyzer on blank input *)

(** C8: on an empty or whitespace-only text [analyze_sentiment] is the
    program that returns neutral with confidence 0.5 at once; it contains
    no call, so no world is asked anything. *)
Theorem analyze_sentiment_blank {rt : PyRuntime} (key : option str) (text : str) :
  forallb isspace text = true ->
  analyze_sentiment key text = Ret (Returned (py "neutral", Finite (1 # 2))) /\
  forall w, calls w (analyze_sentiment key text) = 0%nat.
Proof.
  intros Hblank. unfold analyze_sentiment.
  rewrite (strip_all_space text Hblank). simpl. split; reflexivity.
Qed.

Lemma analyze_sentiment_blank_witness :
  forallb isspace (py "   ") = true /\
  analyze_sentiment (rt := model_runtime) sample_key (py "   ")
  = Ret (Returned (py "neutral", Finite (1 # 2))).
Proof.
  split; [reflexivity|].
  apply (analyze_sentiment_blank (rt := model_runtime) sample_key (py "   ")).
  reflexivity.
Defined.

(** ** Extraction: the size gate and the paragraph gate *)

(** C5: a response body of fewer than 1000 bytes makes
    [fetch_full_article] return [None], whatever the tree of the page. *)
Theorem small_body_rejected {rt : PyRuntime} (w : world) (url : str)
        (response : get_response) :
  http_get w url = GetResponse response ->
  (length (content response) < 1000)%nat ->
  run w (fetch_full_article url) = None.
Proof.
  intros Hget Hsmall. unfold fetch_full_article.
  destruct (print_raises url); [reflexivity|].
  cbn [run]. rewrite Hget. unfold article_of_response.
  destruct (raises_for_status (get_status response)); [reflexivity|].
  apply Nat.ltb_lt in Hsmall. now rewrite Hsmall.
Qed.

(** C10: when no content selector selects anything and the cleaned tree
    has at most 3 paragraphs, the paragraph grouping is not run and the
    extraction fails, whatever text the paragraphs hold. *)
Theorem paragraph_gate {rt : PyRuntime} (soup : node) :
  first_selected content_selectors (remove_unwanted soup) = None ->
  (length (find_all [py "p"] (remove_unwanted soup)) <= 3)%nat ->
  largest_text_block (remove_unwanted soup) = None /\
  extract_article soup = None /\
  forall response, parsed response = soup ->
                   article_of_response (GetResponse response) = None.
Proof.
  intros Hsel Hfew.
  assert (Hblock : largest_text_block (remove_unwanted soup) = None).
  { unfold largest_text_block.
    destruct (Nat.ltb_spec 3 (length (find_all [py "p"] (remove_unwanted soup))));
      [lia | reflexivity]. }
  assert (Hextract : extract_article soup = None).
  { unfold extract_article, find_content. now rewrite Hsel, Hblock. }
  repeat split; auto.
  intros response <-. unfold article_of_response.
  destruct (raises_for_status _); [reflexivity|].
  destruct (_ <? _)%nat; [reflexivity | exact Hextract].
Qed.

Lemma small_body_rejected_witness :
  run (serving small_page) (fetch_full_article (rt := model_runtime) (py "http://news.example/a"))
  = None.
Proof.
  apply (small_body_rejected (rt := model_runtime) (serving small_page)
           (py "http://news.example/a")
           {| get_status := 200;
              content := py "<html><body>Access denied</body></html>";
              parsed := document [element "html" [element "body" [Text (py "Access denied")]]] |}).
  - reflexivity.
  - vm_compute. lia.
Defined.

Lemma paragraph_gate_witness :
  (600 < len (get_text three_paragraphs))%nat /\
  extract_article (rt := model_runtime) three_paragraphs = None.
Proof.
  split.
  - vm_compute. lia.
  - apply (paragraph_gate (rt := model_runtime) three_paragraphs).
    + vm_compute. reflexivity.
    + vm_compute. lia.
Defined.

(** ** Extraction: the fragment filter *)

Lemma keep_fragment_spec {rt : PyRuntime} (text : str) :
  keep_fragment text = true <->
  (30 < len text)%nat /\
  forall marker, In marker boilerplate_markers -> ~ occurs marker (str_lower text).
Proof.
  unfold keep_fragment. rewrite andb_true_iff, Nat.ltb_lt, negb_true_iff.
  split; intros [Hlen Hno]; split; auto.
  - intros marker Hin Hocc. apply contains_spec in Hocc.
    assert (existsb (fun prefix => contains prefix (str_lower text)) boilerplate_markers
            = true) as Hex by (apply existsb_exists; eauto).
    congruence.
  - destruct (existsb _ boilerplate_markers) eqn:Hex; [|reflexivity].
    apply existsb_exists in Hex as [marker [Hin Hc]].
    apply contains_spec in Hc. now destruct (Hno marker Hin).
Qed.

(** C4, as the code has it: the fragments kept are the stripped texts of
    the paragraph, heading and list-item descendants that are longer than
    30 characters and in whose lower-case form no marker occurs at any
    position. *)
Theorem kept_fragments_spec {rt : PyRuntime} (content : node) (text : str) :
  In text (kept_fragments content) <->
  (exists element, In element (find_all text_tags content) /\
                   text = strip (get_text element)) /\
  (30 < len text)%nat /\
  forall marker, In marker boilerplate_markers -> ~ occurs marker (str_lower text).
Proof.
  unfold kept_fragments. rewrite filter_In, in_map_iff, keep_fragment_spec.
  split.
  - intros [[element [Heq Hin]] H]. split; [exists element; auto | exact H].
  - intros [[element [Hin Heq]] H]. split; [exists element; auto | exact H].
Qed.

(** C4 fails as stated: a fragment of more than 30 characters with a
    marker in its interior passes the test of the specification and is
    dropped by the program. *)
Lemma interior_marker_dropped :
  spec_keep_fragment (rt := model_runtime) (py interior_marker) = true /\
  keep_fragment (rt := model_runtime) (py interior_marker) = false /\
  kept_fragments (rt := model_runtime) (element "article" [paragraph interior_marker]) = [].
Proof.
  repeat split; vm_compute; reflexivity.
Qed.

(** ** The sentiment analyzer: label and confidence *)

Lemma neutral_is_label {rt : PyRuntime} : In neutral sentiment_labels.
Proof. right; right; left; reflexivity. Qed.

Lemma half_in_unit_interval {rt : PyRuntime} : in_unit_interval half.
Proof. split; unfold Qle; simpl; lia. Qed.

Lemma keyword_sentiment_result {rt : PyRuntime} (text_lower : str) :
  In (fst (keyword_sentiment text_lower)) sentiment_labels /\
  in_unit_interval (snd (keyword_sentiment text_lower)).
Proof.
  unfold keyword_sentiment.
  destruct (existsb _ positive_words).
  - split; [left; reflexivity | split; unfold Qle; simpl; lia].
  - destruct (existsb _ negative_words).
    + split; [right; left; reflexivity | split; unfold Qle; simpl; lia].
    + split; [apply neutral_is_label | apply half_in_unit_interval].
Qed.

Lemma parse_sentiment_result {rt : PyRuntime} (raw : str) :
  match parse_sentiment raw with
  | Returned (label, confidence) =>
      In label sentiment_labels /\
      (in_unit_interval confidence \/
       exists d,
         json_loads (json_candidate raw) = Decoded (PyDict d) /\
         py_float (dict_get d (py "confidence") (PyFloat half)) = Some confidence)
  | Raised e =>
      e = UnicodeEncodeError /\
      json_loads (json_candidate raw) = JSONDecodeError /\
      print_raises (json_candidate raw) = true
  end.
Proof.
  unfold parse_sentiment.
  destruct (json_loads (json_candidate raw)) as [sentiment_data | |] eqn:Hloads.
  - destruct sentiment_data as [| b | z | f | s | l | d];
      try (simpl; split; [apply neutral_is_label | left; apply half_in_unit_interval]).
    unfold sentiment_fields, as_dict, raising_bind.
    destruct (py_lower _) as [sentiment|];
      [| split; [apply neutral_is_label | left; apply half_in_unit_interval]].
    destruct (py_float _) as [confidence|] eqn:Hfloat;
      [| split; [apply neutral_is_label | left; apply half_in_unit_interval]].
    destruct (existsb (str_eqb sentiment) sentiment_labels) eqn:Hvalid.
    + split; [| right; exists d; auto].
      apply existsb_exists in Hvalid as [label [Hin Heq]].
      apply str_eqb_eq in Heq. now subst.
    + split; [apply neutral_is_label | right; exists d; auto].
  - destruct (print_raises (json_candidate raw)) eqn:Hprint; [auto|].
    destruct (keyword_sentiment_result (str_lower (json_candidate raw))) as [Hl Hc].
    destruct (keyword_sentiment _) as [label confidence]. split; auto.
  - split; [apply neutral_is_label | left; apply half_in_unit_interval].
Qed.

(** C1, as the code has it: whatever the text and whatever the world
    answers, when [analyze_sentiment] returns, the label is positive,
    negative or neutral, and the confidence lies in the interval from 0 to
    1 or it is the value of [float] on the confidence field of the object
    decoded from the completion, which is returned as it is.  It does not
    return only when the completion cannot be decoded and the line that
    reports it cannot be printed: the [UnicodeEncodeError] of line 226
    leaves the function. *)
Theorem analyze_sentiment_result {rt : PyRuntime} (key : option str) (w : world)
        (text : str) :
  match run w (analyze_sentiment key text) with
  | Returned (label, confidence) =>
      In label sentiment_labels /\
      (in_unit_interval confidence \/
       exists raw d,
         run w (groq_chat key (sentiment_messages text) llama (1 # 10) 2048)
         = Some raw /\
         json_loads (json_candidate raw) = Decoded (PyDict d) /\
         py_float (dict_get d (py "confidence") (PyFloat half)) = Some confidence)
  | Raised e =>
      e = UnicodeEncodeError /\
      exists raw,
        run w (groq_chat key (sentiment_messages text) llama (1 # 10) 2048)
        = Some raw /\
        json_loads (json_candidate raw) = JSONDecodeError /\
        print_raises (json_candidate raw) = true
  end.
Proof.
  unfold analyze_sentiment.
  destruct (negb (truthy (strip text)));
    [simpl; split; [apply neutral_is_label | left; apply half_in_unit_interval]|].
  rewrite run_bind.
  destruct (run w (groq_chat key (sentiment_messages text) llama (1 # 10) 2048))
    as [raw|] eqn:Hchat;
    [| simpl; split; [apply neutral_is_label | left; apply half_in_unit_interval]].
  destruct (negb (truthy raw));
    [simpl; split; [apply neutral_is_label | left; apply half_in_unit_interval]|].
  cbn [run]. pose proof (parse_sentiment_result raw) as H.
  destruct (parse_sentiment raw) as [[label confidence] | e].
  - destruct H as [Hlabel [Hrange | [d [Hd Hf]]]]; split; auto.
    right. exists raw, d. auto.
  - destruct H as (He & Hloads & Hprint). split; [exact He|]. exists raw. auto.
Qed.

(** C1 fails as stated: a completion that is a well-formed JSON object with
    confidence 5 makes the analyzer return the confidence 5. *)
Lemma confidence_out_of_range :
  run (answering overconfident)
      (analyze_sentiment (rt := model_runtime) sample_key market_news)
  = Returned (py "positive", Finite (5 # 1)) /\
  ~ in_unit_interval (Finite (5 # 1)).
Proof.
  split; [vm_compute; reflexivity|]. simpl. unfold Qle. simpl. lia.
Qed.

(** A completion that cannot be decoded and holds half of a surrogate pair:
    the analyzer raises. *)
Example unprintable_completion_raises :
  run (answering bearish_unprintable)
      (analyze_sentiment (rt := model_runtime) sample_key market_news)
  = Raised UnicodeEncodeError.
Proof. vm_compute. reflexivity. Qed.

(** ** The sentiment analyzer: the text handed to the decoder *)

Section Braces.
Context {rt : PyRuntime}.

Let accept : kont := fun _ rest => Some rest.

Lemma up_to_last_brace_prefix (s m : str) :
  up_to_last_brace s = Some m -> s = m ++ skipn (length m) s.
Proof.
  revert m; induction s as [|c s IH]; intros m; simpl; [discriminate|].
  destruct (up_to_last_brace s) as [m'|].
  - intros [= <-]. simpl. f_equal. now apply IH.
  - destruct (c =? 125); [|discriminate]. intros [= <-]. reflexivity.
Qed.

Lemma star_to_last_brace (prev : option char) (s : str) :
  star true any_char (rmatch (lit "}") accept) prev s
  = match up_to_last_brace s with
    | Some m => Some (skipn (length m) s)
    | None => None
    end.
Proof.
  revert prev; induction s as [|c s IH]; intros prev; [reflexivity|].
  cbn [star any_char up_to_last_brace]. rewrite IH.
  destruct (up_to_last_brace s) as [m|]; [reflexivity|].
  cbn [rmatch lit]. change (str_eqb [c] (py "}")) with ((c =? 125) && true).
  rewrite andb_true_r. destruct (c =? 125); reflexivity.
Qed.

Lemma match_at_braces (prev : option char) (s : str) :
  match_at re_braces prev s
  = match s with
    | c :: s' =>
        if c =? 123 then
          match up_to_last_brace s' with
          | Some m => Some (S (length m))
          | None => None
          end
        else None
    | [] => None
    end.
Proof.
  unfold match_at, re_braces. cbn [rmatch lit].
  destruct s as [|c s']; [reflexivity|].
  change (str_eqb [c] (py "{")) with ((c =? 123) && true).
  rewrite andb_true_r. destruct (c =? 123); [|reflexivity].
  fold accept. rewrite star_to_last_brace.
  destruct (up_to_last_brace s') as [m|] eqn:Hm; [|reflexivity].
  f_equal. apply up_to_last_brace_prefix in Hm.
  rewrite Hm at 1. cbn [length]. rewrite length_app. lia.
Qed.

Lemma search_without_brace (prev : option char) (s : str) :
  up_to_last_brace s = None -> search_scan re_braces prev s = None.
Proof.
  revert prev; induction s as [|c s IH]; intros prev H.
  - reflexivity.
  - cbn [up_to_last_brace] in H.
    destruct (up_to_last_brace s) as [m|] eqn:Hm; [discriminate|].
    cbn [search_scan]. rewrite match_at_braces, Hm.
    destruct (c =? 123); now apply IH.
Qed.

(** [re.search(r'\{.*\}', s, re.DOTALL)] finds the part of [s] from its
    first opening brace to its last closing brace. *)
Lemma re_search_braces (s : str) : re_search re_braces s = between_braces s.
Proof.
  unfold re_search. generalize (@None char) as prev.
  induction s as [|c s IH]; intros prev; [reflexivity|].
  cbn [search_scan between_braces]. rewrite match_at_braces.
  destruct (c =? 123).
  - destruct (up_to_last_brace s) as [m|] eqn:Hm.
    + apply up_to_last_brace_prefix in Hm. cbn [firstn]. do 2 f_equal.
      rewrite Hm at 1. rewrite firstn_app, Nat.sub_diag, firstn_all.
      cbn [firstn]. apply app_nil_r.
    + now apply search_without_brace.
  - apply IH.
Qed.

End Braces.

Lemma keyword_sentiment_spec {rt : PyRuntime} (scanned : str) :
  let found words := exists word, In word words /\ occurs word scanned in
  (found positive_words ->
   keyword_sentiment scanned = (py "positive", Finite (7 # 10))) /\
  (~ found positive_words -> found negative_words ->
   keyword_sentiment scanned = (py "negative", Finite (7 # 10))) /\
  (~ found positive_words -> ~ found negative_words ->
   keyword_sentiment scanned = (py "neutral", Finite (1 # 2))).
Proof.
  assert (Hfound : forall words,
             existsb (fun word => contains word scanned) words = true <->
             exists word, In word words /\ occurs word scanned).
  { intros words. rewrite existsb_exists.
    split; intros [word [Hin H]]; exists word; split; auto; now apply contains_spec. }
  cbv zeta. unfold keyword_sentiment.
  destruct (existsb _ positive_words) eqn:Hpos.
  - repeat split; auto; intros Hno; destruct Hno; now apply Hfound.
  - assert (Hnopos : ~ exists word, In word positive_words /\ occurs word scanned).
    { intros H. apply Hfound in H. congruence. }
    destruct (existsb _ negative_words) eqn:Hneg.
    + repeat split; auto; try (intros H; now destruct (Hnopos H)).
      intros _ Hno. destruct Hno. now apply Hfound.
    + repeat split; auto; try (intros H; now destruct (Hnopos H)).
      intros _ H. apply Hfound in H. congruence.
Qed.

(** C7, as the code has it: when [json.loads] fails, the text that is
    printed and scanned is the one that was handed to it, which is the part
    of the completion from its first opening brace to its last closing
    brace when there is one, and the whole completion otherwise.  When the
    line that reports it cannot be printed, [UnicodeEncodeError] is raised.
    Otherwise a positive word in the text gives positive with 0.7, else a
    negative word gives negative with 0.7, else neutral with 0.5. *)
Theorem undecodable_sentiment {rt : PyRuntime} (key : option str) (w : world)
        (text raw : str) :
  truthy (strip text) = true ->
  run w (groq_chat key (sentiment_messages text) llama (1 # 10) 2048) = Some raw ->
  truthy raw = true ->
  json_loads (json_candidate raw) = JSONDecodeError ->
  let scanned := str_lower (json_candidate raw) in
  let found words := exists word, In word words /\ occurs word scanned in
  json_candidate raw = match between_braces raw with
                       | Some part => part
                       | None => raw
                       end /\
  (print_raises (json_candidate raw) = true ->
   run w (analyze_sentiment key text) = Raised UnicodeEncodeError) /\
  (print_raises (json_candidate raw) = false ->
   run w (analyze_sentiment key text) = Returned (keyword_sentiment scanned) /\
   (found positive_words ->
    run w (analyze_sentiment key text) = Returned (py "positive", Finite (7 # 10))) /\
   (~ found positive_words -> found negative_words ->
    run w (analyze_sentiment key text) = Returned (py "negative", Finite (7 # 10))) /\
   (~ found positive_words -> ~ found negative_words ->
    run w (analyze_sentiment key text) = Returned (py "neutral", Finite (1 # 2)))).
Proof.
  intros Htext Hchat Hraw Hloads scanned found.
  assert (Hrun : run w (analyze_sentiment key text)
                 = if print_raises (json_candidate raw)
                   then Raised UnicodeEncodeError
                   else Returned (keyword_sentiment scanned)).
  { unfold analyze_sentiment. rewrite Htext. cbn [negb].
    rewrite run_bind, Hchat, Hraw. cbn [negb run].
    unfold parse_sentiment. now rewrite Hloads. }
  split; [unfold json_candidate; now rewrite re_search_braces|].
  rewrite Hrun. split; [now intros ->|]. intros ->.
  split; [reflexivity|].
  destruct (keyword_sentiment_spec scanned) as (Hpos & Hneg & Hnone).
  repeat split.
  - intros H. now rewrite (Hpos H).
  - intros H1 H2. now rewrite (Hneg H1 H2).
  - intros H1 H2. now rewrite (Hnone H1 H2).
Qed.

Lemma undecodable_sentiment_witness :
  run (answering bearish_prose)
      (analyze_sentiment (rt := model_runtime) sample_key market_news)
  = Returned (py "negative", Finite (7 # 10)).
Proof.
  refine (proj1 (proj2 (proj2 (proj2 (proj2
            (undecodable_sentiment (rt := model_runtime) sample_key
               (answering bearish_prose) market_news bearish_prose _ _ _ _)) _))) _ _).
  - reflexivity.
  - vm_compute. reflexivity.
  - reflexivity.
  - vm_compute. reflexivity.
  - vm_compute. reflexivity.
  - intros [word [Hin Hocc]]. apply contains_spec in Hocc.
    assert (existsb (fun word => contains word
                       (str_lower (PyRuntime := model_runtime)
                          (json_candidate (rt := model_runtime) bearish_prose)))
              positive_words = true) as H by (apply existsb_exists; eauto).
    vm_compute in H. discriminate.
  - exists (py "bearish"). split.
    + vm_compute. tauto.
    + apply contains_spec. vm_compute. reflexivity.
Defined.

(** C7 fails as stated: the completion cannot be decoded and holds the
    word bearish, but the word stands outside the braces, so the scan does
    not see it and the answer is neutral with 0.5; a scan of the whole
    completion would give negative with 0.7. *)
Lemma bearish_outside_braces :
  json_loads (PyRuntime := model_runtime) bearish_with_braces = JSONDecodeError /\
  json_loads (PyRuntime := model_runtime)
    (json_candidate (rt := model_runtime) bearish_with_braces) = JSONDecodeError /\
  contains (py "bearish") bearish_with_braces = true /\
  keyword_sentiment (str_lower (PyRuntime := model_runtime) bearish_with_braces)
  = (py "negative", Finite (7 # 10)) /\
  run (answering bearish_with_braces)
      (analyze_sentiment (rt := model_runtime) sample_key market_news)
  = Returned (py "neutral", Finite (1 # 2)).
Proof.
  repeat split; vm_compute; reflexivity.
Qed.

(** ** Stripping *)

Lemma lstrip_Forall (P : char -> Prop) (s : str) : Forall P s -> Forall P (lstrip s).
Proof.
  induction 1 as [|c s Hc Hs IH]; cbn [lstrip]; [constructor|].
  destruct (isspace c); [exact IH | now constructor].
Qed.

Lemma strip_Forall (P : char -> Prop) (s : str) : Forall P s -> Forall P (strip s).
Proof.
  intros H. unfold strip, rstrip.
  apply Forall_rev, lstrip_Forall, Forall_rev, lstrip_Forall, H.
Qed.

Lemma lstrip_head (s : str) (c : char) :
  hd_error (lstrip s) = Some c -> isspace c = false.
Proof.
  induction s as [|x s IH]; cbn [lstrip]; [discriminate|].
  destruct (isspace x) eqn:Hx; [exact IH|].
  intros [= <-]. exact Hx.
Qed.

Lemma lstrip_snoc (s : str) (c : char) :
  isspace c = false -> lstrip (s ++ [c]) = lstrip s ++ [c].
Proof.
  intros Hc. induction s as [|x s IH]; cbn [lstrip app].
  - now rewrite Hc.
  - destruct (isspace x); [exact IH | reflexivity].
Qed.

Lemma strip_head (s : str) (c : char) :
  hd_error (strip s) = Some c -> isspace c = false.
Proof.
  unfold strip, rstrip. destruct (lstrip s) as [|x t] eqn:Ht; [discriminate|].
  assert (Hx : isspace x = false) by (apply (lstrip_head s); now rewrite Ht).
  cbn [rev]. rewrite (lstrip_snoc _ x Hx), rev_app_distr.
  intros [= <-]. exact Hx.
Qed.

Lemma strip_last (s : str) (c : char) :
  hd_error (rev (strip s)) = Some c -> isspace c = false.
Proof.
  unfold strip, rstrip. rewrite rev_involutive. apply lstrip_head.
Qed.

(** ** Extraction: the shape of the cleaned text *)

Section Cleaning.
Context {rt : PyRuntime}.

Let accept : kont := fun _ rest => Some rest.

Lemma star_accept (greedy : bool) (p : char -> bool) (prev : option char) (s : str) :
  exists rest, star greedy p accept prev s = Some rest /\
               (length rest <= length s)%nat.
Proof.
  revert prev; induction s as [|c s IH]; intros prev; cbn [star].
  - exists []. split; [reflexivity | lia].
  - destruct (p c); [|exists (c :: s); split; [reflexivity | lia]].
    destruct greedy.
    + destruct (IH (Some c)) as (rest & -> & Hlen).
      exists rest. split; [reflexivity | cbn [length]; lia].
    + exists (c :: s). split; [reflexivity | lia].
Qed.

Lemma match_at_spaces (prev : option char) (c : char) (s : str) :
  if isspace c
  then exists n, match_at re_spaces prev (c :: s) = Some (S n)
  else match_at re_spaces prev (c :: s) = None.
Proof.
  unfold match_at, re_spaces. cbn [rmatch].
  destruct (isspace c); [|reflexivity].
  fold accept. destruct (star_accept true isspace (Some c) s) as (rest & -> & Hlen).
  exists (length s - length rest)%nat. f_equal. cbn [length]. lia.
Qed.

(** After [re.sub(r'\s+', ' ', text)] the only whitespace is the plain
    space. *)
Lemma sub_spaces_plain (skip : nat) (prev : option char) (s : str) :
  Forall plain_space (sub_scan re_spaces (py " ") skip prev s).
Proof.
  assert (Hspace : Forall plain_space (py " ")) by (repeat constructor).
  revert skip prev; induction s as [|c s IH]; intros skip prev; cbn [sub_scan].
  - destruct skip; [destruct (match_at _ _ _)|]; auto.
  - destruct skip; [|apply IH].
    pose proof (match_at_spaces prev c s) as H.
    destruct (isspace c) eqn:Hc.
    + destruct H as [n ->]. apply Forall_app. split; [exact Hspace | apply IH].
    + rewrite H. constructor; [|apply IH]. intros Hc'. congruence.
Qed.

(** [re.sub(r, '', text)] only removes characters. *)
Lemma sub_delete_Forall (P : char -> Prop) (r : regex) (skip : nat)
      (prev : option char) (s : str) :
  Forall P s -> Forall P (sub_scan r [] skip prev s).
Proof.
  revert skip prev; induction s as [|c s IH]; intros skip prev H; cbn [sub_scan].
  - destruct skip; [destruct (match_at _ _ _)|]; constructor.
  - inversion H as [|? ? Hc Hs]; subst.
    destruct skip; [|now apply IH].
    destruct (match_at r prev (c :: s)) as [[|n]|]; cbn [app].
    + constructor; [exact Hc | now apply IH].
    + now apply IH.
    + constructor; [exact Hc | now apply IH].
Qed.

(** The continuation of a match is run on what the pattern leaves. *)
Lemma star_continues (greedy : bool) (p : char -> bool) (k : kont)
      (prev : option char) (s rest : str) :
  star greedy p k prev s = Some rest ->
  exists prev' before s', s = before ++ s' /\ k prev' s' = Some rest.
Proof.
  revert prev; induction s as [|c s IH]; intros prev; cbn [star].
  - intros H. now exists prev, [], [].
  - destruct (p c); [|intros H; now exists prev, [], (c :: s)].
    destruct greedy.
    + destruct (star true p k (Some c) s) as [rest'|] eqn:E.
      * intros [= <-]. destruct (IH _ E) as (prev' & before & s' & -> & Hk).
        now exists prev', (c :: before), s'.
      * intros H. now exists prev, [], (c :: s).
    + destruct (k prev (c :: s)) as [rest'|] eqn:E.
      * intros [= <-]. now exists prev, [], (c :: s).
      * intros H. destruct (IH _ H) as (prev' & before & s' & -> & Hk).
        now exists prev', (c :: before), s'.
Qed.

Lemma rmatch_continues (r : regex) (k : kont) (prev : option char) (s rest : str) :
  rmatch r k prev s = Some rest ->
  exists prev' before s', s = before ++ s' /\ k prev' s' = Some rest.
Proof.
  revert k prev s; induction r as [p | r1 IH1 r2 IH2 | r1 IH1 r2 IH2 | g p | | p];
    intros k prev s; cbn [rmatch].
  - destruct s as [|c s]; [discriminate|]. destruct (p c); [|discriminate].
    intros H. now exists (Some c), [c], s.
  - intros H. destruct (IH1 _ _ _ H) as (prev1 & before1 & s1 & -> & H1).
    destruct (IH2 _ _ _ H1) as (prev2 & before2 & s2 & -> & H2).
    exists prev2, (before1 ++ before2), s2. now rewrite app_assoc.
  - destruct (rmatch r1 k prev s) as [rest'|] eqn:E.
    + intros [= <-]. apply (IH1 _ _ _ E).
    + apply IH2.
  - apply star_continues.
  - destruct (xorb _ _); [|discriminate]. intros H. now exists prev, [], s.
  - destruct prev as [c|]; [|discriminate]. destruct (p c); [|discriminate].
    intros H. now exists (Some c), [], s.
Qed.

Lemma lstrip_suffix (s : str) : exists before, s = before ++ lstrip s.
Proof.
  induction s as [|c s [before IH]]; cbn [lstrip]; [now exists []|].
  destruct (isspace c); [|now exists []].
  exists (c :: before). cbn [app]. now rewrite <- IH.
Qed.

Lemma star_spaces (prev : option char) (s : str) :
  star true isspace accept prev s = Some (lstrip s).
Proof.
  revert prev; induction s as [|c s IH]; intros prev; cbn [star lstrip]; [reflexivity|].
  destruct (isspace c); [now rewrite IH | reflexivity].
Qed.

Lemma before_spaces_trimmed (r : regex) : ends_trimmed (RSeq r (RStar true isspace)).
Proof.
  intros prev s rest H. cbn [rmatch] in H.
  destruct (rmatch_continues _ _ _ _ _ H) as (prev' & before & s' & -> & Hk).
  cbn [rmatch] in Hk. fold accept in Hk. rewrite star_spaces in Hk.
  injection Hk as <-. destruct (lstrip_suffix s') as [before' Hs'].
  exists (before ++ before'). split.
  - rewrite <- app_assoc. now rewrite <- Hs'.
  - apply lstrip_head.
Qed.

Lemma spaces_trimmed : ends_trimmed re_spaces.
Proof. apply before_spaces_trimmed. Qed.

Lemma advertisement_trimmed : ends_trimmed re_advertisement.
Proof.
  intros prev s rest H.
  apply (before_spaces_trimmed
           (RSeq (word_ci (py "advertisement")) (RSeq (RStar false dot) (lit ".")))
           prev s rest).
  exact H.
Qed.

Lemma match_at_pending (r : regex) (prev : option char) (c : char) (s : str) (n : nat) :
  ends_trimmed r -> match_at r prev (c :: s) = Some (S n) ->
  forall x, hd_error (skipn n s) = Some x -> isspace x = false.
Proof.
  intros Hr. unfold match_at. fold accept.
  destruct (rmatch r accept prev (c :: s)) as [rest|] eqn:E; [|discriminate].
  destruct (Hr _ _ _ E) as (before & Hs & Hhd).
  intros Hn x.
  assert (Hn' : (length (c :: s) - length rest)%nat = S n) by congruence.
  assert (Hlen : length before = S n).
  { pose proof (f_equal (@length char) Hs) as Hl. rewrite length_app in Hl. lia. }
  destruct before as [|b before]; [discriminate|].
  cbn [app] in Hs. injection Hs as -> ->. cbn [length] in Hlen.
  injection Hlen as <-. rewrite skipn_app, skipn_all, Nat.sub_diag. cbn [skipn app].
  apply Hhd.
Qed.

Lemma no_run_tail (c : char) (s : str) :
  has_space_run (c :: s) = false -> has_space_run s = false.
Proof.
  cbn [has_space_run]. destruct s; [reflexivity|].
  intros H. now apply orb_false_elim in H.
Qed.

Lemma no_run_cons (c : char) (s : str) :
  has_space_run s = false ->
  (isspace c = true -> forall x, hd_error s = Some x -> isspace x = false) ->
  has_space_run (c :: s) = false.
Proof.
  intros Hs Hc. cbn [has_space_run]. destruct s as [|x s]; [reflexivity|].
  rewrite Hs, orb_false_r. destruct (isspace c); [|reflexivity].
  cbn [andb]. now apply Hc.
Qed.

Lemma no_run_head (c x : char) (s : str) :
  has_space_run (c :: x :: s) = false -> isspace c = true -> isspace x = false.
Proof.
  cbn [has_space_run]. intros H Hc. apply orb_false_elim in H as [H _].
  rewrite Hc in H. exact H.
Qed.

(** [re.sub(r'\s+', ' ', text)] leaves no whitespace run. *)
Lemma sub_spaces_single (s : str) (skip : nat) (prev : option char) :
  pending skip s ->
  has_space_run (sub_scan re_spaces (py " ") skip prev s) = false /\
  forall x, hd_error (sub_scan re_spaces (py " ") skip prev s) = Some x ->
            isspace x = true ->
            skip = 0%nat /\ exists c, hd_error s = Some c /\ isspace c = true.
Proof.
  revert skip prev; induction s as [|c s IH]; intros skip prev Hpending;
    cbn [sub_scan].
  - destruct skip; [|split; [reflexivity | discriminate]].
    change (match_at re_spaces prev []) with (@None nat).
    split; [reflexivity | discriminate].
  - destruct skip as [|n].
    + pose proof (match_at_spaces prev c s) as H. destruct (isspace c) eqn:Hc.
      * destruct H as [n Hn]. rewrite Hn.
        assert (Hn' : pending n s).
        { destruct n; [exact I|]. cbn [pending].
          apply (match_at_pending _ _ _ _ _ spaces_trimmed Hn). }
        destruct (IH n (Some c) Hn') as [Hrun Hhd].
        change (py " " ++ sub_scan re_spaces (py " ") n (Some c) s)
          with (32 :: sub_scan re_spaces (py " ") n (Some c) s).
        split.
        -- apply no_run_cons; [exact Hrun|]. intros _ x Hx.
           destruct (isspace x) eqn:Ex; [|reflexivity].
           destruct (Hhd x Hx Ex) as [-> (c' & Hc' & Ec')].
           rewrite (match_at_pending _ _ _ _ _ spaces_trimmed Hn c' Hc') in Ec'.
           discriminate.
        -- intros x [= <-] _. split; [reflexivity | now exists c].
      * rewrite H. destruct (IH 0%nat (Some c) I) as [Hrun Hhd]. split.
        -- apply no_run_cons; [exact Hrun | congruence].
        -- intros x [= <-] Ex. congruence.
    + assert (Hn' : pending n s).
      { destruct n; [exact I|]. exact Hpending. }
      destruct (IH n (Some c) Hn') as [Hrun Hhd]. split; [exact Hrun|].
      intros x Hx Ex. destruct (Hhd x Hx Ex) as [-> (c' & Hc' & Ec')].
      rewrite (Hpending c' Hc') in Ec'. discriminate.
Qed.

(** Removing the matches of a pattern that ends trimmed makes no
    whitespace run. *)
Lemma sub_delete_single (r : regex) (s : str) (skip : nat) (prev : option char) :
  ends_trimmed r ->
  has_space_run s = false -> pending skip s ->
  has_space_run (sub_scan r [] skip prev s) = false /\
  forall x, hd_error (sub_scan r [] skip prev s) = Some x ->
            isspace x = true ->
            skip = 0%nat /\ hd_error s = Some x.
Proof.
  intros Hr. revert skip prev; induction s as [|c s IH]; intros skip prev Hs Hpending;
    cbn [sub_scan].
  - destruct skip; [destruct (match_at r prev [])|]; split;
      try reflexivity; discriminate.
  - pose proof (no_run_tail _ _ Hs) as Hs'. destruct skip as [|n].
    + destruct (match_at r prev (c :: s)) as [[|n]|] eqn:Hn; cbn [app].
      * destruct (IH 0%nat (Some c) Hs' I) as [Hrun Hhd]. split.
        -- apply no_run_cons; [exact Hrun|]. intros Hc x Hx.
           destruct (isspace x) eqn:Ex; [|reflexivity].
           destruct (Hhd x Hx Ex) as [_ Hx'].
           destruct s as [|y s]; [discriminate|]. injection Hx' as ->.
           rewrite (no_run_head _ _ _ Hs Hc) in Ex. discriminate.
        -- intros x [= <-] _. auto.
      * assert (Hn' : pending n s).
        { destruct n; [exact I|]. cbn [pending]. apply (match_at_pending _ _ _ _ _ Hr Hn). }
        destruct (IH n (Some c) Hs' Hn') as [Hrun Hhd]. split; [exact Hrun|].
        intros x Hx Ex. destruct (Hhd x Hx Ex) as [-> Hx'].
        rewrite (match_at_pending _ _ _ _ _ Hr Hn x Hx') in Ex. discriminate.
      * destruct (IH 0%nat (Some c) Hs' I) as [Hrun Hhd]. split.
        -- apply no_run_cons; [exact Hrun|]. intros Hc x Hx.
           destruct (isspace x) eqn:Ex; [|reflexivity].
           destruct (Hhd x Hx Ex) as [_ Hx'].
           destruct s as [|y s]; [discriminate|]. injection Hx' as ->.
           rewrite (no_run_head _ _ _ Hs Hc) in Ex. discriminate.
        -- intros x [= <-] _. auto.
    + assert (Hn' : pending n s).
      { destruct n; [exact I|]. exact Hpending. }
      destruct (IH n (Some c) Hs' Hn') as [Hrun Hhd]. split; [exact Hrun|].
      intros x Hx Ex. destruct (Hhd x Hx Ex) as [-> Hx'].
      rewrite (Hpending x Hx') in Ex. discriminate.
Qed.

(** Before the promotional sentences are removed, the text holds no
    whitespace run. *)
Lemma single_spaced_before_promo (text : str) :
  has_space_run (re_sub re_advertisement [] (re_sub re_spaces (py " ") text)) = false.
Proof.
  unfold re_sub.
  apply (sub_delete_single re_advertisement _ 0 None advertisement_trimmed);
    [|exact I].
  apply (sub_spaces_single text 0 None I).
Qed.

End Cleaning.

(** X23: every extracted text is longer than 200 characters,
    it neither starts nor ends with whitespace, and every whitespace
    character in it is a plain space.  It is what removing the promotional
    sentences and trimming leave of a text that holds no run of more than
    one whitespace character, so a run can only stand where such a
    sentence was removed. *)
Theorem extracted_text_shape {rt : PyRuntime} (o : get_outcome) (text : str) :
  article_of_response o = Some text ->
  (200 < len text)%nat /\
  Forall plain_space text /\
  (forall c, hd_error text = Some c -> isspace c = false) /\
  (forall c, hd_error (rev text) = Some c -> isspace c = false) /\
  exists single_spaced,
    has_space_run single_spaced = false /\
    text = strip (re_sub re_promo [] single_spaced).
Proof.
  unfold article_of_response. destruct o as [|response]; [discriminate|].
  destruct (raises_for_status _); [discriminate|].
  destruct (_ <? 1000)%nat; [discriminate|].
  unfold extract_article.
  destruct (find_content _) as [found|]; [|discriminate].
  destruct (200 <? len (clean_text (collect_text found)))%nat eqn:Hlen; [|discriminate].
  intros [= <-]. apply Nat.ltb_lt in Hlen. split; [exact Hlen|].
  unfold clean_text. repeat split.
  - apply strip_Forall. unfold re_sub.
    apply sub_delete_Forall, sub_delete_Forall, sub_spaces_plain.
  - apply strip_head.
  - apply strip_last.
  - exists (re_sub re_advertisement [] (re_sub re_spaces (py " ") (collect_text found))).
    split; [apply single_spaced_before_promo | reflexivity].
Qed.

Lemma extracted_text_shape_witness :
  (200 < len (py promo_cleaned))%nat /\ Forall plain_space (py promo_cleaned).
Proof.
  destruct (extracted_text_shape (rt := model_runtime) promo_page (py promo_cleaned))
    as (Hlen & Hplain & _).
  - vm_compute. reflexivity.
  - split; assumption.
Defined.

(** C3: an extracted text should hold no run of more than one whitespace
    character.  On this page it does: the sentence that starts with
    "Please" is removed up to its full stop, and the space before it and
    the space after it are left side by side.  The pattern for
    advertisements ends in [\s*] and takes the space after it away; the
    pattern for promotional sentences does not. *)
Lemma promo_leaves_space_run :
  (1000 <= length (py promo_html))%nat /\
  article_of_response (rt := model_runtime) promo_page = Some (py promo_cleaned) /\
  has_space_run (py promo_cleaned) = true.
Proof.
  repeat split; vm_compute; try reflexivity. lia.
Qed.

(** ** Sentences *)

Section Sentences.
Context {rt : PyRuntime}.

Let accept : kont := fun _ rest => Some rest.

Lemma space_run_lstrip (s : str) :
  (length s - length (lstrip s))%nat = space_run s /\
  (length (lstrip s) <= length s)%nat.
Proof.
  induction s as [|c s [IH Hle]]; cbn [lstrip space_run]; [split; reflexivity|].
  destruct (isspace c); cbn [length]; split; lia.
Qed.

Lemma terminal_not_space (c : char) : isspace c = true -> is_terminal c = false.
Proof.
  unfold is_terminal. intros Hc.
  destruct (N.eqb_spec c 46) as [->|_]; [discriminate|].
  destruct (N.eqb_spec c 33) as [->|_]; [discriminate|].
  destruct (N.eqb_spec c 63) as [->|_]; [discriminate|].
  reflexivity.
Qed.

Lemma match_at_sentence_end (prev : option char) (c : char) (s : str) :
  match_at re_sentence_end prev (c :: s)
  = if after_terminal prev && isspace c then Some (S (space_run s)) else None.
Proof.
  unfold match_at, re_sentence_end, re_spaces. cbn [rmatch].
  destruct prev as [p|]; [|reflexivity]. cbn [after_terminal].
  destruct (is_terminal p); [|reflexivity]. cbn [andb].
  destruct (isspace c); [|reflexivity].
  fold accept. rewrite star_spaces.
  destruct (space_run_lstrip s) as [Hrun Hle]. f_equal. cbn [length]. lia.
Qed.

Lemma split_scan_sentences (s : str) (prev : option char) :
  split_scan re_sentence_end 0 prev s = sentences_scan false (after_terminal prev) s /\
  split_scan re_sentence_end (space_run s) prev s = sentences_scan true false s.
Proof.
  revert prev; induction s as [|c s IH]; intros prev; [split; reflexivity|].
  cbn [split_scan sentences_scan space_run]. rewrite match_at_sentence_end.
  destruct (isspace c) eqn:Hc.
  - split.
    + destruct (after_terminal prev); cbn [andb].
      * now rewrite (proj2 (IH (Some c))).
      * rewrite (proj1 (IH (Some c))). cbn [after_terminal].
        now rewrite (terminal_not_space c Hc).
    + apply IH.
  - rewrite andb_false_r. rewrite (proj1 (IH (Some c))). split; reflexivity.
Qed.

(** [re.split(r'(?<=[.!?])\s+', text)] cuts the text into its sentences. *)
Lemma re_split_sentences (s : str) : re_split re_sentence_end s = sentences s.
Proof.
  unfold re_split, sentences. now rewrite (proj1 (split_scan_sentences s None)).
Qed.

End Sentences.

(** ** The summarizer without the completion API *)

Lemma summary_sentences_spec {rt : PyRuntime} (text s : str) :
  In s (summary_sentences text) <->
  exists piece, In piece (re_split re_sentence_end text) /\
                s = strip piece /\
                (20 < len s)%nat /\
                forall word,
                  In word [py "subscribe"; py "share"; py "comment"] ->
                  ~ occurs word (str_lower piece).
Proof.
  unfold summary_sentences. rewrite in_map_iff. split.
  - intros (piece & <- & Hin). apply filter_In in Hin as [Hin Hok].
    apply andb_prop in Hok as [Hlen Hno]. apply Nat.ltb_lt in Hlen.
    apply negb_true_iff in Hno.
    exists piece. repeat split; auto.
    intros word Hword Hocc. apply contains_spec in Hocc.
    assert (existsb (fun word => contains word (str_lower piece))
              [py "subscribe"; py "share"; py "comment"] = true)
      as H by (apply existsb_exists; eauto).
    congruence.
  - intros (piece & Hin & -> & Hlen & Hno). exists piece. split; [reflexivity|].
    apply filter_In. split; [exact Hin|].
    apply andb_true_intro. split; [now apply Nat.ltb_lt|].
    apply negb_true_iff.
    destruct (existsb _ _) eqn:Hex; [|reflexivity].
    apply existsb_exists in Hex as (word & Hword & Hc).
    apply contains_spec in Hc. now destruct (Hno word Hword).
Qed.

(** C6: when [groq_chat] returns [None], [summarize_text] returns the
    disclaimer followed by the first five kept sentences joined with
    spaces, or the fixed message when no sentence is kept; the kept
    sentences are, in the order of the text, its sentences (cut after a
    full stop, exclamation or question mark followed by whitespace) that
    once stripped are longer than 20 characters and that hold none of
    subscribe, share and comment. *)
Theorem summary_fallback {rt : PyRuntime} (key : option str) (w : world)
        (text title : str) :
  truthy (strip text) = true ->
  run w (groq_chat key (summary_messages text title) llama (2 # 10) 1024) = None ->
  let boilerplate := [py "subscribe"; py "share"; py "comment"] in
  let meaningful s :=
    (20 <? len (strip s))%nat &&
    negb (existsb (fun word => contains word (str_lower s)) boilerplate) in
  let kept := map strip (filter meaningful (sentences text)) in
  (kept <> [] ->
   run w (summarize_text key text title)
   = ai_unavailable ++ py ". Key information from the article: "
       ++ join (py " ") (firstn 5 kept)) /\
  (kept = [] -> run w (summarize_text key text title) = could_not_summarize) /\
  (forall s,
      In s kept <->
      exists piece, In piece (sentences text) /\
                    s = strip piece /\
                    (20 < len s)%nat /\
                    forall word, In word boilerplate -> ~ occurs word (str_lower piece)).
Proof.
  intros Htext Hchat boilerplate meaningful kept.
  assert (Hkept : kept = summary_sentences text).
  { unfold kept, summary_sentences. now rewrite re_split_sentences. }
  assert (Hrun : run w (summarize_text key text title) = fallback_summary text).
  { unfold summarize_text. rewrite Htext. cbn [negb].
    now rewrite run_bind, Hchat. }
  rewrite Hrun, Hkept. unfold fallback_summary. repeat split.
  - destruct (summary_sentences text); [congruence | reflexivity].
  - now intros ->.
  - intros H. apply summary_sentences_spec in H. now rewrite re_split_sentences in H.
  - intros H. apply summary_sentences_spec. now rewrite re_split_sentences.
Qed.

Lemma summary_fallback_witness :
  run offline (summarize_text (rt := model_runtime) sample_key six_sentences [])
  = ai_unavailable ++ py ". Key information from the article: " ++ first_five.
Proof.
  destruct (summary_fallback (rt := model_runtime) sample_key offline six_sentences [])
    as (Hkept & _); [reflexivity | reflexivity |].
  etransitivity; [apply Hkept; vm_compute; discriminate | vm_compute; reflexivity].
Defined.

(** ** The second fallback: the sentences it keeps *)

Lemma contains_prefix (p s : str) : contains p (p ++ s) = true.
Proof.
  destruct (p ++ s) eqn:E; simpl.
  - destruct p; [reflexivity | discriminate].
  - rewrite <- E, startswith_app. reflexivity.
Qed.

Lemma key_sentences_spec {rt : PyRuntime} (text s : str) :
  In s (key_sentences text) <->
  exists piece, In piece (re_split re_sentence_end text) /\
                s = strip piece /\
                (30 < len s)%nat /\
                forall word,
                  In word [py "subscribe"; py "share"; py "comment"; py "read more"] ->
                  ~ occurs word (str_lower piece).
Proof.
  unfold key_sentences. rewrite in_map_iff. split.
  - intros (piece & <- & Hin). apply filter_In in Hin as [Hin Hok].
    apply andb_prop in Hok as [Hlen Hno]. apply Nat.ltb_lt in Hlen.
    apply negb_true_iff in Hno.
    exists piece. repeat split; auto.
    intros word Hword Hocc. apply contains_spec in Hocc.
    assert (existsb (fun word => contains word (str_lower piece))
              [py "subscribe"; py "share"; py "comment"; py "read more"] = true)
      as H by (apply existsb_exists; eauto).
    congruence.
  - intros (piece & Hin & -> & Hlen & Hno). exists piece. split; [reflexivity|].
    apply filter_In. split; [exact Hin|].
    apply andb_true_intro. split; [now apply Nat.ltb_lt|].
    apply negb_true_iff.
    destruct (existsb _ _) eqn:Hex; [|reflexivity].
    apply existsb_exists in Hex as (word & Hword & Hc).
    apply contains_spec in Hc. now destruct (Hno word Hword).
Qed.

(** ** Runs of the model *)

(** The JSON object is found inside the prose, the label is lower-cased and
    the confidence is read from its string. *)
Example wrapped_json_parsed :
  run (answering wrapped_json)
      (analyze_sentiment (rt := model_runtime) sample_key market_news)
  = Returned (py "positive", Finite (92 # 100)).
Proof. vm_compute. reflexivity. Qed.

(** Without a key [groq_chat] makes no call. *)
Example groq_chat_without_key :
  groq_chat None (sentiment_messages market_news) llama (1 # 10) 2048 = Ret None.
Proof. reflexivity. Qed.

(** Every failure of the completion API ends in [None]. *)
Example groq_chat_failures :
  groq_chat_response (PostRaised Timeout) = None /\
  groq_chat_response (PostResponse {| post_status := 401; response_json := None |})
  = None /\
  groq_chat_response (PostResponse {| post_status := 429; response_json := None |})
  = None /\
  groq_chat_response (PostResponse {| post_status := 503; response_json := None |})
  = None /\
  groq_chat_response
    (PostResponse {| post_status := 200;
                     response_json := Some (PyDict [(py "choices", PyList [])]) |})
  = None.
Proof. repeat split; reflexivity. Qed.

(** The sentences of a text. *)
Example sentences_of_text :
  sentences (py "It rained. Did it stop?  Yes!")
  = [py "It rained."; py "Did it stop?"; py "Yes!"].
Proof. vm_compute. reflexivity. Qed.

(** ** The document tree: induction and removal *)

Lemma node_induction (P : node -> Prop) :
  (forall s, P (Text s)) ->
  (forall name attrs cs, Forall P cs -> P (Tag name attrs cs)) ->
  forall n, P n.
Proof.
  intros HText HTag. fix IH 1. intros [s | name attrs cs].
  - apply HText.
  - apply HTag. induction cs as [|c cs IHcs]; constructor; [apply IH | exact IHcs].
Qed.

Lemma descendants_tag (name : str) (attrs : list (str * str)) (cs : list node) (e : node) :
  In e (descendants (Tag name attrs cs)) <->
  exists c, In c cs /\ (e = c \/ In e (descendants c)).
Proof.
  cbn [descendants]. rewrite in_flat_map. split.
  - intros (c & Hc & [<- | He]); exists c; auto.
  - intros (c & Hc & [-> | He]); exists c; split; auto; [now left | now right].
Qed.

Lemma decompose_all_tag (sel : selector) (name : str) (attrs : list (str * str))
      (cs : list node) :
  decompose_all sel (Tag name attrs cs)
  = Tag name attrs
      (map (decompose_all sel) (filter (fun c => negb (matches sel c)) cs)).
Proof.
  cbn [decompose_all]. f_equal.
  induction cs as [|c cs IH]; [reflexivity|].
  cbn [filter]. destruct (matches sel c); cbn [negb map]; now rewrite IH.
Qed.

(** Removal changes neither the name nor the attributes of what it keeps. *)
Lemma matches_decompose_all (sel sel' : selector) (n : node) :
  matches sel (decompose_all sel' n) = matches sel n.
Proof. destruct n; reflexivity. Qed.

(** What is left after the removal comes from an element that did not
    match. *)
Lemma descendants_decompose_all (sel : selector) (n e : node) :
  In e (descendants (decompose_all sel n)) ->
  exists e0, In e0 (descendants n) /\ e = decompose_all sel e0 /\
             matches sel e0 = false.
Proof.
  revert e. induction n as [s | name attrs cs IH] using node_induction; intros e.
  - intros [].
  - rewrite decompose_all_tag, descendants_tag.
    intros (c' & Hc' & He). apply in_map_iff in Hc' as (c & <- & Hc).
    apply filter_In in Hc as [Hc Hno]. apply negb_true_iff in Hno.
    rewrite Forall_forall in IH. destruct He as [-> | He].
    + exists c. repeat split; auto. apply descendants_tag. exists c. auto.
    + destruct (IH c Hc e He) as (e0 & He0 & -> & Hm).
      exists e0. repeat split; auto. apply descendants_tag. exists c. auto.
Qed.

(** A tree in which nothing matches is left as it is. *)
Lemma decompose_all_clean (sel : selector) (n : node) :
  (forall e, In e (descendants n) -> matches sel e = false) ->
  decompose_all sel n = n.
Proof.
  induction n as [s | name attrs cs IH] using node_induction; intros Hclean;
    [reflexivity|].
  rewrite decompose_all_tag. f_equal.
  induction cs as [|c cs IHcs]; [reflexivity|].
  inversion IH as [|? ? Hc Hcs]; subst.
  assert (Hm : matches sel c = false).
  { apply Hclean, descendants_tag. exists c. split; [now left | now left]. }
  cbn [filter]. rewrite Hm. cbn [negb map]. f_equal.
  - apply Hc. intros e He. apply Hclean, descendants_tag.
    exists c. split; [now left | now right].
  - apply IHcs; [exact Hcs|]. intros e He. apply Hclean.
    apply descendants_tag in He as (c' & Hc' & He).
    apply descendants_tag. exists c'. split; [now right | exact He].
Qed.

Lemma free_of_step (sels : list selector) (sel : selector) (t : node) :
  free_of sels t -> free_of (sel :: sels) (decompose_all sel t).
Proof.
  intros Hfree sel' e Hsel He.
  destruct (descendants_decompose_all sel t e He) as (e0 & He0 & -> & Hm).
  rewrite matches_decompose_all. destruct Hsel as [<- | Hsel]; [exact Hm|].
  now apply (Hfree sel' e0).
Qed.

Lemma free_of_fold (sels done : list selector) (t : node) :
  free_of done t ->
  free_of (rev sels ++ done) (fold_left (fun t sel => decompose_all sel t) sels t).
Proof.
  revert done t; induction sels as [|sel sels IH]; intros done t Hfree; [exact Hfree|].
  cbn [fold_left rev]. rewrite <- app_assoc. cbn [app].
  apply IH. now apply free_of_step.
Qed.

Lemma remove_unwanted_free (soup : node) :
  free_of noise_selectors (remove_unwanted soup).
Proof.
  intros sel e Hsel He.
  assert (Hnone : free_of [] soup) by (intros ? ? []).
  apply (free_of_fold noise_selectors [] soup Hnone sel e); [|exact He].
  rewrite app_nil_r. now apply in_rev in Hsel.
Qed.

Lemma descendants_trans (n e x : node) :
  In e (descendants n) -> In x (descendants e) -> In x (descendants n).
Proof.
  induction n as [s | name attrs cs IH] using node_induction; [intros []|].
  intros He Hx. apply descendants_tag in He as (c & Hc & He).
  apply descendants_tag. exists c. split; [exact Hc|]. right.
  destruct He as [-> | He]; [exact Hx|].
  rewrite Forall_forall in IH. now apply (IH c Hc).
Qed.

Lemma free_of_descendant (sels : list selector) (n e : node) :
  free_of sels n -> In e (descendants n) -> free_of sels e.
Proof.
  intros Hfree He sel x Hsel Hx. apply (Hfree sel x Hsel).
  now apply (descendants_trans n e x).
Qed.

Lemma with_parents_spec (n parent child : node) :
  In (parent, child) (with_parents n) ->
  (parent = n \/ In parent (descendants n)) /\ In child (descendants n).
Proof.
  revert parent child.
  induction n as [s | name attrs cs IH] using node_induction; intros parent child;
    [intros []|].
  cbn [with_parents]. rewrite in_flat_map. intros (c & Hc & [Heq | Hin]).
  - injection Heq as <- <-. split; [now left|].
    apply descendants_tag. exists c. auto.
  - rewrite Forall_forall in IH. destruct (IH c Hc parent child Hin) as [Hp Hchild].
    split.
    + right. apply descendants_tag. exists c. split; [exact Hc|].
      destruct Hp as [-> | Hp]; auto.
    + apply descendants_tag. exists c. auto.
Qed.

Lemma first_selected_spec (sels : list selector) (soup e : node) :
  first_selected sels soup = Some e ->
  exists before sel after,
    sels = before ++ sel :: after /\
    (forall earlier, In earlier before -> select earlier soup = []) /\
    hd_error (select sel soup) = Some e /\
    In e (descendants soup) /\ matches sel e = true.
Proof.
  induction sels as [|sel sels IH]; cbn [first_selected]; [discriminate|].
  destruct (select sel soup) as [|x rest] eqn:Hsel.
  - intros H. destruct (IH H) as (before & sel' & after & -> & Hnone & Hhd & Hin & Hm).
    exists (sel :: before), sel', after. repeat split; auto.
    intros earlier [<- | Hearlier]; auto.
  - intros [= ->]. exists [], sel, sels. rewrite Hsel. repeat split; auto.
    + intros earlier [].
    + assert (H : In e (select sel soup)) by (rewrite Hsel; now left).
      now apply filter_In in H.
    + assert (H : In e (select sel soup)) by (rewrite Hsel; now left).
      now apply filter_In in H.
Qed.

(** X1: after the removal of the unwanted elements no element of the
    page is a script, style, nav, footer, aside or header, and none has one
    of the classes advertisement, ad, popup, modal, newsletter,
    social-share, comments or related-articles. *)
Theorem noise_removed (soup e : node) (sel : selector) :
  In sel noise_selectors ->
  In e (descendants (remove_unwanted soup)) ->
  matches sel e = false.
Proof.
  intros Hsel He. exact (remove_unwanted_free soup sel e Hsel He).
Qed.

Lemma noise_removed_witness :
  remove_unwanted noisy_page = noisy_page_cleaned /\
  matches (SelTag (py "script")) (element "article" [paragraph long_text]) = false.
Proof.
  split; [vm_compute; reflexivity|].
  apply (noise_removed noisy_page
           (element "article" [paragraph long_text]) (SelTag (py "script"))).
  - vm_compute. tauto.
  - vm_compute. tauto.
Defined.

(** X2: removing the unwanted elements a second time changes nothing. *)
Theorem remove_unwanted_idempotent (soup : node) :
  remove_unwanted (remove_unwanted soup) = remove_unwanted soup.
Proof.
  pose proof (remove_unwanted_free soup) as Hfree.
  unfold remove_unwanted at 1.
  generalize (remove_unwanted soup) Hfree. intros t Ht.
  assert (H : forall sels, (forall sel, In sel sels -> In sel noise_selectors) ->
                           fold_left (fun t sel => decompose_all sel t) sels t = t).
  { induction sels as [|sel sels IH]; intros Hsub; [reflexivity|].
    cbn [fold_left]. rewrite decompose_all_clean.
    - apply IH. intros sel' Hsel'. apply Hsub. now right.
    - intros e He. apply (Ht sel e); [apply Hsub; now left | exact He]. }
  apply H. auto.
Qed.

(** ** Extraction: the content element *)

Lemma filter_head {A : Type} (f : A -> bool) (l : list A) (x : A) (rest : list A) :
  filter f l = x :: rest ->
  exists before after,
    l = before ++ x :: after /\ (forall y, In y before -> f y = false) /\ f x = true.
Proof.
  induction l as [|a l IH]; cbn [filter]; [discriminate|].
  destruct (f a) eqn:Ha.
  - intros [= -> _]. exists [], l. repeat split; auto. intros y [].
  - intros H. destruct (IH H) as (before & after & -> & Hno & Hx).
    exists (a :: before), after. repeat split; auto.
    intros y [<- | Hy]; auto.
Qed.

(** X3: the content element is the first element, in document order, that
    the first selector selecting anything selects: no element of the page
    matches an earlier selector of the list, and no element before it
    matches its selector. *)
Theorem selector_priority (soup content : node) :
  first_selected content_selectors soup = Some content ->
  find_content soup = Some content /\
  exists earlier sel later before after,
    content_selectors = earlier ++ sel :: later /\
    (forall s e, In s earlier -> In e (descendants soup) -> matches s e = false) /\
    matches sel content = true /\
    descendants soup = before ++ content :: after /\
    (forall e, In e before -> matches sel e = false).
Proof.
  intros Hfirst. split; [unfold find_content; now rewrite Hfirst|].
  destruct (first_selected_spec content_selectors soup content Hfirst)
    as (earlier & sel & later & Hsels & Hnone & Hhd & Hin & Hm).
  destruct (select sel soup) as [|x rest] eqn:Hsel; [discriminate|].
  injection Hhd as ->.
  destruct (filter_head (matches sel) (descendants soup) content rest Hsel)
    as (before & after & Hdesc & Hbefore & _).
  exists earlier, sel, later, before, after. repeat split; auto.
  intros s e Hs He. destruct (matches s e) eqn:Hse; [|reflexivity].
  assert (H : In e (select s soup)) by (apply filter_In; auto).
  rewrite (Hnone s Hs) in H. destruct H.
Qed.

Lemma selector_priority_witness :
  find_content main_before_article
  = Some (element "article" [paragraph long_text]).
Proof.
  apply (selector_priority main_before_article
           (element "article" [paragraph long_text])).
  vm_compute. reflexivity.
Defined.

(** *** The paragraph groups *)

Section Groups.

Lemma add_paragraph_spec (parent p : node) (groups : list (node * list node)) :
  Forall (fun g => snd g <> []) groups ->
  Forall (fun g => snd g <> []) (add_paragraph parent p groups) /\
  paragraphs_of (add_paragraph parent p groups) = S (paragraphs_of groups) /\
  forall q qs, In (q, qs) (add_paragraph parent p groups) ->
               q = parent \/ exists qs', In (q, qs') groups.
Proof.
  unfold paragraphs_of.
  induction groups as [|[q0 ps0] groups IH]; intros Hne; cbn [add_paragraph].
  - repeat split.
    + repeat constructor. discriminate.
    + intros q qs [[= <- <-] | []]. now left.
  - inversion Hne as [|? ? H0 Hrest]; subst. destruct (node_eqb q0 parent).
    + repeat split.
      * constructor; [|exact Hrest]. cbn [snd]. now destruct ps0.
      * cbn [map concat snd]. rewrite !length_app. cbn [length]. lia.
      * intros q qs [[= <- <-] | Hin]; right; [exists ps0; now left|].
        exists qs. now right.
    + destruct (IH Hrest) as (Hne' & Hcount & Hkeys). repeat split.
      * constructor; auto.
      * cbn [map concat snd]. rewrite !length_app. cbn [map concat snd] in Hcount.
        lia.
      * intros q qs [[= <- <-] | Hin]; [right; exists ps0; now left|].
        destruct (Hkeys q qs Hin) as [-> | (qs' & Hqs')]; [now left|].
        right. exists qs'. now right.
Qed.

Lemma grouped_spec (pairs : list (node * node)) (groups : list (node * list node)) :
  Forall (fun g => snd g <> []) groups ->
  Forall (fun g => snd g <> []) (grouped pairs groups) /\
  paragraphs_of (grouped pairs groups) = (length pairs + paragraphs_of groups)%nat /\
  forall q qs, In (q, qs) (grouped pairs groups) ->
               (exists p, In (q, p) pairs) \/ exists qs', In (q, qs') groups.
Proof.
  revert groups; induction pairs as [|[parent p] pairs IH]; intros groups Hne;
    cbn [grouped fold_left fst snd].
  - repeat split; auto. intros q qs Hin. right. now exists qs.
  - destruct (add_paragraph_spec parent p groups Hne) as (Hne' & Hcount & Hkeys).
    destruct (IH _ Hne') as (Hne'' & Hcount' & Hkeys').
    fold (grouped pairs (add_paragraph parent p groups)). repeat split; auto.
    + rewrite Hcount', Hcount. cbn [length]. lia.
    + intros q qs Hin. destruct (Hkeys' q qs Hin) as [(p' & Hp') | (qs' & Hqs')].
      * left. exists p'. now right.
      * destruct (Hkeys q qs' Hqs') as [-> | H]; [|now right].
        left. exists p. now left.
Qed.

Lemma max_by_len_spec (best : node * list node) (items : list (node * list node)) :
  In (max_by_len best items) (best :: items) /\
  forall g, In g (best :: items) ->
            (length (snd g) <= length (snd (max_by_len best items)))%nat.
Proof.
  revert best; induction items as [|item items IH]; intros best; cbn [max_by_len].
  - split; [now left|]. intros g [<- | []]. lia.
  - destruct (Nat.ltb_spec (length (snd best)) (length (snd item))) as [Hlt | Hge].
    + destruct (IH item) as [Hin Hmax]. split; [now right|].
      intros g [<- | Hg]; [|now apply Hmax].
      specialize (Hmax item (or_introl eq_refl)). lia.
    + destruct (IH best) as [Hin Hmax]. split.
      * destruct Hin as [<- | Hin]; [now left | right; now right].
      * intros g [<- | [<- | Hg]].
        -- apply Hmax. now left.
        -- specialize (Hmax best (or_introl eq_refl)). lia.
        -- apply Hmax. now right.
Qed.

Lemma with_parents_children (n : node) : map snd (with_parents n) = descendants n.
Proof.
  induction n as [s | name attrs cs IH] using node_induction; [reflexivity|].
  cbn [with_parents descendants]. generalize (Tag name attrs cs) as parent.
  intros parent. induction cs as [|c cs IHcs]; [reflexivity|].
  inversion IH as [|? ? Hc Hcs]; subst.
  cbn [flat_map]. rewrite map_app. cbn [map snd]. rewrite Hc. f_equal. f_equal.
  now apply IHcs.
Qed.

Lemma paragraph_pairs (n : node) :
  map snd (filter is_paragraph (with_parents n)) = find_all [py "p"] n.
Proof.
  unfold find_all. rewrite <- with_parents_children.
  induction (with_parents n) as [|[parent c] l IH]; [reflexivity|].
  cbn [filter map]. unfold is_paragraph at 1. cbn [snd].
  destruct (has_name [py "p"] c); cbn [map snd]; now rewrite IH.
Qed.

End Groups.

Lemma largest_text_block_spec (soup block : node) :
  largest_text_block soup = Some block ->
  (3 < length (find_all [py "p"] soup))%nat /\
  (exists ps, In (block, ps) (parent_paragraphs soup) /\ ps <> [] /\
              forall q qs, In (q, qs) (parent_paragraphs soup) ->
                           (length qs <= length ps)%nat) /\
  paragraphs_of (parent_paragraphs soup) = length (find_all [py "p"] soup) /\
  (block = soup \/ In block (descendants soup)).
Proof.
  unfold largest_text_block.
  destruct (Nat.ltb_spec 3 (length (find_all [py "p"] soup))) as [Hmany|]; [|discriminate].
  destruct (grouped_spec (filter is_paragraph (with_parents soup)) [] (Forall_nil _))
    as (Hne & Hcount & Hkeys).
  change (grouped (filter is_paragraph (with_parents soup)) [])
    with (parent_paragraphs soup) in Hne, Hcount, Hkeys.
  destruct (parent_paragraphs soup) as [|item items] eqn:Hgroups; [discriminate|].
  intros [= <-]. destruct (max_by_len_spec item items) as [Hin Hmax].
  destruct (max_by_len item items) as [block ps] eqn:Hbest. cbn [fst].
  split; [exact Hmany|]. split; [|split].
  - exists ps. split; [exact Hin|]. split.
    + rewrite Forall_forall in Hne. apply (Hne (block, ps) Hin).
    + intros q qs Hq. apply (Hmax (q, qs) Hq).
  - rewrite Hcount. unfold paragraphs_of. cbn [map concat length].
    rewrite Nat.add_0_r, <- paragraph_pairs. now rewrite length_map.
  - destruct (Hkeys block ps Hin) as [(p & Hp) | (qs' & [])].
    apply filter_In in Hp as [Hp _].
    apply (with_parents_spec soup block p Hp).
Qed.

(** X4: the paragraph grouping puts every paragraph of the page in one
    group, and the block it returns is the root or an element of the page
    whose group is not empty and at least as large as every other group. *)
Theorem largest_block_is_densest (soup block : node) :
  largest_text_block soup = Some block ->
  paragraphs_of (parent_paragraphs soup) = length (find_all [py "p"] soup) /\
  (block = soup \/ In block (descendants soup)) /\
  exists ps, In (block, ps) (parent_paragraphs soup) /\ ps <> [] /\
             forall q qs, In (q, qs) (parent_paragraphs soup) ->
                          (length qs <= length ps)%nat.
Proof.
  intros H. destruct (largest_text_block_spec soup block H) as (_ & Hmax & Hall & Hin).
  auto.
Qed.

Lemma largest_block_is_densest_witness :
  largest_text_block plain_page = Some plain_page_block /\
  paragraphs_of (parent_paragraphs plain_page) = 5%nat.
Proof.
  assert (H : largest_text_block plain_page = Some plain_page_block)
    by (vm_compute; reflexivity).
  split; [exact H|].
  destruct (largest_block_is_densest plain_page plain_page_block H) as (Hall & _).
  rewrite Hall. vm_compute. reflexivity.
Defined.

(** X5: the content element that is found in the cleaned page is the
    cleaned page or one of its elements, and it holds none of the unwanted
    elements. *)
Theorem content_free_of_noise (soup content : node) :
  find_content (remove_unwanted soup) = Some content ->
  (content = remove_unwanted soup \/ In content (descendants (remove_unwanted soup))) /\
  forall sel e, In sel noise_selectors -> In e (descendants content) ->
                matches sel e = false.
Proof.
  intros Hfound.
  assert (Hin : content = remove_unwanted soup \/
                In content (descendants (remove_unwanted soup))).
  { unfold find_content in Hfound.
    destruct (first_selected content_selectors (remove_unwanted soup)) as [e|] eqn:Hsel.
    - injection Hfound as <-. right.
      destruct (first_selected_spec _ _ _ Hsel) as (_ & _ & _ & _ & _ & _ & H & _).
      exact H.
    - now destruct (largest_text_block_spec _ _ Hfound) as (_ & _ & _ & H). }
  split; [exact Hin|]. destruct Hin as [-> | Hin].
  - apply remove_unwanted_free.
  - exact (free_of_descendant _ _ _ (remove_unwanted_free soup) Hin).
Qed.

Lemma content_free_of_noise_witness :
  find_content (remove_unwanted noisy_page)
  = Some (element "article" [paragraph long_text]) /\
  matches (SelTag (py "script")) (paragraph long_text) = false.
Proof.
  assert (H : find_content (remove_unwanted noisy_page)
              = Some (element "article" [paragraph long_text]))
    by (vm_compute; reflexivity).
  split; [exact H|].
  destruct (content_free_of_noise noisy_page _ H) as [_ Hfree].
  apply Hfree; vm_compute; tauto.
Defined.

(** ** The completion client *)

Lemma completion_content_shape (result : pyval) (content : str) :
  completion_content result = Some (Some content) <->
  exists d choice others message raw,
    result = PyDict d /\
    dict_lookup d (py "choices") = Some (PyList (PyDict choice :: others)) /\
    dict_lookup choice (py "message") = Some (PyDict message) /\
    dict_lookup message (py "content") = Some (PyStr raw) /\
    content = strip raw.
Proof.
  split.
  - unfold completion_content. intros H.
    destruct result as [| b | z | f | s | l | d];
      cbn [raising_bind py_in] in H; try discriminate H.
    + destruct (contains (py "choices") s); cbn [raising_bind py_getitem] in H;
        discriminate H.
    + destruct (existsb _ l); cbn [raising_bind py_getitem] in H; discriminate H.
    + cbn [py_getitem] in H.
      destruct (dict_lookup d (py "choices")) as [choices|] eqn:Hchoices;
        cbn [raising_bind] in H; [|discriminate H].
      destruct choices as [| b | z | f | s | [|choice others] | d'];
        cbn [py_truth truthy py_first raising_bind] in H;
        try discriminate H;
        try (destruct b; discriminate H);
        try (destruct (negb _); discriminate H);
        try (destruct (float_truth _); discriminate H);
        try (destruct d'; discriminate H).
      * destruct s as [|c s]; cbn [truthy py_first raising_bind py_in] in H;
          [discriminate H|].
        destruct (contains (py "message") [c]); cbn [raising_bind py_getitem] in H;
          discriminate H.
      * destruct choice as [| b | z | f | s | l | choice];
          cbn [raising_bind py_in py_getitem] in H; try discriminate H.
        -- destruct (contains (py "message") s);
             cbn [raising_bind py_getitem] in H; discriminate H.
        -- destruct (existsb _ l); cbn [raising_bind py_getitem] in H;
             discriminate H.
        -- destruct (dict_lookup choice (py "message")) as [message|] eqn:Hmessage;
             cbn [raising_bind] in H; [|discriminate H].
           destruct message as [| b | z | f | s | l | message];
             cbn [raising_bind py_in py_getitem] in H; try discriminate H.
           ++ destruct (contains (py "content") s);
                cbn [raising_bind py_getitem] in H; discriminate H.
           ++ destruct (existsb _ l); cbn [raising_bind py_getitem] in H;
                discriminate H.
           ++ destruct (dict_lookup message (py "content")) as [raw|] eqn:Hraw;
                cbn [raising_bind] in H; [|discriminate H].
              destruct raw as [| b | z | f | raw | l | d'];
                cbn [py_strip raising_bind] in H; try discriminate H.
              injection H as <-.
              exists d, choice, others, message, raw. auto.
  - intros (d & choice & others & message & raw & -> & Hchoices & Hmessage & Hraw & ->).
    unfold completion_content. cbn [py_in py_getitem raising_bind].
    rewrite Hchoices. cbn [raising_bind py_truth py_first py_in py_getitem].
    rewrite Hmessage. cbn [raising_bind py_in py_getitem].
    rewrite Hraw. reflexivity.
Qed.

Lemma groq_chat_response_shape (o : post_outcome) (content : str) :
  groq_chat_response o = Some content <->
  exists response d choice others message raw,
    o = PostResponse response /\
    (post_status response < 400)%Z /\
    response_json response = Some (PyDict d) /\
    dict_lookup d (py "choices") = Some (PyList (PyDict choice :: others)) /\
    dict_lookup choice (py "message") = Some (PyDict message) /\
    dict_lookup message (py "content") = Some (PyStr raw) /\
    content = strip raw.
Proof.
  split.
  - destruct o as [e | response]; cbn [groq_chat_response]; [discriminate|].
    destruct (post_status response =? 401)%Z; [discriminate|].
    destruct (post_status response =? 429)%Z; [discriminate|].
    destruct (Z.leb_spec 400 (post_status response)) as [|Hstatus]; [discriminate|].
    destruct (response_json response) as [result|] eqn:Hjson; [|discriminate].
    destruct (completion_content result) as [[c|]|] eqn:Hcontent; try discriminate.
    intros [= <-].
    apply completion_content_shape in Hcontent
      as (d & choice & others & message & raw & -> & H1 & H2 & H3 & H4).
    exists response, d, choice, others, message, raw. auto 10.
  - intros (response & d & choice & others & message & raw
            & -> & Hstatus & Hjson & H1 & H2 & H3 & H4).
    cbn [groq_chat_response].
    destruct (Z.eqb_spec (post_status response) 401); [lia|].
    destruct (Z.eqb_spec (post_status response) 429); [lia|].
    destruct (Z.leb_spec 400 (post_status response)); [lia|].
    rewrite Hjson.
    assert (Hc : completion_content (PyDict d) = Some (Some content)).
    { apply completion_content_shape.
      exists d, choice, others, message, raw. auto. }
    now rewrite Hc.
Qed.

Lemma run_groq_chat (key : option str) (w : world) (messages : list (str * str))
      (model : str) (temperature : Q) (max_tokens : Z) :
  run w (groq_chat key messages model temperature max_tokens)
  = if key_configured key
    then groq_chat_response
           (http_post w (groq_request key messages model temperature max_tokens))
    else None.
Proof. unfold groq_chat. destruct (key_configured key); reflexivity. Qed.

(** X6: [groq_chat] returns a text exactly when the key is configured, the
    API answers with a status below 400 and a JSON object whose "choices"
    is a list that starts with an object whose "message" is an object whose
    "content" is a string; the text is that string stripped.  Every other
    answer, and every exception, gives [None]. *)
Theorem groq_chat_success_shape (key : option str) (w : world)
        (messages : list (str * str)) (model : str) (temperature : Q)
        (max_tokens : Z) (content : str) :
  run w (groq_chat key messages model temperature max_tokens) = Some content <->
  key_configured key = true /\
  exists response d choice others message raw,
    http_post w (groq_request key messages model temperature max_tokens)
    = PostResponse response /\
    (post_status response < 400)%Z /\
    response_json response = Some (PyDict d) /\
    dict_lookup d (py "choices") = Some (PyList (PyDict choice :: others)) /\
    dict_lookup choice (py "message") = Some (PyDict message) /\
    dict_lookup message (py "content") = Some (PyStr raw) /\
    content = strip raw.
Proof.
  rewrite run_groq_chat. destruct (key_configured key).
  - rewrite groq_chat_response_shape. split; [intros H; split; auto | intros [_ H]; exact H].
  - split; [discriminate | intros [H _]; discriminate].
Qed.

(** X7: a text that [groq_chat] returns neither starts nor ends with
    whitespace. *)
Theorem groq_chat_content_trimmed (key : option str) (w : world)
        (messages : list (str * str)) (model : str) (temperature : Q)
        (max_tokens : Z) (content : str) :
  run w (groq_chat key messages model temperature max_tokens) = Some content ->
  (forall c, hd_error content = Some c -> isspace c = false) /\
  (forall c, hd_error (rev content) = Some c -> isspace c = false).
Proof.
  rewrite run_groq_chat. destruct (key_configured key); [|discriminate].
  intros H. apply groq_chat_response_shape in H
    as (response & d & choice & others & message & raw & _ & _ & _ & _ & _ & _ & ->).
  split; [apply strip_head | apply strip_last].
Qed.

Lemma groq_chat_content_trimmed_witness :
  run (answering (py "  The API is working.  "))
      (groq_chat sample_key test_messages llama (3 # 10) 2048)
  = Some (py "The API is working.") /\
  forall c, hd_error (py "The API is working.") = Some c -> isspace c = false.
Proof.
  assert (H : run (answering (py "  The API is working.  "))
                (groq_chat sample_key test_messages llama (3 # 10) 2048)
              = Some (py "The API is working.")) by (vm_compute; reflexivity).
  split; [exact H|].
  exact (proj1 (groq_chat_content_trimmed sample_key _ _ _ _ _ _ H)).
Defined.

Lemma calls_groq_chat (key : option str) (w : world) (messages : list (str * str))
      (model : str) (temperature : Q) (max_tokens : Z) :
  calls w (groq_chat key messages model temperature max_tokens)
  = if key_configured key then 1%nat else 0%nat.
Proof. unfold groq_chat. destruct (key_configured key); reflexivity. Qed.

Lemma calls_analyze_sentiment {rt : PyRuntime} (key : option str) (w : world)
      (text : str) :
  calls w (analyze_sentiment key text)
  = if truthy (strip text) && key_configured key then 1%nat else 0%nat.
Proof.
  unfold analyze_sentiment. destruct (truthy (strip text)); [|reflexivity].
  cbn [negb andb]. rewrite calls_bind, calls_groq_chat.
  destruct (run w _) as [result|]; [destruct (negb (truthy result))|];
    cbn [calls]; lia.
Qed.

Lemma calls_summarize_text {rt : PyRuntime} (key : option str) (w : world)
      (text title : str) :
  calls w (summarize_text key text title)
  = if truthy (strip text) && key_configured key then 1%nat else 0%nat.
Proof.
  unfold summarize_text. destruct (truthy (strip text)); [|reflexivity].
  cbn [negb andb]. rewrite calls_bind, calls_groq_chat.
  destruct (run w _) as [result|]; [destruct (negb (truthy result))|];
    cbn [calls]; lia.
Qed.

(** X8: without a configured key nothing is sent: [groq_chat] returns
    [None], the sentiment is neutral with confidence 0.5 and the summary is
    the extractive fallback (or the fixed message for a blank text), each
    without any network call. *)
Theorem without_key_nothing_is_sent {rt : PyRuntime} (key : option str) (w : world)
        (messages : list (str * str)) (model : str) (temperature : Q)
        (max_tokens : Z) (text title : str) :
  key_configured key = false ->
  (run w (groq_chat key messages model temperature max_tokens) = None /\
   calls w (groq_chat key messages model temperature max_tokens) = 0%nat) /\
  (run w (analyze_sentiment key text) = Returned (py "neutral", Finite (1 # 2)) /\
   calls w (analyze_sentiment key text) = 0%nat) /\
  (run w (summarize_text key text title)
   = (if truthy (strip text) then fallback_summary text else no_text_message) /\
   calls w (summarize_text key text title) = 0%nat).
Proof.
  intros Hkey. repeat split.
  - now rewrite run_groq_chat, Hkey.
  - now rewrite calls_groq_chat, Hkey.
  - unfold analyze_sentiment. destruct (truthy (strip text)); [|reflexivity].
    cbn [negb]. now rewrite run_bind, run_groq_chat, Hkey.
  - rewrite calls_analyze_sentiment, Hkey. now rewrite andb_false_r.
  - unfold summarize_text. destruct (truthy (strip text)); [|reflexivity].
    cbn [negb]. now rewrite run_bind, run_groq_chat, Hkey.
  - rewrite calls_summarize_text, Hkey. now rewrite andb_false_r.
Qed.

Lemma without_key_nothing_is_sent_witness :
  run (answering overconfident)
      (analyze_sentiment (rt := model_runtime) None market_news)
  = Returned (py "neutral", Finite (1 # 2)).
Proof.
  apply (without_key_nothing_is_sent (rt := model_runtime) None
           (answering overconfident) [] [] 0 0%Z market_news []).
  reflexivity.
Defined.

(** X9: a completion whose message is blank counts as no completion: the
    summary is the extractive fallback and the sentiment is neutral with
    confidence 0.5. *)
Theorem blank_completion_falls_back {rt : PyRuntime} (key : option str) (w : world)
        (content text title : str) :
  key_configured key = true ->
  completing content w ->
  forallb isspace content = true ->
  truthy (strip text) = true ->
  run w (summarize_text key text title) = fallback_summary text /\
  run w (analyze_sentiment key text) = Returned (py "neutral", Finite (1 # 2)).
Proof.
  intros Hkey Hw Hblank Htext.
  assert (Hchat : forall messages model temperature max_tokens,
             run w (groq_chat key messages model temperature max_tokens) = Some []).
  { intros. rewrite run_groq_chat, Hkey, Hw. cbn.
    now rewrite (strip_all_space content Hblank). }
  split.
  - unfold summarize_text. rewrite Htext. cbn [negb].
    now rewrite run_bind, Hchat.
  - unfold analyze_sentiment. rewrite Htext. cbn [negb].
    now rewrite run_bind, Hchat.
Qed.

Lemma blank_completion_falls_back_witness :
  run (answering (py "   "))
      (analyze_sentiment (rt := model_runtime) sample_key market_news)
  = Returned (py "neutral", Finite (1 # 2)).
Proof.
  apply (blank_completion_falls_back (rt := model_runtime) sample_key
           (answering (py "   ")) (py "   ") market_news []).
  - reflexivity.
  - intros req. reflexivity.
  - reflexivity.
  - reflexivity.
Defined.

(** ** The sentiment analyzer: decoded completions *)

Lemma run_analyze_sentiment {rt : PyRuntime} (key : option str) (w : world)
      (text raw : str) :
  truthy (strip text) = true ->
  run w (groq_chat key (sentiment_messages text) llama (1 # 10) 2048) = Some raw ->
  truthy raw = true ->
  run w (analyze_sentiment key text) = parse_sentiment raw.
Proof.
  intros Htext Hchat Hraw. unfold analyze_sentiment. rewrite Htext. cbn [negb].
  now rewrite run_bind, Hchat, Hraw.
Qed.

(** X11: when the completion decodes to an object whose sentiment is a
    string and whose confidence [float] accepts, the label is the
    lower-cased sentiment if that is positive, negative or neutral, and
    neutral otherwise; the confidence is returned in both cases. *)
Theorem decoded_sentiment {rt : PyRuntime} (key : option str) (w : world)
        (text raw : str) (d : list (str * pyval)) (sentiment : str)
        (confidence : pyfloat) :
  truthy (strip text) = true ->
  run w (groq_chat key (sentiment_messages text) llama (1 # 10) 2048) = Some raw ->
  truthy raw = true ->
  json_loads (json_candidate raw) = Decoded (PyDict d) ->
  dict_get d (py "sentiment") (PyStr (py "neutral")) = PyStr sentiment ->
  py_float (dict_get d (py "confidence") (PyFloat (Finite (1 # 2)))) = Some confidence ->
  (In (str_lower sentiment) sentiment_labels ->
   run w (analyze_sentiment key text) = Returned (str_lower sentiment, confidence)) /\
  (~ In (str_lower sentiment) sentiment_labels ->
   run w (analyze_sentiment key text) = Returned (py "neutral", confidence)).
Proof.
  intros Htext Hchat Hraw Hloads Hsentiment Hconfidence.
  rewrite (run_analyze_sentiment key w text raw Htext Hchat Hraw).
  unfold parse_sentiment. rewrite Hloads.
  unfold sentiment_fields, as_dict, raising_bind, neutral, half.
  rewrite Hsentiment. cbn [py_lower]. rewrite Hconfidence.
  destruct (existsb (str_eqb (str_lower sentiment)) sentiment_labels) eqn:Hvalid.
  - split; [reflexivity|]. intros Hno. destruct Hno.
    apply existsb_exists in Hvalid as (label & Hin & Heq).
    apply str_eqb_eq in Heq. now subst.
  - split; [|reflexivity]. intros Hin.
    assert (existsb (str_eqb (str_lower sentiment)) sentiment_labels = true) as H.
    { apply existsb_exists. exists (str_lower sentiment). split; [exact Hin|].
      now apply str_eqb_eq. }
    congruence.
Qed.

Lemma decoded_sentiment_witness :
  run (answering mixed_label)
      (analyze_sentiment (rt := model_runtime) sample_key market_news)
  = Returned (py "neutral", Finite (8 # 10)).
Proof.
  refine (proj2 (decoded_sentiment (rt := model_runtime) sample_key
                   (answering mixed_label) market_news mixed_label
                   [ (py "sentiment", PyStr (py "Mixed"));
                     (py "confidence", PyFloat (Finite (8 # 10))) ]
                   (py "Mixed") (Finite (8 # 10)) _ _ _ _ _ _) _);
    try (vm_compute; reflexivity).
  vm_compute. intuition discriminate.
Defined.

(** X12: the analysis is all or nothing.  When the completion decodes to a
    value that is no object, or the sentiment of the object is no string,
    or [float] rejects its confidence, the answer is neutral with
    confidence 0.5, whatever the other field holds. *)
Theorem undecodable_fields_collapse {rt : PyRuntime} (key : option str) (w : world)
        (text raw : str) (v : pyval) :
  truthy (strip text) = true ->
  run w (groq_chat key (sentiment_messages text) llama (1 # 10) 2048) = Some raw ->
  truthy raw = true ->
  json_loads (json_candidate raw) = Decoded v ->
  (as_dict v = None \/
   exists d, v = PyDict d /\
             (py_lower (dict_get d (py "sentiment") (PyStr (py "neutral"))) = None \/
              py_float (dict_get d (py "confidence") (PyFloat (Finite (1 # 2)))) = None)) ->
  run w (analyze_sentiment key text) = Returned (py "neutral", Finite (1 # 2)).
Proof.
  intros Htext Hchat Hraw Hloads Hbad.
  rewrite (run_analyze_sentiment key w text raw Htext Hchat Hraw).
  unfold parse_sentiment. rewrite Hloads.
  unfold sentiment_fields, raising_bind, neutral, half.
  destruct Hbad as [Hv | (d & -> & [Hs | Hc])].
  - now rewrite Hv.
  - cbn [as_dict]. now rewrite Hs.
  - cbn [as_dict]. rewrite Hc. now destruct (py_lower _).
Qed.

Lemma undecodable_fields_collapse_witness :
  run (answering confident_in_words)
      (analyze_sentiment (rt := model_runtime) sample_key market_news)
  = Returned (py "neutral", Finite (1 # 2)).
Proof.
  refine (undecodable_fields_collapse (rt := model_runtime) sample_key
            (answering confident_in_words) market_news confident_in_words
            (PyDict [ (py "sentiment", PyStr (py "positive"));
                      (py "confidence", PyStr (py "high")) ]) _ _ _ _ _).
  - vm_compute. reflexivity.
  - vm_compute. reflexivity.
  - vm_compute. reflexivity.
  - vm_compute. reflexivity.
  - right. eexists. split; [reflexivity|]. right. vm_compute. reflexivity.
Defined.

(** X13: only the first 4000 characters of a text that is not blank reach
    the analysis: two such texts that agree on them are analysed by the
    same program, so they get the same answer in every world. *)
Theorem analysis_reads_4000 {rt : PyRuntime} (key : option str) (text1 text2 : str) :
  truthy (strip text1) = true ->
  truthy (strip text2) = true ->
  firstn (N.to_nat 4000) text1 = firstn (N.to_nat 4000) text2 ->
  analyze_sentiment key text1 = analyze_sentiment key text2.
Proof.
  intros H1 H2 Hsame. unfold analyze_sentiment, sentiment_messages.
  now rewrite H1, H2, Hsame.
Qed.

Lemma analysis_reads_4000_witness :
  (4000 < len long_text_a)%nat /\ long_text_a <> long_text_b /\
  analyze_sentiment (rt := model_runtime) sample_key long_text_a
  = analyze_sentiment (rt := model_runtime) sample_key long_text_b.
Proof.
  split; [vm_compute; lia|]. split.
  - intros H. apply (f_equal (fun s => nth 4011 s 0)) in H.
    vm_compute in H. discriminate.
  - apply (analysis_reads_4000 (rt := model_runtime) sample_key long_text_a long_text_b);
      vm_compute; reflexivity.
Defined.

(** ** The summarizer: blank input and the summary it returns *)

(** X14: on an empty or whitespace-only text [summarize_text] is the
    program that returns "No text to summarize" at once; it contains no
    call. *)
Theorem summarize_text_blank {rt : PyRuntime} (key : option str) (text title : str) :
  forallb isspace text = true ->
  summarize_text key text title = Ret (py "No text to summarize").
Proof.
  intros Hblank. unfold summarize_text.
  now rewrite (strip_all_space text Hblank).
Qed.

Lemma summarize_text_blank_witness :
  summarize_text (rt := model_runtime) sample_key (py "  ") (py "Budget")
  = Ret (py "No text to summarize").
Proof.
  apply (summarize_text_blank (rt := model_runtime) sample_key (py "  ") (py "Budget")).
  reflexivity.
Defined.

Lemma fallback_summary_not_empty {rt : PyRuntime} (text : str) :
  fallback_summary text <> [].
Proof.
  unfold fallback_summary. destruct (summary_sentences text); discriminate.
Qed.

Lemma summarize_text_not_empty {rt : PyRuntime} (key : option str) (w : world)
      (text title : str) :
  run w (summarize_text key text title) <> [].
Proof.
  unfold summarize_text. destruct (negb (truthy (strip text))); [discriminate|].
  rewrite run_bind.
  destruct (run w (groq_chat _ _ _ _ _)) as [[|c summary]|]; cbn [truthy negb run];
    try apply fallback_summary_not_empty.
  discriminate.
Qed.

(** X15: [summarize_text] never returns the empty string, and a summary
    of the completion API that is not empty is returned as it is. *)
Theorem summary_never_empty {rt : PyRuntime} (key : option str) (w : world)
        (text title : str) :
  run w (summarize_text key text title) <> [] /\
  forall summary,
    truthy (strip text) = true ->
    run w (groq_chat key (summary_messages text title) llama (2 # 10) 1024)
    = Some summary ->
    summary <> [] ->
    run w (summarize_text key text title) = summary.
Proof.
  split; [apply summarize_text_not_empty|].
  intros summary Htext Hchat Hsome. unfold summarize_text.
  rewrite Htext. cbn [negb]. rewrite run_bind, Hchat.
  destruct summary; [congruence | reflexivity].
Qed.

Lemma summary_never_empty_witness :
  run (answering (py "The council approved the budget."))
      (summarize_text (rt := model_runtime) sample_key market_news [])
  = py "The council approved the budget.".
Proof.
  refine (proj2 (summary_never_empty (rt := model_runtime) sample_key
                   (answering (py "The council approved the budget."))
                   market_news [])
            (py "The council approved the budget.") _ _ _).
  - reflexivity.
  - vm_compute. reflexivity.
  - discriminate.
Defined.

(** ** Extraction: when it succeeds *)

(** X18: [fetch_full_article] returns a text only when the request raised
    nothing, the status is no 4xx or 5xx, the body has at least 1000 bytes
    and the extraction from the parsed page gives that text; the text is
    then longer than 200 characters. *)
Theorem fetch_success {rt : PyRuntime} (w : world) (url text : str) :
  run w (fetch_full_article url) = Some text ->
  exists response,
    http_get w url = GetResponse response /\
    ((get_status response < 400)%Z \/ (600 <= get_status response)%Z) /\
    (1000 <= length (content response))%nat /\
    extract_article (parsed response) = Some text /\
    (200 < len text)%nat.
Proof.
  unfold fetch_full_article. destruct (print_raises url); [discriminate|].
  cbn [run]. unfold article_of_response.
  destruct (http_get w url) as [|response]; [discriminate|].
  destruct (raises_for_status (get_status response)) eqn:Hstatus; [discriminate|].
  destruct (Nat.ltb_spec (length (content response)) 1000) as [|Hsize];
    [discriminate|].
  intros Hextract. exists response. split; [reflexivity|]. split; [|split; [exact Hsize|]].
  - unfold raises_for_status in Hstatus. apply andb_false_iff in Hstatus as [H | H].
    + left. now apply Z.leb_gt in H.
    + right. now apply Z.ltb_ge in H.
  - split; [exact Hextract|]. unfold extract_article in Hextract.
    destruct (find_content _); [|discriminate].
    destruct (200 <? len _)%nat eqn:Hlen; [|discriminate].
    injection Hextract as <-. now apply Nat.ltb_lt in Hlen.
Qed.

Lemma fetch_success_witness :
  exists response,
    http_get (serving promo_page) (py "https://news.example/story")
    = GetResponse response /\
    (1000 <= length (content response))%nat.
Proof.
  destruct (fetch_success (rt := model_runtime) (serving promo_page)
              (py "https://news.example/story") (py promo_cleaned))
    as (response & Hget & _ & Hsize & _).
  - vm_compute. reflexivity.
  - exists response. split; [exact Hget | exact Hsize].
Defined.

(** ** Sentences: what the split keeps *)

Lemma ends_terminal_cons (c : char) (piece : str) :
  ends_terminal piece -> ends_terminal (c :: piece).
Proof. intros (before & x & -> & Hx). now exists (c :: before), x. Qed.

Lemma sentences_scan_text (gap terminal : bool) (s : str) :
  without_spaces (fst (sentences_scan gap terminal s)
                    ++ concat (snd (sentences_scan gap terminal s)))
  = without_spaces s.
Proof.
  unfold without_spaces.
  revert gap terminal; induction s as [|c s IH]; intros gap terminal; [reflexivity|].
  cbn [sentences_scan filter]. destruct (isspace c) eqn:Hc; cbn [negb].
  - destruct gap; [apply IH|]. destruct terminal.
    + specialize (IH true false). destruct (sentences_scan true false s) as [p ps].
      exact IH.
    + specialize (IH false false). destruct (sentences_scan false false s) as [p ps].
      cbn [fst snd app filter] in *. now rewrite Hc.
  - specialize (IH false (is_terminal c)).
    destruct (sentences_scan false (is_terminal c) s) as [p ps].
    cbn [fst snd app filter] in *. rewrite Hc. cbn [negb]. now rewrite IH.
Qed.

Lemma sentences_scan_ends (gap terminal : bool) (s : str) :
  (snd (sentences_scan gap terminal s) <> [] ->
   (fst (sentences_scan gap terminal s) = [] -> gap = false /\ terminal = true) /\
   (fst (sentences_scan gap terminal s) <> [] ->
    ends_terminal (fst (sentences_scan gap terminal s)))) /\
  Forall ends_terminal (removelast (snd (sentences_scan gap terminal s))).
Proof.
  revert gap terminal; induction s as [|c s IH]; intros gap terminal.
  - cbn. split; [congruence | constructor].
  - cbn [sentences_scan]. destruct (isspace c) eqn:Hc.
    + destruct gap.
      * destruct (IH true false) as [Hfirst Hrest]. split; [|exact Hrest].
        intros Hps. destruct (Hfirst Hps) as [Hnil Hends]. split; [|exact Hends].
        intros Hp. now destruct (Hnil Hp).
      * destruct terminal.
        -- destruct (IH true false) as [Hfirst Hrest].
           destruct (sentences_scan true false s) as [p ps]. cbn [fst snd] in *.
           split; [intros _; split; [auto | congruence]|].
           destruct ps as [|p' ps]; [constructor|].
           change (removelast (p :: p' :: ps)) with (p :: removelast (p' :: ps)).
           constructor; [|exact Hrest].
           assert (Hps : p' :: ps <> []) by discriminate.
           destruct (Hfirst Hps) as [Hnil Hends].
           destruct p as [|x p]; [now destruct (Hnil eq_refl)|].
           apply Hends. discriminate.
        -- destruct (IH false false) as [Hfirst Hrest].
           destruct (sentences_scan false false s) as [p ps]. cbn [fst snd] in *.
           split; [|exact Hrest]. intros Hps. split; [discriminate|]. intros _.
           destruct (Hfirst Hps) as [Hnil Hends].
           destruct p as [|x p]; [now destruct (Hnil eq_refl)|].
           apply ends_terminal_cons, Hends. discriminate.
    + destruct (IH false (is_terminal c)) as [Hfirst Hrest].
      destruct (sentences_scan false (is_terminal c) s) as [p ps]. cbn [fst snd] in *.
      split; [|exact Hrest]. intros Hps. split; [discriminate|]. intros _.
      destruct (Hfirst Hps) as [Hnil Hends].
      destruct p as [|x p].
      * destruct (Hnil eq_refl) as [_ Hc']. now exists [], c.
      * apply ends_terminal_cons, Hends. discriminate.
Qed.

(** X19: the split into sentences (lines 270 and 421) drops nothing but
    whitespace, and every piece except the last ends with a full stop, an
    exclamation mark or a question mark. *)
Theorem sentence_split_keeps_text {rt : PyRuntime} (text : str) :
  without_spaces (concat (re_split re_sentence_end text)) = without_spaces text /\
  Forall ends_terminal (removelast (re_split re_sentence_end text)).
Proof.
  rewrite re_split_sentences. unfold sentences.
  pose proof (sentences_scan_text false false text) as Htext.
  destruct (sentences_scan_ends false false text) as [Hfirst Hrest].
  destruct (sentences_scan false false text) as [p ps]. cbn [fst snd] in *.
  split; [exact Htext|].
  destruct ps as [|p' ps]; [constructor|].
  change (removelast (p :: p' :: ps)) with (p :: removelast (p' :: ps)).
  constructor; [|exact Hrest].
  assert (Hps : p' :: ps <> []) by discriminate.
  destruct (Hfirst Hps) as [Hnil Hends].
  destruct p as [|x p]; [destruct (Hnil eq_refl); discriminate|].
  apply Hends. discriminate.
Qed.

(** ** The news list *)

Section NewsFacts.
Variable py_eq : pyval -> pyval -> bool.
Variable key : option str.
Variable api : str -> news_answer.

Lemma news_error_cases (e : request_exception) :
  news_error_message e = failed_to_fetch \/ news_error_message e = internal_error.
Proof. destruct e; cbn; auto. Qed.

Lemma news_json_error (url error : str) :
  news_json api url = inl error ->
  error = failed_to_fetch \/ error = internal_error.
Proof.
  unfold news_json. destruct (api url) as [e | status body].
  - intros [= <-]. apply news_error_cases.
  - destruct (raises_for_status status); [intros [= <-]; now left|].
    destruct body as [v | e]; [discriminate|].
    intros [= <-]. apply news_error_cases.
Qed.

Lemma article_url_link (a : list (str * pyval)) (category : str) :
  article_field (news_article a category) "url" = dict_get a (py "link") PyNone.
Proof. reflexivity. Qed.

Lemma add_articles_spec (category : str) (P : pyval -> Prop)
      (articles all_articles out : list pyval) :
  (forall a, P (news_article a category)) ->
  Forall P all_articles -> urls_distinct py_eq all_articles ->
  add_articles py_eq category articles all_articles = Some out ->
  Forall P out /\ urls_distinct py_eq out.
Proof.
  intros HP. revert all_articles; induction articles as [|a articles IH];
    intros all_articles Hall Hdistinct; cbn [add_articles].
  - intros [= <-]. auto.
  - destruct a as [| | | | | | d]; try discriminate.
    destruct (existsb _ all_articles) eqn:Hseen; [now apply IH|].
    apply IH.
    + apply Forall_app. split; [exact Hall | repeat constructor; apply HP].
    + intros i j earlier later Hij Hi Hj.
      destruct (Nat.lt_ge_cases j (length all_articles)) as [Hlt | Hge].
      * rewrite nth_error_app1 in Hi by lia. rewrite nth_error_app1 in Hj by lia.
        now apply (Hdistinct i j).
      * rewrite nth_error_app1 in Hi.
        2:{ destruct (Nat.lt_ge_cases i (length all_articles)) as [|Hi']; [assumption|].
            assert (Hnone : nth_error (all_articles ++ [news_article d category]) j = None).
            { apply nth_error_None. rewrite length_app. cbn [length]. lia. }
            congruence. }
        rewrite nth_error_app2 in Hj by exact Hge.
        destruct (j - length all_articles)%nat as [|n] eqn:Hn;
          [|destruct n; discriminate].
        injection Hj as <-. rewrite article_url_link.
        apply nth_error_In in Hi.
        destruct (py_eq (article_field earlier "url") (dict_get d (py "link") PyNone))
          eqn:Heq; [|reflexivity].
        assert (existsb (fun art => py_eq (article_field art "url")
                                      (dict_get d (py "link") PyNone))
                  all_articles = true) as H by (apply existsb_exists; eauto).
        congruence.
Qed.

Lemma category_articles_spec (category : str) (P : pyval -> Prop)
      (all_articles : list pyval) :
  (forall a, P (news_article a category)) ->
  Forall P all_articles -> urls_distinct py_eq all_articles ->
  match category_articles py_eq key api category all_articles with
  | inl error => error = failed_to_fetch \/ error = internal_error
  | inr out => Forall P out /\ urls_distinct py_eq out
  end.
Proof.
  intros HP Hall Hdistinct. unfold category_articles.
  destruct (news_json api _) as [error | data] eqn:Hjson;
    [now apply (news_json_error _ _ Hjson)|].
  destruct (news_results data) as [results|]; [|now right].
  destruct (py_items results) as [articles|]; [|now right].
  destruct (add_articles py_eq category articles all_articles) as [out|] eqn:Hadd;
    [|now right].
  now apply (add_articles_spec category P articles all_articles out).
Qed.

Lemma urls_distinct_nil : urls_distinct py_eq [].
Proof. intros i j earlier later _ Hi. destruct i; discriminate. Qed.

Lemma queried_articles_spec :
  match queried_articles py_eq key api with
  | inl error => error = failed_to_fetch \/ error = internal_error
  | inr out =>
      Forall (article_in [py "technology"; py "business"]) out /\
      urls_distinct py_eq out
  end.
Proof.
  unfold queried_articles.
  pose proof (category_articles_spec (py "technology")
                (article_in [py "technology"; py "business"]) []) as H1.
  destruct (category_articles py_eq key api (py "technology") []) as [error | all1].
  - apply H1; [|constructor | apply urls_distinct_nil].
    intros a. exists a, (py "technology"). split; [reflexivity | now left].
  - destruct H1 as [Hall1 Hdistinct1]; [|constructor | apply urls_distinct_nil|].
    { intros a. exists a, (py "technology"). split; [reflexivity | now left]. }
    apply category_articles_spec; auto.
    intros a. exists a, (py "business"). split; [reflexivity | right; now left].
Qed.

Lemma general_articles_spec (articles out : list pyval) :
  general_articles articles = Some out ->
  Forall (article_in [py "general"]) out /\ length out = length articles.
Proof.
  revert out; induction articles as [|a articles IH]; intros out; cbn [general_articles].
  - intros [= <-]. split; [constructor | reflexivity].
  - destruct a as [| | | | | | d]; try discriminate.
    destruct (general_articles articles) as [rest|]; [|discriminate].
    intros [= <-]. destruct (IH rest eq_refl) as [Hall Hlen]. split.
    + constructor; [|exact Hall]. exists d, (py "general"). split; [reflexivity | now left].
    + cbn [length]. now rewrite Hlen.
Qed.

Lemma py_first_ten_length (v : pyval) (articles : list pyval) :
  py_first_ten v = Some articles -> (length articles <= 10)%nat.
Proof.
  destruct v as [| | | | s | l |]; try discriminate; cbn [py_first_ten]; intros H.
  - assert (Heq : articles = map (fun c => PyStr [c]) (firstn 10 s)) by congruence.
    rewrite Heq, length_map. apply firstn_le_length.
  - assert (Heq : articles = firstn 10 l) by congruence.
    rewrite Heq. apply firstn_le_length.
Qed.

Lemma fallback_articles_spec :
  match fallback_articles key api with
  | inl error => error = failed_to_fetch \/ error = internal_error
  | inr out => Forall (article_in [py "general"]) out /\ (length out <= 10)%nat
  end.
Proof.
  unfold fallback_articles.
  destruct (news_json api _) as [error | data] eqn:Hjson;
    [now apply (news_json_error _ _ Hjson)|].
  destruct (news_results data) as [results|]; [|now right].
  destruct (py_first_ten results) as [articles|] eqn:Hten; [|now right].
  destruct (general_articles articles) as [out|] eqn:Hgeneral; [|now right].
  destruct (general_articles_spec articles out Hgeneral) as [Hall Hlen].
  split; [exact Hall|]. rewrite Hlen. now apply (py_first_ten_length results).
Qed.

Lemma Forall_firstn {A : Type} (P : A -> Prop) (n : nat) (l : list A) :
  Forall P l -> Forall P (firstn n l).
Proof.
  revert n; induction l as [|x l IH]; intros [|n] H; cbn [firstn]; try constructor.
  - now inversion H.
  - apply IH. now inversion H.
Qed.

Lemma urls_distinct_firstn (n : nat) (l : list pyval) :
  urls_distinct py_eq l -> urls_distinct py_eq (firstn n l).
Proof.
  intros H i j earlier later Hij Hi Hj. rewrite nth_error_firstn in Hi, Hj.
  destruct (i <? n)%nat; [|discriminate]. destruct (j <? n)%nat; [|discriminate].
  now apply (H i j).
Qed.

End NewsFacts.

(** X20: [get_news] answers 200 with at most 12 records, all from the
    categories technology and business or all (then at most 10) from the
    general query, or it answers 500 with an error: the missing key when
    the key is not configured, else "Failed to fetch news" or "Internal
    server error". *)
Theorem get_news_shape (py_eq : pyval -> pyval -> bool) (key : option str)
        (api : str -> news_answer) :
  match get_news py_eq key api with
  | (NewsError error, status) =>
      status = 500%Z /\
      if news_key_configured key
      then error = failed_to_fetch \/ error = internal_error
      else error = py "NewsData API key not configured"
  | (NewsList articles, status) =>
      status = 200%Z /\ news_key_configured key = true /\
      (length articles <= 12)%nat /\
      (Forall (article_in [py "technology"; py "business"]) articles \/
       (Forall (article_in [py "general"]) articles /\ (length articles <= 10)%nat))
  end.
Proof.
  unfold get_news. destruct (news_key_configured key); cbn [negb]; [|auto].
  pose proof (queried_articles_spec py_eq key api) as Hqueried.
  destruct (queried_articles py_eq key api) as [error | [|art all]]; [auto | |].
  - pose proof (fallback_articles_spec key api) as Hfallback.
    destruct (fallback_articles key api) as [error | out]; [auto|].
    destruct Hfallback as [Hall Hlen]. repeat split.
    + apply firstn_le_length.
    + right. split; [now apply Forall_firstn|].
      rewrite length_firstn. lia.
  - destruct Hqueried as [Hall _]. repeat split.
    + apply firstn_le_length.
    + left. now apply Forall_firstn.
Qed.

(** X21: when the category queries give articles, the list that is
    returned is made of their first 12, and no record in it has a URL equal
    to the URL of a record before it. *)
Theorem category_urls_distinct (py_eq : pyval -> pyval -> bool) (key : option str)
        (api : str -> news_answer) (all_articles : list pyval) :
  news_key_configured key = true ->
  queried_articles py_eq key api = inr all_articles ->
  all_articles <> [] ->
  get_news py_eq key api = (NewsList (firstn 12 all_articles), 200%Z) /\
  urls_distinct py_eq (firstn 12 all_articles).
Proof.
  intros Hkey Hqueried Hsome. split.
  - unfold get_news. rewrite Hkey, Hqueried. cbn [negb].
    destruct all_articles; [congruence | reflexivity].
  - pose proof (queried_articles_spec py_eq key api) as H. rewrite Hqueried in H.
    apply urls_distinct_firstn, H.
Qed.

Lemma category_urls_distinct_witness :
  exists articles,
    get_news py_eq_model news_key_sample sample_news_api = (NewsList articles, 200%Z) /\
    length articles = 3%nat.
Proof.
  assert (Hq : exists all_articles,
             queried_articles py_eq_model news_key_sample sample_news_api
             = inr all_articles /\ length all_articles = 3%nat).
  { vm_compute. eexists. split; reflexivity. }
  destruct Hq as (all_articles & Hq & Hlen).
  destruct (category_urls_distinct py_eq_model news_key_sample sample_news_api
              all_articles eq_refl Hq) as [Hnews _].
  - destruct all_articles; [discriminate | discriminate].
  - exists (firstn 12 all_articles). split; [exact Hnews|].
    rewrite firstn_all2; [exact Hlen | lia].
Defined.

Lemma general_articles_objects (objects : list (list (str * pyval))) :
  general_articles (map PyDict objects)
  = Some (map (fun a => news_article a (py "general")) objects).
Proof.
  induction objects as [|a objects IH]; [reflexivity|].
  cbn [map general_articles]. now rewrite IH.
Qed.

(** X22: when the category queries give no article, the answer is made of
    the first 10 results of the general query, in their order and without
    any removal of duplicates. *)
Theorem general_query_unfiltered (py_eq : pyval -> pyval -> bool) (key : option str)
        (api : str -> news_answer) (data : list (str * pyval))
        (objects : list (list (str * pyval))) :
  news_key_configured key = true ->
  queried_articles py_eq key api = inr [] ->
  news_json api (fallback_url key) = inr (PyDict data) ->
  dict_get data (py "results") (PyList []) = PyList (map PyDict objects) ->
  get_news py_eq key api
  = (NewsList (map (fun a => news_article a (py "general")) (firstn 10 objects)),
     200%Z).
Proof.
  intros Hkey Hqueried Hjson Hresults.
  unfold get_news. rewrite Hkey, Hqueried. cbn [negb].
  unfold fallback_articles. rewrite Hjson. cbn [news_results]. rewrite Hresults.
  cbn [py_first_ten]. rewrite firstn_map, general_articles_objects.
  rewrite firstn_all2; [reflexivity|].
  rewrite length_map. etransitivity; [apply firstn_le_length | lia].
Qed.

Lemma general_query_unfiltered_witness :
  exists article,
    get_news py_eq_model news_key_sample general_news_api
    = (NewsList [article; article], 200%Z).
Proof.
  eexists.
  refine (eq_trans
            (general_query_unfiltered py_eq_model news_key_sample general_news_api
               [ (py "status", PyStr (py "success"));
                 (py "results",
                  PyList [ news_item "Monsoon arrives" "https://news.example/monsoon";
                           news_item "Monsoon arrives" "https://news.example/monsoon" ]) ]
               [ [ (py "title", PyStr (py "Monsoon arrives"));
                   (py "link", PyStr (py "https://news.example/monsoon")) ];
                 [ (py "title", PyStr (py "Monsoon arrives"));
                   (py "link", PyStr (py "https://news.example/monsoon")) ] ]
               _ _ _ _) _).
  - reflexivity.
  - vm_compute. reflexivity.
  - vm_compute. reflexivity.
  - vm_compute. reflexivity.
  - vm_compute. reflexivity.
Defined.

(** ** The summarizer: what reaches the completion API *)

(** X24: only the title and the first 8000 characters of a text that is
    not blank reach the completion API: when it answers one such text with
    a summary that is not empty, every text that agrees with it on those
    characters gets the same summary. *)
Theorem summary_reads_8000 {rt : PyRuntime} (key : option str) (w : world)
        (text1 text2 title summary : str) :
  truthy (strip text1) = true ->
  truthy (strip text2) = true ->
  firstn (N.to_nat 8000) text1 = firstn (N.to_nat 8000) text2 ->
  run w (groq_chat key (summary_messages text1 title) llama (2 # 10) 1024)
  = Some summary ->
  summary <> [] ->
  run w (summarize_text key text1 title) = summary /\
  run w (summarize_text key text2 title) = summary.
Proof.
  intros H1 H2 Hsame Hchat Hsome.
  assert (Hchat2 : run w (groq_chat key (summary_messages text2 title) llama (2 # 10) 1024)
                   = Some summary).
  { unfold summary_messages in *. now rewrite <- Hsame. }
  unfold summarize_text. rewrite H1, H2. cbn [negb].
  rewrite !run_bind, Hchat, Hchat2.
  destruct summary; [congruence | split; reflexivity].
Qed.

Lemma summary_reads_8000_witness :
  (N.to_nat 8000 < len longer_text_a)%nat /\ longer_text_a <> longer_text_b /\
  run (answering_prompt (summary_messages eight_thousand []) (py "All is well."))
      (summarize_text (rt := model_runtime) sample_key longer_text_a [])
  = py "All is well." /\
  run (answering_prompt (summary_messages eight_thousand []) (py "All is well."))
      (summarize_text (rt := model_runtime) sample_key longer_text_b [])
  = py "All is well.".
Proof.
  split; [vm_compute; lia|]. split.
  - intros H. apply (f_equal (fun s => nth (N.to_nat 8011) s 0)) in H.
    vm_compute in H. discriminate.
  - refine (summary_reads_8000 (rt := model_runtime) sample_key
              (answering_prompt (summary_messages eight_thousand []) (py "All is well."))
              longer_text_a longer_text_b [] (py "All is well.") _ _ _ _ _).
    + vm_compute. reflexivity.
    + vm_compute. reflexivity.
    + vm_compute. reflexivity.
    + vm_compute. reflexivity.
    + discriminate.
Defined.

(** ** The extractive fallbacks quote the text *)

Lemma occurs_refl (s : str) : occurs s s.
Proof. exists [], []. now rewrite app_nil_r. Qed.

Lemma occurs_trans (a b c : str) : occurs a b -> occurs b c -> occurs a c.
Proof.
  intros (b1 & b2 & ->) (c1 & c2 & ->).
  exists (c1 ++ b1), (b2 ++ c2). now rewrite <- !app_assoc.
Qed.

Lemma occurs_cons (a s : str) (c : char) : occurs a s -> occurs a (c :: s).
Proof. intros (b1 & b2 & ->). now exists (c :: b1), b2. Qed.

Lemma strip_occurs (s : str) : occurs (strip s) s.
Proof.
  unfold strip, rstrip.
  destruct (lstrip_suffix s) as [before Hs].
  destruct (lstrip_suffix (rev (lstrip s))) as [dropped Hrev].
  exists before, (rev dropped).
  rewrite <- rev_app_distr, <- Hrev, rev_involutive. exact Hs.
Qed.

Lemma sentences_scan_occur (gap terminal : bool) (s : str) :
  occurs (fst (sentences_scan gap terminal s)) s /\
  (gap = false -> exists after, s = fst (sentences_scan gap terminal s) ++ after) /\
  Forall (fun piece => occurs piece s) (snd (sentences_scan gap terminal s)).
Proof.
  revert gap terminal; induction s as [|c s IH]; intros gap terminal.
  - cbn. repeat split; [apply occurs_refl | now exists [] | constructor].
  - assert (Hlift : forall l, Forall (fun piece => occurs piece s) l ->
                              Forall (fun piece => occurs piece (c :: s)) l).
    { intros l Hl. eapply Forall_impl; [|exact Hl]. intros a. apply occurs_cons. }
    assert (Hprefix : forall t,
               occurs (c :: fst (sentences_scan false t s)) (c :: s) /\
               (gap = false ->
                exists after, c :: s = (c :: fst (sentences_scan false t s)) ++ after) /\
               Forall (fun piece => occurs piece (c :: s)) (snd (sentences_scan false t s))).
    { intros t. destruct (IH false t) as (_ & Hpre & Hrest).
      destruct (Hpre eq_refl) as [after Hafter]. repeat split.
      - exists [], after. cbn [app]. now rewrite <- Hafter.
      - intros _. exists after. cbn [app]. now rewrite <- Hafter.
      - now apply Hlift. }
    cbn [sentences_scan]. destruct (isspace c).
    + destruct gap.
      * destruct (IH true false) as (Hocc & _ & Hrest). repeat split.
        -- now apply occurs_cons.
        -- discriminate.
        -- now apply Hlift.
      * destruct terminal.
        -- destruct (IH true false) as (Hocc & _ & Hrest).
           destruct (sentences_scan true false s) as [p ps]. cbn [fst snd] in *.
           repeat split.
           ++ now exists [], (c :: s).
           ++ intros _. now exists (c :: s).
           ++ constructor; [now apply occurs_cons | now apply Hlift].
        -- pose proof (Hprefix false) as HP.
           destruct (sentences_scan false false s) as [p ps]. exact HP.
    + pose proof (Hprefix (is_terminal c)) as HP.
      destruct (sentences_scan false (is_terminal c) s) as [p ps]. exact HP.
Qed.

Lemma sentences_occur (text piece : str) :
  In piece (sentences text) -> occurs piece text.
Proof.
  unfold sentences. destruct (sentences_scan_occur false false text) as (Hocc & _ & Hrest).
  destruct (sentences_scan false false text) as [p ps]. cbn [fst snd] in *.
  intros [<- | Hin]; [exact Hocc|].
  rewrite Forall_forall in Hrest. now apply Hrest.
Qed.

(** X25: the two extractive fallbacks quote the text: every sentence that
    the summarizer (lines 270-271) or the route (lines 421-423) keeps
    occurs in the text as it is. *)
Theorem fallback_quotes_text {rt : PyRuntime} (text sentence : str) :
  In sentence (summary_sentences text) \/ In sentence (key_sentences text) ->
  occurs sentence text.
Proof.
  intros H.
  assert (Hpiece : exists piece, In piece (sentences text) /\ sentence = strip piece).
  { rewrite <- re_split_sentences. destruct H as [H | H].
    - apply summary_sentences_spec in H as (piece & Hin & Heq & _). now exists piece.
    - apply key_sentences_spec in H as (piece & Hin & Heq & _). now exists piece. }
  destruct Hpiece as (piece & Hin & ->).
  apply (occurs_trans _ piece); [apply strip_occurs | now apply sentences_occur].
Qed.

Lemma fallback_quotes_text_witness :
  occurs (py "Taxes will rise by two percent next year!") six_sentences.
Proof.
  apply (fallback_quotes_text (rt := model_runtime) six_sentences
           (py "Taxes will rise by two percent next year!")).
  left. vm_compute. tauto.
Defined.

(** [float] rounds an integer of more than 53 bits to the nearest one it
    can hold, a tie to the even one. *)
Example float_rounds_integers :
  float_of_int (2 ^ 53 + 1) = (2 ^ 53)%Z /\
  float_of_int (2 ^ 53 + 3) = (2 ^ 53 + 4)%Z /\
  float_of_int (- (2 ^ 54 + 6)) = (- (2 ^ 54 + 8))%Z /\
  float_of_int 5 = 5%Z.
Proof. repeat split; vm_compute; reflexivity. Qed.

(** Without a key the test route reports the error without any call. *)
Example test_groq_without_key : test_groq None = Ret TestError.
Proof. reflexivity. Qed.

(** ** Where a text can occur in a concatenation *)

Lemma not_In_forallb (c : char) (s : str) :
  forallb (fun x => negb (x =? c)) s = true -> ~ In c s.
Proof.
  intros H Hin. rewrite forallb_forall in H. specialize (H c Hin).
  now rewrite N.eqb_refl in H.
Qed.

Lemma In_firstn {A : Type} (n : nat) (l : list A) (x : A) :
  In x (firstn n l) -> In x l.
Proof.
  revert l; induction n as [|n IH]; intros [|a l]; cbn [firstn In]; try tauto.
  intros [-> | H]; [now left | right; now apply IH].
Qed.

(** An occurrence of [m] does not start in a text that lacks the first
    character of [m]. *)
Lemma occurs_skip_prefix (m x y : str) (c : char) :
  hd_error m = Some c -> ~ In c x -> occurs m (x ++ y) -> occurs m y.
Proof.
  intros Hm. destruct m as [|c' m]; [discriminate|]. injection Hm as ->.
  induction x as [|a x IH]; intros Hx Hocc; [exact Hocc|].
  apply IH; [intros H; apply Hx; now right|].
  apply contains_spec in Hocc. cbn [app contains startswith] in Hocc.
  destruct (N.eqb_spec c a) as [->|_]; [destruct Hx; now left|].
  cbn [andb orb] in Hocc. now apply contains_spec.
Qed.

(** An occurrence of [m] does not cross a character that [m] lacks. *)
Lemma occurs_split_at (m x y : str) (c : char) :
  ~ In c m -> occurs m (x ++ c :: y) -> occurs m x \/ occurs m y.
Proof.
  intros Hc (before & after & Heq).
  apply app_eq_app in Heq as [l [[Hx Hrest] | [Hbefore Hrest]]].
  - apply app_eq_app in Hrest as [l' [[Hm Hy] | [Hl Hafter]]].
    + destruct l' as [|c' l'].
      * left. exists before, []. rewrite app_nil_r in *. now subst.
      * injection Hy as <- _. destruct Hc. rewrite Hm. apply in_or_app. right. now left.
    + left. exists before, l'. now subst.
  - destruct l as [|c' l].
    + destruct m as [|c' m].
      * left. exists x, []. now rewrite app_nil_r.
      * injection Hrest as <- _. destruct Hc. now left.
    + injection Hrest as _ ->. right. now exists l, after.
Qed.

Lemma startswith_mismatch (m s : str) (n : nat) (a b : char) :
  nth_error m n = Some a -> nth_error s n = Some b -> a <> b ->
  startswith m s = false.
Proof.
  revert m s; induction n as [|n IH]; intros [|x m] [|y s]; cbn [nth_error startswith];
    try discriminate.
  - intros [= ->] [= ->] Hab. apply N.eqb_neq in Hab. now rewrite Hab.
  - intros Hm Hs Hab. rewrite (IH m s Hm Hs Hab). apply andb_false_r.
Qed.

(** *** The pieces of a joined list *)

Lemma removelast_cons2 {A : Type} (a b : A) (l : list A) :
  removelast (a :: b :: l) = a :: removelast (b :: l).
Proof. reflexivity. Qed.

Lemma removelast_filter_Forall {A : Type} (P : A -> Prop) (f : A -> bool) (l : list A) :
  Forall P (removelast l) -> Forall P (removelast (filter f l)).
Proof.
  induction l as [|a l IH]; [auto|]. destruct l as [|b l].
  - intros _. cbn [filter]. destruct (f a); constructor.
  - rewrite removelast_cons2. intros H. inversion H as [|? ? Ha Hl]; subst.
    specialize (IH Hl). cbn [filter] in *. destruct (f a); [|exact IH].
    destruct (if f b then b :: filter f l else filter f l) as [|b' l'] eqn:E;
      [constructor|].
    rewrite removelast_cons2. now constructor.
Qed.

Lemma removelast_firstn_Forall {A : Type} (P : A -> Prop) (n : nat) (l : list A) :
  Forall P (removelast l) -> Forall P (removelast (firstn n l)).
Proof.
  revert l; induction n as [|n IH]; intros l; [constructor|].
  destruct l as [|a l]; [auto|]. destruct l as [|b l].
  - intros _. cbn [firstn]. destruct n; constructor.
  - rewrite removelast_cons2. intros H. inversion H as [|? ? Ha Hl]; subst.
    specialize (IH (b :: l) Hl). cbn [firstn] in *.
    destruct n as [|n]; [constructor|]. cbn [firstn] in *.
    rewrite removelast_cons2. now constructor.
Qed.

Lemma removelast_map_Forall {A B : Type} (P : A -> Prop) (Q : B -> Prop)
      (g : A -> B) (l : list A) :
  (forall a, P a -> Q (g a)) ->
  Forall P (removelast l) -> Forall Q (removelast (map g l)).
Proof.
  intros Hg. induction l as [|a l IH]; [auto|]. destruct l as [|b l].
  - intros _. constructor.
  - rewrite removelast_cons2. intros H. inversion H as [|? ? Ha Hl]; subst.
    cbn [map] in *. rewrite removelast_cons2. constructor; auto.
Qed.

Lemma lstrip_ends (before : str) (c : char) :
  isspace c = false -> exists before', lstrip (before ++ [c]) = before' ++ [c].
Proof.
  intros Hc. induction before as [|a before IH]; cbn [app lstrip].
  - rewrite Hc. now exists [].
  - destruct (isspace a); [exact IH | now exists (a :: before)].
Qed.

Lemma ends_terminal_strip (piece : str) :
  ends_terminal piece -> ends_terminal (strip piece).
Proof.
  intros (before & c & -> & Hc).
  assert (Hspace : isspace c = false).
  { destruct (isspace c) eqn:E; [|reflexivity].
    apply terminal_not_space in E. congruence. }
  destruct (lstrip_ends before c Hspace) as [before' Hl].
  exists before', c. split; [|exact Hc].
  unfold strip, rstrip. rewrite Hl, rev_app_distr. cbn [rev app lstrip].
  rewrite Hspace. cbn [rev]. now rewrite rev_involutive.
Qed.

Lemma sentences_end_terminal (text : str) :
  Forall ends_terminal (removelast (sentences text)).
Proof.
  unfold sentences.
  destruct (sentences_scan_ends false false text) as [Hfirst Hrest].
  destruct (sentences_scan false false text) as [p ps]. cbn [fst snd] in *.
  destruct ps as [|p' ps]; [constructor|].
  rewrite removelast_cons2. constructor; [|exact Hrest].
  assert (Hps : p' :: ps <> []) by discriminate.
  destruct (Hfirst Hps) as [Hnil Hends].
  destruct p as [|x p]; [destruct (Hnil eq_refl); discriminate|].
  apply Hends. discriminate.
Qed.

(** A text that holds no full stop, exclamation mark or question mark and
    does not start with a space occurs in a joined list of sentences only
    inside one of them. *)
Lemma join_occurs (m : str) (c : char) (parts : list str) :
  hd_error m = Some c -> c <> 32 ->
  (forall t, is_terminal t = true -> ~ In t m) ->
  Forall ends_terminal (removelast parts) ->
  occurs m (join (py " ") parts) ->
  exists part, In part parts /\ occurs m part.
Proof.
  intros Hm Hc Hterminal. induction parts as [|p parts IH]; intros Hends Hocc.
  - destruct Hocc as (before & after & Heq).
    destruct before; destruct m; discriminate.
  - destruct parts as [|p' parts].
    + exists p. split; [now left | exact Hocc].
    + rewrite removelast_cons2 in Hends. inversion Hends as [|? ? Hp Hrest]; subst.
      destruct Hp as (before & t & -> & Ht).
      change (join (py " ") ((before ++ [t]) :: p' :: parts))
        with ((before ++ [t]) ++ [32] ++ join (py " ") (p' :: parts)) in Hocc.
      rewrite <- app_assoc in Hocc. cbn [app] in Hocc.
      apply occurs_split_at in Hocc as [Hin | Hafter]; [| |now apply Hterminal].
      * exists (before ++ [t]). split; [now left|].
        destruct Hin as (b & a & ->). exists b, (a ++ [t]). now rewrite <- !app_assoc.
      * apply (occurs_skip_prefix m [32] _ c Hm) in Hafter.
        -- destruct (IH Hrest Hafter) as (part & Hin & Hpart).
           exists part. split; [now right | exact Hpart].
        -- intros [H | []]. congruence.
Qed.

(** *** The marker of the summarizer's disclaimer *)

Lemma ai_unavailable_head : hd_error ai_unavailable = Some 9888.
Proof. reflexivity. Qed.

Lemma ai_unavailable_no_terminal (t : char) :
  is_terminal t = true -> ~ In t ai_unavailable.
Proof.
  intros Ht Hin.
  assert (H : forallb (fun c => negb (is_terminal c)) ai_unavailable = true)
    by (vm_compute; reflexivity).
  rewrite forallb_forall in H. specialize (H t Hin). now rewrite Ht in H.
Qed.

Lemma preview_note_no_marker (s : str) :
  occurs ai_unavailable (preview_note ++ s) -> occurs ai_unavailable s.
Proof.
  intros Hocc. apply contains_spec in Hocc.
  change (preview_note ++ s) with (9888 :: (tl preview_note ++ s)) in Hocc.
  cbn [contains] in Hocc.
  rewrite (startswith_mismatch ai_unavailable (9888 :: (tl preview_note ++ s)) 3 65 78)
    in Hocc; [| reflexivity | reflexivity | discriminate].
  cbn [orb] in Hocc. apply contains_spec in Hocc.
  apply (occurs_skip_prefix _ (tl preview_note) s 9888 ai_unavailable_head);
    [|exact Hocc].
  apply not_In_forallb. vm_compute. reflexivity.
Qed.

Lemma key_sentence_occurs {rt : PyRuntime} (text sentence : str) :
  In sentence (key_sentences text) -> occurs sentence text.
Proof.
  intros H. apply key_sentences_spec in H as (piece & Hin & -> & _).
  rewrite re_split_sentences in Hin.
  apply (occurs_trans _ piece); [apply strip_occurs | now apply sentences_occur].
Qed.

Lemma key_sentences_end_terminal {rt : PyRuntime} (text : str) (n : nat) :
  Forall ends_terminal (removelast (firstn n (key_sentences text))).
Proof.
  apply removelast_firstn_Forall. unfold key_sentences.
  apply (removelast_map_Forall ends_terminal); [apply ends_terminal_strip|].
  apply removelast_filter_Forall. rewrite re_split_sentences.
  apply sentences_end_terminal.
Qed.

(** The marker occurs in the second fallback only where the text holds
    it. *)
Lemma enhanced_fallback_marker {rt : PyRuntime} (text : str) :
  occurs ai_unavailable (enhanced_fallback text) -> occurs ai_unavailable text.
Proof.
  unfold enhanced_fallback. destruct (3 <=? _)%nat.
  - intros Hocc.
    apply (occurs_skip_prefix _ _ _ 9888 ai_unavailable_head) in Hocc;
      [| apply not_In_forallb; vm_compute; reflexivity].
    apply (join_occurs _ 9888) in Hocc as (part & Hin & Hpart);
      [| reflexivity | discriminate | apply ai_unavailable_no_terminal
       | apply key_sentences_end_terminal].
    apply In_firstn in Hin.
    apply (occurs_trans _ part); [exact Hpart | now apply key_sentence_occurs].
  - intros Hocc. apply contains_spec in Hocc. vm_compute in Hocc. discriminate.
Qed.

Lemma final_summary_marker {rt : PyRuntime} (summary text : str) :
  occurs ai_unavailable (final_summary summary text) -> occurs ai_unavailable text.
Proof.
  unfold final_summary.
  destruct (negb (truthy summary)) eqn:Hempty; cbn [orb];
    [apply enhanced_fallback_marker|].
  destruct (contains ai_unavailable summary) eqn:Hc; [apply enhanced_fallback_marker|].
  intros Hocc. apply contains_spec in Hocc. congruence.
Qed.

(** ** The route: its answer, case by case *)

Lemma truthy_strip (s : str) : truthy (strip s) = true -> truthy s = true.
Proof. destruct s; [discriminate | reflexivity]. Qed.

Lemma analyze_sentiment_label {rt : PyRuntime} (key : option str) (w : world)
      (text sentiment : str) (confidence : pyfloat) :
  run w (analyze_sentiment key text) = Returned (sentiment, confidence) ->
  In sentiment sentiment_labels.
Proof.
  unfold analyze_sentiment.
  destruct (negb (truthy (strip text)));
    [intros [= <- _]; apply neutral_is_label|].
  rewrite run_bind.
  destruct (run w (groq_chat _ _ _ _ _)) as [raw|];
    [|intros [= <- _]; apply neutral_is_label].
  destruct (negb (truthy raw)); [intros [= <- _]; apply neutral_is_label|].
  cbn [run]. intros H. pose proof (parse_sentiment_result raw) as Hp.
  rewrite H in Hp. apply Hp.
Qed.

Lemma final_summary_not_empty {rt : PyRuntime} (summary text : str) :
  final_summary summary text <> [].
Proof.
  unfold final_summary, enhanced_fallback.
  destruct summary as [|c summary]; cbn [truthy negb orb].
  - destruct (_ <=? _)%nat; discriminate.
  - destruct (contains ai_unavailable (c :: summary)); [|discriminate].
    destruct (_ <=? _)%nat; discriminate.
Qed.

Lemma extracted_not_empty {rt : PyRuntime} (o : get_outcome) (text : str) :
  article_of_response o = Some text -> truthy text = true.
Proof.
  unfold article_of_response. destruct o as [|response]; [discriminate|].
  destruct (raises_for_status _); [discriminate|].
  destruct (_ <? 1000)%nat; [discriminate|].
  unfold extract_article. destruct (find_content _); [|discriminate].
  destruct (200 <? len _)%nat eqn:Hlen; [|discriminate].
  intros [= <-]. apply Nat.ltb_lt in Hlen.
  destruct (clean_text _); [cbn in Hlen; lia | reflexivity].
Qed.

Lemma fetched_not_empty {rt : PyRuntime} (w : world) (url text : str) :
  run w (fetch_full_article url) = Some text -> truthy text = true.
Proof.
  unfold fetch_full_article. destruct (print_raises url); [discriminate|].
  cbn [run]. apply extracted_not_empty.
Qed.

Lemma run_unavailable {rt : PyRuntime} (key : option str) (w : world)
      (messages : list (str * str)) (model : str) (temperature : Q) (max_tokens : Z) :
  (forall req, groq_chat_response (http_post w req) = None) ->
  run w (groq_chat key messages model temperature max_tokens) = None.
Proof.
  intros H. rewrite run_groq_chat. destruct (key_configured key); auto.
Qed.

Lemma run_summarize_served {rt : PyRuntime} (key : option str) (w : world)
      (text title : str) (used : bool) :
  run w (summarize_served key text title used)
  = match run w (analyze_sentiment key text) with
    | Raised e => (InternalError e, 500%Z)
    | Returned (sentiment, score) =>
        (AnalysisBody
           ((if used then [] else preview_note)
              ++ final_summary (run w (summarize_text key text title)) text)
           sentiment score used, 200%Z)
    end.
Proof.
  unfold summarize_served. rewrite !run_bind.
  destruct (run w (analyze_sentiment key text)) as [[sentiment score] | e];
    reflexivity.
Qed.

(** The run of the route on a posted object, with the runs of the
    functions it calls. *)
Lemma run_summarize {rt : PyRuntime} (key : option str) (w : world)
      (d : list (str * pyval)) :
  run w (summarize key (Json (PyDict d)))
  = if negb (py_truth (PyDict d))
    then (ErrorBody (py "No JSON data provided"), 400%Z)
    else if print_value_raises (field d "url")
    then (InternalError UnicodeEncodeError, 500%Z)
    else
      match py_len (field d "text") with
      | None => (InternalError TypeError, 500%Z)
      | Some _ =>
          if print_value_raises (field d "title")
          then (InternalError UnicodeEncodeError, 500%Z)
          else if negb (py_truth (field d "url"))
          then (ErrorBody (py "No article URL provided"), 400%Z)
          else if negb (key_configured key)
          then (ErrorBody (py "Groq API key is not configured. Please check your environment variables."), 500%Z)
          else if negb (py_truth (text_to_summarize w d))
          then (ErrorBody (py "No text content available to summarize"), 400%Z)
          else
            match text_to_summarize w d with
            | PyStr text =>
                if negb (truthy (strip text))
                then (ErrorBody (py "No text content available to summarize"), 400%Z)
                else
                  match title_text (field d "title") with
                  | None => (InternalError TypeError, 500%Z)
                  | Some title =>
                      run w (summarize_served key text title (used_full_article w d))
                  end
            | _ => (InternalError AttributeError, 500%Z)
            end
      end.
Proof.
  unfold summarize. cbn [as_dict].
  destruct (negb (py_truth (PyDict d))); [reflexivity|].
  destruct (print_value_raises (field d "url")); [reflexivity|].
  destruct (py_len (field d "text")); [|reflexivity].
  destruct (print_value_raises (field d "title")); [reflexivity|].
  destruct (negb (py_truth (field d "url"))); [reflexivity|].
  destruct (negb (key_configured key)); [reflexivity|].
  rewrite run_bind. fold (text_to_summarize w d). fold (used_full_article w d).
  destruct (negb (py_truth (text_to_summarize w d))); [reflexivity|].
  destruct (text_to_summarize w d) as [| b | z | f | text | l | d']; try reflexivity.
  destruct (negb (truthy (strip text))); [reflexivity|].
  destruct (title_text (field d "title")); reflexivity.
Qed.

(** C2, as the code has it: the answer of the route for every posted body,
    cause by cause.  An unreachable completion API is served with status
    200, and so is a failed extraction when the preview text is a string
    that is not blank.  Status 400 answers a body that is false in a test,
    a URL that is false in a test, and the case where neither the
    extracted article nor the preview text holds anything but whitespace.
    Status 500 answers a missing key, and every exception: a body that is
    no JSON, a body that is no object, a URL or a title that cannot be
    printed, a preview text without a length, a preview text that is used
    and is no string, a title that is true in a test and is no string, and
    a sentiment completion that can be neither decoded nor printed. *)
Theorem summarize_status {rt : PyRuntime} (key : option str) (w : world) :
  run w (summarize key JsonRaises) = (InternalError BadRequest, 500%Z) /\
  (forall v, py_truth v = false ->
     run w (summarize key (Json v))
     = (ErrorBody (py "No JSON data provided"), 400%Z)) /\
  (forall v, py_truth v = true -> as_dict v = None ->
     run w (summarize key (Json v)) = (InternalError AttributeError, 500%Z)) /\
  forall d, d <> [] ->
    let answer := run w (summarize key (Json (PyDict d))) in
    let url := field d "url" in
    let preview := field d "text" in
    let title := field d "title" in
    let text := text_to_summarize w d in
    let used := used_full_article w d in
    let note := if used then [] else preview_note in
    let no_text := (ErrorBody (py "No text content available to summarize"), 400%Z) in
    (print_value_raises url = true ->
     answer = (InternalError UnicodeEncodeError, 500%Z)) /\
    (print_value_raises url = false -> py_len preview = None ->
     answer = (InternalError TypeError, 500%Z)) /\
    (print_value_raises url = false -> py_len preview <> None ->
     print_value_raises title = true ->
     answer = (InternalError UnicodeEncodeError, 500%Z)) /\
    (printable_fields d ->
     (py_truth url = false ->
      answer = (ErrorBody (py "No article URL provided"), 400%Z)) /\
     (py_truth url = true -> key_configured key = false ->
      answer = (ErrorBody (py "Groq API key is not configured. Please check your environment variables."), 500%Z)) /\
     (py_truth url = true -> key_configured key = true ->
      (run w (fetch_full_article_any url) = None -> text = preview /\ used = false) /\
      (py_truth text = false -> answer = no_text) /\
      (py_truth text = true -> py_strip text = None ->
       answer = (InternalError AttributeError, 500%Z)) /\
      (forall t, text = PyStr t ->
         (truthy (strip t) = false -> answer = no_text) /\
         (truthy (strip t) = true ->
          (title_text title = None -> answer = (InternalError TypeError, 500%Z)) /\
          (forall shown_title, title_text title = Some shown_title ->
             (forall e, run w (analyze_sentiment key t) = Raised e ->
                        answer = (InternalError e, 500%Z)) /\
             (forall sentiment confidence,
                 run w (analyze_sentiment key t) = Returned (sentiment, confidence) ->
                 answer
                 = (AnalysisBody
                      (note ++ final_summary (run w (summarize_text key t shown_title)) t)
                      sentiment confidence used, 200%Z)) /\
             ((forall req, groq_chat_response (http_post w req) = None) ->
              answer
              = (AnalysisBody (note ++ final_summary (fallback_summary t) t)
                   (py "neutral") (Finite (1 # 2)) used, 200%Z))))))).
Proof.
  split; [reflexivity|]. split.
  { intros v Hv. unfold summarize. now rewrite Hv. }
  split.
  { intros v Hv Hd. unfold summarize. now rewrite Hv, Hd. }
  intros d Hd. cbv zeta. rewrite (run_summarize key w d).
  assert (Htruth : py_truth (PyDict d) = true) by (destruct d; [congruence | reflexivity]).
  rewrite Htruth. cbn [negb]. unfold printable_fields.
  split; [now intros ->|].
  split; [now intros -> ->|].
  split; [intros -> Hlen ->; now destruct (py_len _)|].
  intros (-> & Hlen & ->).
  destruct (py_len (field d "text")) as [n|]; [clear Hlen | congruence].
  split; [now intros ->|].
  split; [now intros -> ->|].
  intros -> ->. cbn [negb].
  split.
  { intros Hnone. unfold text_to_summarize, used_full_article. now rewrite Hnone. }
  split; [now intros ->|].
  split.
  { intros -> Hstrip. cbn [negb].
    destruct (text_to_summarize w d); try reflexivity. discriminate Hstrip. }
  intros t ->. cbn [py_truth]. split.
  { intros Hblank. destruct (truthy t); cbn [negb]; [|reflexivity].
    now rewrite Hblank. }
  intros Htext. rewrite Htext, (truthy_strip t Htext). cbn [negb].
  split; [now intros ->|].
  intros shown_title ->. rewrite run_summarize_served.
  split; [now intros e ->|].
  split; [now intros sentiment confidence ->|].
  intros Hdown.
  assert (Hsummary : run w (summarize_text key t shown_title) = fallback_summary t).
  { unfold summarize_text. rewrite Htext. cbn [negb].
    now rewrite run_bind, (run_unavailable key w _ _ _ _ Hdown). }
  assert (Hanalysis : run w (analyze_sentiment key t) = Returned (neutral, half)).
  { unfold analyze_sentiment. rewrite Htext. cbn [negb].
    now rewrite run_bind, (run_unavailable key w _ _ _ _ Hdown). }
  now rewrite Hsummary, Hanalysis.
Qed.

(** C2 fails as stated: with a URL and a configured key, a failed
    extraction is answered with status 400 when the request carries no
    preview text. *)
Lemma extraction_failure_rejected :
  py_truth (field url_only "url") = true /\
  key_configured sample_key = true /\
  run offline (fetch_full_article_any (rt := model_runtime) (field url_only "url"))
  = None /\
  run offline (summarize (rt := model_runtime) sample_key (Json (PyDict url_only)))
  = (ErrorBody (py "No text content available to summarize"), 400%Z).
Proof.
  repeat split; vm_compute; reflexivity.
Qed.

(** With a preview text the same failures are served: the page cannot be
    fetched, the completion API cannot be reached, and the answer is 200. *)
Example degraded_request_served :
  snd (run offline
         (summarize (rt := model_runtime) sample_key (Json (PyDict quoting_request))))
  = 200%Z.
Proof. vm_compute. reflexivity. Qed.

(** A body without JSON, a preview text that is [null], and a completion
    that can be neither decoded nor printed end in the handler of the
    route. *)
Example internal_errors :
  run offline (summarize (rt := model_runtime) sample_key JsonRaises)
  = (InternalError BadRequest, 500%Z) /\
  run offline (summarize (rt := model_runtime) sample_key (Json (PyDict null_preview)))
  = (InternalError TypeError, 500%Z) /\
  run (answering bearish_unprintable)
      (summarize (rt := model_runtime) sample_key (Json (PyDict quoting_request)))
  = (InternalError UnicodeEncodeError, 500%Z).
Proof. repeat split; vm_compute; reflexivity. Qed.

Lemma summarize_status_witness :
  snd (run offline
         (summarize (rt := model_runtime) sample_key (Json (PyDict quoting_request))))
  = 200%Z.
Proof.
  destruct (summarize_status (rt := model_runtime) sample_key offline)
    as (_ & _ & _ & H).
  assert (Hd : quoting_request <> []) by discriminate.
  assert (Hp : printable_fields (rt := model_runtime) quoting_request).
  { split; [vm_compute; reflexivity|].
    split; [vm_compute; discriminate | vm_compute; reflexivity]. }
  destruct (H quoting_request Hd) as (_ & _ & _ & Hprintable).
  destruct (Hprintable Hp) as (_ & _ & Hserved).
  destruct (Hserved eq_refl eq_refl) as (_ & _ & _ & Htext).
  assert (Ht : text_to_summarize (rt := model_runtime) offline quoting_request
               = PyStr quoting_preview) by (vm_compute; reflexivity).
  destruct (Htext quoting_preview Ht) as (_ & Hshown).
  assert (Hs : truthy (strip quoting_preview) = true) by (vm_compute; reflexivity).
  destruct (Hshown Hs) as (_ & Htitle).
  destruct (Htitle [] eq_refl) as (_ & _ & Hdown).
  rewrite Hdown; [reflexivity|]. intros req. reflexivity.
Defined.

(** ** The route: the summary it shows *)

(** The answers with status 200 are the analyses of a posted object. *)
Lemma summarize_served_inversion {rt : PyRuntime} (key : option str) (w : world)
      (request : request_json) (body : response_body) :
  run w (summarize key request) = (body, 200%Z) ->
  exists d text title sentiment confidence,
    request = Json (PyDict d) /\
    printable_fields d /\
    py_truth (field d "url") = true /\
    key_configured key = true /\
    text_to_summarize w d = PyStr text /\
    truthy (strip text) = true /\
    title_text (field d "title") = Some title /\
    run w (analyze_sentiment key text) = Returned (sentiment, confidence) /\
    body = AnalysisBody
             ((if used_full_article w d then [] else preview_note)
                ++ final_summary (run w (summarize_text key text title)) text)
             sentiment confidence (used_full_article w d).
Proof.
  destruct request as [|v]; [discriminate|].
  destruct (py_truth v) eqn:Hv; [|unfold summarize; rewrite Hv; discriminate].
  destruct v as [| b | z | f | s | l | d];
    try (unfold summarize; rewrite Hv; discriminate).
  rewrite run_summarize, Hv. cbn [negb]. unfold printable_fields.
  destruct (print_value_raises (field d "url")) eqn:Hpurl; [discriminate|].
  destruct (py_len (field d "text")) as [n|] eqn:Hlen; [|discriminate].
  destruct (print_value_raises (field d "title")) eqn:Hptitle; [discriminate|].
  destruct (py_truth (field d "url")) eqn:Hurl; [|discriminate].
  destruct (key_configured key); [|discriminate]. cbn [negb].
  destruct (negb (py_truth (text_to_summarize w d))); [discriminate|].
  destruct (text_to_summarize w d) as [| b | z | f | text | l | d'] eqn:Ht;
    try discriminate.
  destruct (truthy (strip text)) eqn:Htext; [|discriminate]. cbn [negb].
  destruct (title_text (field d "title")) as [title|] eqn:Htitle; [|discriminate].
  rewrite run_summarize_served.
  destruct (run w (analyze_sentiment key text)) as [[sentiment confidence] | e]
    eqn:Hanalysis; [|discriminate].
  intros [= <-]. exists d, text, title, sentiment, confidence.
  rewrite Hlen. repeat split; auto. discriminate.
Qed.

(** C9: in every answer with a summary, a summary of [summarize_text] that
    is empty or in which the marker of its disclaimer occurs (its
    disclaimer fallback always is one) is replaced by the second fallback:
    the prefix "Key points from the article: " and the first five of the
    sentences longer than 30 characters without subscribe, share, comment
    or read more when there are at least 3 of them, else a fixed message.
    Any other summary is shown as it is.  The marker occurs in what the
    caller sees only where the analysed text itself holds it. *)
Theorem summary_replacement {rt : PyRuntime} (key : option str) (w : world)
        (request : request_json) (shown sentiment : str) (confidence : pyfloat)
        (used : bool) :
  run w (summarize key request)
  = (AnalysisBody shown sentiment confidence used, 200%Z) ->
  exists d text title,
    request = Json (PyDict d) /\
    text_to_summarize w d = PyStr text /\
    title_text (field d "title") = Some title /\
    let summary := run w (summarize_text key text title) in
    let note := if used then [] else preview_note in
    let boilerplate := [py "subscribe"; py "share"; py "comment"; py "read more"] in
    let meaningful s :=
      (30 <? len (strip s))%nat &&
      negb (existsb (fun word => contains word (str_lower s)) boilerplate) in
    let kept := map strip (filter meaningful (sentences text)) in
    let replacement :=
      if (3 <=? length kept)%nat
      then py "Key points from the article: " ++ join (py " ") (firstn 5 kept)
      else comprehensive_unavailable in
    (summary = [] \/ occurs ai_unavailable summary -> shown = note ++ replacement) /\
    (summary <> [] -> ~ occurs ai_unavailable summary ->
     shown = note ++ summary /\ ~ occurs ai_unavailable shown) /\
    (run w (groq_chat key (summary_messages text title) llama (2 # 10) 1024) = None ->
     summary_sentences text <> [] ->
     occurs ai_unavailable summary /\ shown = note ++ replacement) /\
    (occurs ai_unavailable shown -> occurs ai_unavailable text).
Proof.
  intros Hrun.
  apply summarize_served_inversion in Hrun
    as (d & text & title & s & c & -> & _ & _ & _ & Htext & Hstrip & Htitle & _ & Hbody).
  injection Hbody as -> _ _ ->.
  exists d, text, title. repeat split; auto; cbv zeta.
  - rewrite <- re_split_sentences. fold (key_sentences text).
    unfold final_summary, enhanced_fallback.
    intros [-> | Hocc]; [reflexivity|].
    apply contains_spec in Hocc. now rewrite Hocc, orb_true_r.
  - unfold final_summary.
    destruct (run w (summarize_text key text title)) as [|x summary]; [congruence|].
    cbn [truthy negb orb].
    destruct (contains ai_unavailable (x :: summary)) eqn:Hc; [|reflexivity].
    apply contains_spec in Hc. contradiction.
  - intros Hocc.
    assert (Hfinal : occurs ai_unavailable
                       (final_summary (run w (summarize_text key text title)) text)).
    { destruct (used_full_article w d); [exact Hocc|].
      now apply preview_note_no_marker. }
    unfold final_summary in Hfinal.
    destruct (run w (summarize_text key text title)) as [|x summary]; [congruence|].
    cbn [truthy negb orb] in Hfinal.
    destruct (contains ai_unavailable (x :: summary)) eqn:Hc; [|contradiction].
    apply contains_spec in Hc. contradiction.
  - unfold summarize_text. rewrite Hstrip. cbn [negb]. rewrite run_bind, H.
    cbn [run]. apply contains_spec. unfold fallback_summary.
    destruct (summary_sentences text); [congruence|]. apply contains_prefix.
  - assert (Hocc : contains ai_unavailable (run w (summarize_text key text title)) = true).
    { unfold summarize_text. rewrite Hstrip. cbn [negb]. rewrite run_bind, H.
      cbn [run]. unfold fallback_summary.
      destruct (summary_sentences text); [congruence|]. apply contains_prefix. }
    rewrite <- re_split_sentences. fold (key_sentences text).
    unfold final_summary, enhanced_fallback. now rewrite Hocc, orb_true_r.
  - intros Hocc. apply (final_summary_marker (run w (summarize_text key text title))).
    destruct (used_full_article w d); [exact Hocc|].
    now apply preview_note_no_marker.
Qed.

Lemma summary_replacement_witness :
  run offline (summarize (rt := model_runtime) sample_key (Json (PyDict six_request)))
  = (AnalysisBody
       (preview_note ++ py "Key points from the article: " ++ first_five)
       (py "neutral") (Finite (1 # 2)) false, 200%Z) /\
  ~ occurs ai_unavailable
      (preview_note ++ py "Key points from the article: " ++ first_five).
Proof.
  assert (Hrun : run offline
                   (summarize (rt := model_runtime) sample_key (Json (PyDict six_request)))
                 = (AnalysisBody
                      (preview_note ++ py "Key points from the article: " ++ first_five)
                      (py "neutral") (Finite (1 # 2)) false, 200%Z))
    by (vm_compute; reflexivity).
  split; [exact Hrun|].
  destruct (summary_replacement (rt := model_runtime) sample_key offline _ _ _ _ _ Hrun)
    as (d & text & title & Hd & Htext & _ & _ & _ & _ & Hquoted).
  injection Hd as <-.
  intros Hocc. apply Hquoted in Hocc.
  assert (Hsix : text = six_sentences).
  { assert (E : text_to_summarize (rt := model_runtime) offline six_request
                = PyStr six_sentences) by (vm_compute; reflexivity).
    congruence. }
  subst text. apply contains_spec in Hocc. vm_compute in Hocc. discriminate.
Defined.

(** A text that quotes the marker brings it into the second fallback, which
    is built from the sentences of the text. *)
Example quoted_marker_shown :
  run offline (summarize (rt := model_runtime) sample_key (Json (PyDict quoting_request)))
  = (AnalysisBody
       (preview_note ++ py "Key points from the article: " ++ quoting_preview)
       (py "neutral") (Finite (1 # 2)) false, 200%Z) /\
  contains ai_unavailable quoting_preview = true.
Proof.
  split; vm_compute; reflexivity.
Qed.

(** ** The route: the answer to a served request *)

(** X16: every answer with status 200 is an analysis: it carries one of
    the three labels and a summary that is not empty; when the article
    could not be extracted, the summary starts with the note that it is
    based on the preview text, and the flag for the full article is off. *)
Theorem served_response_shape {rt : PyRuntime} (key : option str) (w : world)
        (request : request_json) (body : response_body) :
  run w (summarize key request) = (body, 200%Z) ->
  exists d summary sentiment confidence,
    request = Json (PyDict d) /\
    body = AnalysisBody summary sentiment confidence (used_full_article w d) /\
    In sentiment sentiment_labels /\
    summary <> [] /\
    (run w (fetch_full_article_any (field d "url")) = None ->
     used_full_article w d = false /\
     exists rest, summary = preview_note ++ rest /\ rest <> []).
Proof.
  intros Hrun.
  apply summarize_served_inversion in Hrun
    as (d & text & title & s & c & -> & _ & _ & _ & _ & _ & _ & Hanalysis & ->).
  set (shown := final_summary (run w (summarize_text key text title)) text).
  assert (Hshown : shown <> []) by apply final_summary_not_empty.
  exists d. eexists _, s, c. split; [reflexivity|]. split; [reflexivity|].
  split; [exact (analyze_sentiment_label key w text s c Hanalysis)|].
  split.
  - destruct (used_full_article w d); [exact Hshown | discriminate].
  - intros Hnone. unfold used_full_article. rewrite Hnone. cbn [has_text].
    split; [reflexivity|]. now exists shown.
Qed.

Lemma served_response_shape_witness :
  exists d summary sentiment confidence,
    Json (PyDict quoting_request) = Json (PyDict d) /\
    AnalysisBody
      (preview_note ++ py "Key points from the article: " ++ quoting_preview)
      (py "neutral") (Finite (1 # 2)) false
    = AnalysisBody summary sentiment confidence
        (used_full_article (rt := model_runtime) offline d) /\
    In sentiment sentiment_labels.
Proof.
  destruct (served_response_shape (rt := model_runtime) sample_key offline
              (Json (PyDict quoting_request))
              (AnalysisBody
                 (preview_note ++ py "Key points from the article: " ++ quoting_preview)
                 (py "neutral") (Finite (1 # 2)) false))
    as (d & summary & sentiment & confidence & Hd & Hbody & Hlabel & _).
  - vm_compute. reflexivity.
  - exists d, summary, sentiment, confidence. auto.
Defined.

(** X17: when the article is extracted, the content of the preview text
    plays no part: two requests for the same URL with the same title, each
    with a preview text that has a length, get the same answer. *)
Theorem article_takes_precedence {rt : PyRuntime} (key : option str) (w : world)
        (data1 data2 : list (str * pyval)) (url article : str) :
  field data1 "url" = PyStr url ->
  field data2 "url" = PyStr url ->
  field data1 "title" = field data2 "title" ->
  py_len (field data1 "text") <> None ->
  py_len (field data2 "text") <> None ->
  truthy url = true ->
  run w (fetch_full_article url) = Some article ->
  run w (summarize key (Json (PyDict data1)))
  = run w (summarize key (Json (PyDict data2))) /\
  text_to_summarize w data1 = PyStr article.
Proof.
  intros Hurl1 Hurl2 Htitle Hlen1 Hlen2 Hurl Hfetch.
  pose proof (fetched_not_empty w url article Hfetch) as Harticle.
  assert (Htext : forall d, field d "url" = PyStr url ->
                            text_to_summarize w d = PyStr article /\
                            used_full_article w d = true).
  { intros d Hd. unfold text_to_summarize, used_full_article.
    rewrite Hd. cbn [fetch_full_article_any]. rewrite Hfetch.
    cbn [choose_text has_text]. now rewrite Harticle. }
  assert (Hdict : forall d, field d "url" = PyStr url -> py_truth (PyDict d) = true).
  { intros [|kv d] Hd; [|reflexivity].
    unfold field, dict_get in Hd. cbn in Hd. injection Hd as <-. discriminate. }
  split; [|now apply Htext].
  rewrite !run_summarize.
  rewrite (Hdict data1 Hurl1), (Hdict data2 Hurl2).
  destruct (Htext data1 Hurl1) as [-> ->]. destruct (Htext data2 Hurl2) as [-> ->].
  rewrite Hurl1, Hurl2, <- Htitle.
  destruct (py_len (field data1 "text")); [|congruence].
  destruct (py_len (field data2 "text")); [|congruence].
  reflexivity.
Qed.

Lemma article_takes_precedence_witness :
  run (serving promo_page)
      (summarize (rt := model_runtime) sample_key (Json (PyDict request_a)))
  = run (serving promo_page)
      (summarize (rt := model_runtime) sample_key (Json (PyDict request_b))).
Proof.
  refine (proj1 (article_takes_precedence (rt := model_runtime) sample_key
                   (serving promo_page) request_a request_b
                   (py "https://news.example/story") (py promo_cleaned)
                   _ _ _ _ _ _ _)).
  - reflexivity.
  - reflexivity.
  - reflexivity.
  - discriminate.
  - discriminate.
  - reflexivity.
  - vm_compute. reflexivity.
Defined.




